(** * The opencode event visualizer ([.opencode/.ralph/visualize.py])

    A shallow embedding of the JSONL event renderer and of the stream
    loop around it, followed by the properties of the renderer.

    - Events are the Python values that [json.loads] returns ([value]).
    - The console of [rich] is the external styled writer.  The model
      records every [console.print] call that goes through (text, style, end,
      markup flag), in order.  A call with markup on raises [MarkupError]
      when [rich] rejects its text; a text without an opening bracket is
      never parsed as markup and never rejected.  What the console shows for
      a markup text (tags removed, emoji codes replaced, long lines wrapped)
      is the library's business.
    - Python exceptions are the left summand of the result; the calls made
      before the exception stay in the output.
    - A Python [str] is kept as its UTF-8 encoding in a Rocq [string]; a
      character is a byte that starts a sequence together with the
      continuation bytes that follow it, and [len], slices and [strip] count
      and test characters.  Strings with lone surrogates have no encoding and
      are outside the model.
    - Three things are taken from the libraries as they are ([library]): the
      verdict of the markup parser of [rich], [str.title] on text that is not
      ASCII, and [str.isprintable] on a character that is not ASCII. *)

From Stdlib Require Import ZArith Bool List String Ascii Lia.
From Stdlib Require Import DecimalString Permutation.
From Stdlib Require Import Floats.SpecFloat.
Import ListNotations.

Open Scope string_scope.
Open Scope nat_scope.
Open Scope list_scope.

Infix "+++" := String.append (right associativity, at level 60).

(* ===================================================================== *)
(** ** Styles and the recorded console                                    *)
(* ===================================================================== *)

Inductive Color := Red | Green | Yellow | Blue | Magenta | Cyan.

(** [rich.style.Style]: only the attributes the program sets. *)
Record Style := mkStyle {
  st_color : option Color;
  st_bold : option bool;
  st_dim : option bool
}.

Definition or_else {A} (a b : option A) : option A :=
  match a with Some _ => a | None => b end.

(** [Style.__add__]: attributes of the right operand win when set. *)
Definition style_add (a b : Style) : Style :=
  mkStyle (or_else (st_color b) (st_color a))
          (or_else (st_bold b) (st_bold a))
          (or_else (st_dim b) (st_dim a)).

(** The module-level [colors] table (lines 20-30). *)
Module colors.
Definition reset := mkStyle None None None.
Definition bright := mkStyle None (Some true) None.
Definition dim := mkStyle None None (Some true).
Definition red := mkStyle (Some Red) None None.
Definition green := mkStyle (Some Green) None None.
Definition yellow := mkStyle (Some Yellow) None None.
Definition blue := mkStyle (Some Blue) None None.
Definition magenta := mkStyle (Some Magenta) None None.
Definition cyan := mkStyle (Some Cyan) None None.
End colors.

Definition NL : string := String (ascii_of_nat 10) EmptyString.

(** One [console.print(text, style=..., end=..., markup=...)] call. *)
Record call := Print {
  text : string;
  style : option Style;
  end_ : string;
  markup : bool
}.

Inductive exn :=
| AttributeError | TypeError | KeyError | ValueError | OverflowError
| RecursionError | MarkupError | JSONDecodeError.

(** Writer over the console calls, with exceptions. *)
Definition M (A : Type) : Type := (list call * (exn + A))%type.

Definition ret {A} (a : A) : M A := ([], inr a).
Definition raise {A} (e : exn) : M A := ([], inl e).
Definition bind {A B} (m : M A) (f : A -> M B) : M B :=
  match m with
  | (o, inl e) => (o, inl e)
  | (o, inr a) => let (o', r) := f a in (o ++ o', r)
  end.

Notation "x <- m ;; k" := (bind m (fun x => k))
  (at level 61, m at next level, right associativity).
Notation "m ;; k" := (bind m (fun _ => k))
  (at level 61, right associativity).

Definition output {A} (m : M A) : list call := fst m.
Definition completes {A} (m : M A) : bool :=
  match snd m with inr _ => true | inl _ => false end.

(** The computation that only prints [o]. *)
Definition tell (o : list call) : M unit := (o, inr tt).

(** What the program takes from its libraries as it is. *)
Record library := Library {
  (** [rich]: rendering this text as console markup raises [MarkupError] *)
  markup_error : string -> bool;
  (** [str.title()] of a text that is not ASCII *)
  str_title : string -> string;
  (** [str.isprintable()] of one character that is not ASCII *)
  is_printable : string -> bool
}.

(* ===================================================================== *)
(** ** Python strings                                                     *)
(* ===================================================================== *)

Definition truthy_str (s : string) : bool :=
  match s with EmptyString => false | _ => true end.

Definition code (c : ascii) : nat := nat_of_ascii c.

(** A continuation byte of a UTF-8 sequence. *)
Definition is_continuation (c : ascii) : bool :=
  (128 <=? code c) && (code c <? 192).

Definition starts_inside (s : string) : bool :=
  match s with
  | String c _ => is_continuation c
  | EmptyString => false
  end.

(** The characters of a string: every byte opens a character unless it is
    a continuation byte that follows another byte. *)
Fixpoint chars (s : string) : list string :=
  match s with
  | EmptyString => []
  | String c r =>
      match chars r with
      | g :: gs =>
          if starts_inside r then String c g :: gs
          else String c EmptyString :: g :: gs
      | [] => [String c EmptyString]
      end
  end.

Definition unchars (gs : list string) : string :=
  fold_right String.append EmptyString gs.

(** A character: a byte followed by continuation bytes; a character that
    is not the first of its string starts with another byte. *)
Fixpoint all_continuation (s : string) : bool :=
  match s with
  | EmptyString => true
  | String c r => is_continuation c && all_continuation r
  end.

Definition is_char (g : string) : bool :=
  match g with
  | String _ r => all_continuation r
  | EmptyString => false
  end.

Definition is_lead_char (g : string) : bool :=
  is_char g && negb (starts_inside g).

Definition well_grouped (gs : list string) : bool :=
  match gs with
  | [] => true
  | g :: r => is_char g && forallb is_lead_char r
  end.

(** [len(s)] *)
Definition py_len (s : string) : nat := List.length (chars s).

(** [s[:n]] for a count [n]. *)
Definition take (n : nat) (s : string) : string :=
  unchars (firstn n (chars s)).

(** [s[:k]] for a Python int [k]: a negative bound counts from the end. *)
Definition slice_to (s : string) (k : Z) : string :=
  if (0 <=? k)%Z then take (Z.to_nat k) s
  else take (py_len s - Z.to_nat (- k)) s.

(** [str(n)] for an int. *)
Definition str_of_Z (z : Z) : string := NilZero.string_of_int (Z.to_int z).

Definition bytes (l : list nat) : string :=
  fold_right (fun n s => String (ascii_of_nat n) s) EmptyString l.

(** The characters [c] with [c.isspace()]: U+0009..U+000D, U+001C..U+0020,
    U+0085, U+00A0, U+1680, U+2000..U+200A, U+2028, U+2029, U+202F, U+205F
    and U+3000, in UTF-8. *)
Definition whitespace : list string :=
  map bytes
    [ [9]; [10]; [11]; [12]; [13]; [28]; [29]; [30]; [31]; [32];
      [194; 133]; [194; 160]; [225; 154; 128];
      [226; 128; 128]; [226; 128; 129]; [226; 128; 130]; [226; 128; 131];
      [226; 128; 132]; [226; 128; 133]; [226; 128; 134]; [226; 128; 135];
      [226; 128; 136]; [226; 128; 137]; [226; 128; 138];
      [226; 128; 168]; [226; 128; 169]; [226; 128; 175];
      [226; 129; 159]; [227; 128; 128] ].

Definition is_space (g : string) : bool := existsb (String.eqb g) whitespace.

Fixpoint lstrip_chars (gs : list string) : list string :=
  match gs with
  | [] => []
  | g :: r => if is_space g then lstrip_chars r else gs
  end.

(** A character is kept when it is not a space or when something is kept
    after it. *)
Fixpoint rstrip_chars (gs : list string) : list string :=
  match gs with
  | [] => []
  | g :: r =>
      match rstrip_chars r with
      | [] => if is_space g then [] else [g]
      | r' => g :: r'
      end
  end.

(** [s.strip()] *)
Definition strip (s : string) : string :=
  unchars (rstrip_chars (lstrip_chars (chars s))).

(** [s.split("\n")]: always at least one piece. *)
Fixpoint split_lines (s : string) : list string :=
  match s with
  | EmptyString => [EmptyString]
  | String c r =>
      if (code c =? 10) then EmptyString :: split_lines r
      else match split_lines r with
           | l :: ls => String c l :: ls
           | [] => [String c EmptyString]
           end
  end.

(** [s.replace("_", " ")] *)
Fixpoint replace_underscores (s : string) : string :=
  match s with
  | EmptyString => EmptyString
  | String c r =>
      String (if (code c =? 95) then " "%char else c) (replace_underscores r)
  end.

Fixpoint is_ascii (s : string) : bool :=
  match s with
  | EmptyString => true
  | String c r => (code c <? 128) && is_ascii r
  end.

Definition is_upper (c : ascii) : bool := (65 <=? code c) && (code c <=? 90).
Definition is_lower (c : ascii) : bool := (97 <=? code c) && (code c <=? 122).
Definition is_cased (c : ascii) : bool := is_upper c || is_lower c.
Definition to_upper (c : ascii) : ascii :=
  if is_lower c then ascii_of_nat (code c - 32) else c.
Definition to_lower (c : ascii) : ascii :=
  if is_upper c then ascii_of_nat (code c + 32) else c.

(** [s.title()] on ASCII text: a cased character is upper-cased after an
    uncased one and lower-cased after a cased one. *)
Fixpoint title_from (previous_is_cased : bool) (s : string) : string :=
  match s with
  | EmptyString => EmptyString
  | String c r =>
      String (if previous_is_cased then to_lower c else to_upper c)
             (title_from (is_cased c) r)
  end.

(** [sep.join(parts)] *)
Fixpoint join (sep : string) (parts : list string) : string :=
  match parts with
  | [] => EmptyString
  | [p] => p
  | p :: rest => p +++ sep +++ join sep rest
  end.

(** [needle in haystack] on two strings. *)
Definition is_substring (needle haystack : string) : bool :=
  match String.index 0 needle haystack with
  | Some _ => true
  | None => false
  end.

Fixpoint contains_char (n : nat) (s : string) : bool :=
  match s with
  | EmptyString => false
  | String c r => (code c =? n) || contains_char n r
  end.

Definition hex_digit (n : nat) : ascii :=
  ascii_of_nat (if n <? 10 then 48 + n else 87 + n).

(** [n] in [width] lower-case hexadecimal digits. *)
Fixpoint hex (width n : nat) : string :=
  match width with
  | O => EmptyString
  | S w => hex w (n / 16) +++ String (hex_digit (n mod 16)) EmptyString
  end.

Definition backslash : ascii := ascii_of_nat 92.

(** The code point that a UTF-8 sequence encodes. *)
Definition code_point (g : string) : nat :=
  match g with
  | EmptyString => 0
  | String c r =>
      let lead :=
        if code c <? 128 then code c
        else if code c <? 224 then code c - 192
        else if code c <? 240 then code c - 224
        else code c - 240 in
      (fix go (acc : nat) (t : string) : nat :=
         match t with
         | EmptyString => acc
         | String d t' => go (acc * 64 + (code d - 128)) t'
         end) lead r
  end.

(** One ASCII character of [repr(s)] with [q] the code of the chosen
    quote. *)
Definition repr_char (q : nat) (c : ascii) : string :=
  let n := code c in
  if (n =? q) || (n =? 92) then String backslash (String c EmptyString)
  else if n =? 9 then String backslash "t"
  else if n =? 10 then String backslash "n"
  else if n =? 13 then String backslash "r"
  else if (n <? 32) || (n =? 127) then String backslash ("x" +++ hex 2 n)
  else String c EmptyString.

(** The escape of a character that is not printable. *)
Definition escape (g : string) : string :=
  let n := code_point g in
  String backslash
    (if n <? 256 then "x" +++ hex 2 n
     else if n <? 256 * 256 then "u" +++ hex 4 n
     else "U" +++ hex 8 n).
(* ===================================================================== *)
(** ** Python floats (IEEE binary64, after [SpecFloat])                   *)
(* ===================================================================== *)

Definition prec : Z := 53.
Definition emax : Z := 1024.

(** [x * 2^a * 10^b] as an integer, negative exponents read as zero. *)
Definition scale (x a b : Z) : Z := (x * 2 ^ Z.max a 0 * 10 ^ Z.max b 0)%Z.

(** Compares [x * 2^a * 10^b] with [y * 2^c * 10^d]. *)
Definition cmp_scaled (x a b y c d : Z) : comparison :=
  (scale x (a - c) (b - d) ?= scale y (c - a) (d - b))%Z.

(** The least [t' >= t] with [F * 2^E < 10^t']. *)
Fixpoint find_decpt (fuel : nat) (F E t : Z) : Z :=
  match fuel with
  | O => t
  | S fuel' =>
      match cmp_scaled F E 0 1 0 t with
      | Lt => t
      | _ => find_decpt fuel' F E (t + 1)%Z
      end
  end.

Definition decpt_of (F E : Z) : Z :=
  find_decpt 8 F E ((Z.log2 F + E) * 30103 / 100000 - 1)%Z.

(** Is [c * 10^k] in the rounding interval [L * 2^E .. H * 2^E]? *)
Definition inside (incl : bool) (L H E c k : Z) : bool :=
  match cmp_scaled L E 0 c 0 k, cmp_scaled c 0 k H E 0 with
  | Lt, Lt => true
  | Eq, (Lt | Eq) | Lt, Eq => incl
  | _, _ => false
  end.

Fixpoint strip_zeros (fuel : nat) (c : Z) : Z :=
  match fuel with
  | O => c
  | S fuel' =>
      if ((c mod 10 =? 0) && negb (c =? 0))%Z
      then strip_zeros fuel' (c / 10)%Z else c
  end.

(** The shortest decimal [c * 10^(dp - n)] that reads back as the float
    [F * 2^E], the nearest one when two of that length do. *)
Fixpoint shortest (fuel : nat) (n : Z) (incl : bool) (F L H E dp : Z)
  : Z * Z :=
  match fuel with
  | O => (0, n)%Z
  | S fuel' =>
      let k := (dp - n)%Z in
      let q := (scale F E (- k) / scale 1 (- E) k)%Z in
      let pick :=
        match inside incl L H E q k, inside incl L H E (q + 1) k with
        | true, false => Some q
        | false, true => Some (q + 1)%Z
        | true, true =>
            match cmp_scaled (2 * F) E 0 (2 * q + 1) 0 k with
            | Lt => Some q
            | Gt => Some (q + 1)%Z
            | Eq => Some (if Z.even q then q else q + 1)%Z
            end
        | false, false => None
        end in
      match pick with
      | Some c => (c, n)
      | None => shortest fuel' (n + 1)%Z incl F L H E dp
      end
  end.

(** The first [n] bytes of a string of digits. *)
Fixpoint first_bytes (n : nat) (s : string) : string :=
  match n, s with
  | S n', String c r => String c (first_bytes n' r)
  | _, _ => EmptyString
  end.

Fixpoint zeros (n : nat) : string :=
  match n with O => EmptyString | S n' => String "0" (zeros n') end.

Definition drop (n : nat) (s : string) : string :=
  String.substring n (String.length s - n) s.

(** Digits and decimal point position of the shortest [repr]. *)
Definition float_digits (m : positive) (e : Z) : string * Z :=
  let F := (4 * Zpos m)%Z in
  let E := (e - 2)%Z in
  let L := if ((Zpos m =? 2 ^ 52) && (-1074 <? e))%Z
           then (F - 1)%Z else (F - 2)%Z in
  let dp := decpt_of F E in
  let '(c, n) := shortest 17 1 (Z.even (Zpos m)) F L (F + 2)%Z E dp in
  (str_of_Z (strip_zeros 17 c),
   (Z.of_nat (String.length (str_of_Z c)) + dp - n)%Z).

Definition float_repr_finite (m : positive) (e : Z) : string :=
  let '(ds, decpt) := float_digits m e in
  let nd := String.length ds in
  if ((decpt <=? -4) || (16 <? decpt))%Z then
    let x := (decpt - 1)%Z in
    let xs := str_of_Z (Z.abs x) in
    first_bytes 1 ds +++ (if 1 <? nd then "." +++ drop 1 ds else EmptyString)
    +++ "e" +++ (if (x <? 0)%Z then "-" else "+")
    +++ (if String.length xs <? 2 then "0" +++ xs else xs)
  else if (decpt <=? 0)%Z then
    "0." +++ zeros (Z.to_nat (- decpt)) +++ ds
  else if (Z.of_nat nd <=? decpt)%Z then
    ds +++ zeros (Z.to_nat decpt - nd) +++ ".0"
  else first_bytes (Z.to_nat decpt) ds +++ "." +++ drop (Z.to_nat decpt) ds.

(** [repr(x)] of a float: the shortest digits that round-trip, in
    exponent form from [1e16] up and below [1e-4]. *)
Definition float_repr (f : spec_float) : string :=
  match f with
  | S754_nan => "nan"
  | S754_infinity s => if s then "-inf" else "inf"
  | S754_zero s => if s then "-0.0" else "0.0"
  | S754_finite s m e =>
      (if s then "-" else EmptyString) +++ float_repr_finite m e
  end.

(** [m * 2^e] rounded to the nearest integer, ties to even. *)
Definition round_half_even (m : positive) (e : Z) : Z :=
  if (0 <=? e)%Z then (Zpos m * 2 ^ e)%Z
  else
    let d := (2 ^ (- e))%Z in
    let q := (Zpos m / d)%Z in
    match (2 * (Zpos m mod d) ?= d)%Z with
    | Lt => q
    | Gt => (q + 1)%Z
    | Eq => if Z.even q then q else (q + 1)%Z
    end.

(** [f"{x:.0f}"] for a float [x]. *)
Definition format_0f (f : spec_float) : string :=
  match f with
  | S754_nan => "nan"
  | S754_infinity s => if s then "-inf" else "inf"
  | S754_zero s => if s then "-0" else "0"
  | S754_finite s m e =>
      (if s then "-" else EmptyString) +++ str_of_Z (round_half_even m e)
  end.

(** [float(n)] for an int: correctly rounded, [OverflowError] beyond the
    largest double. *)
Definition float_of_int (z : Z) : M spec_float :=
  match binary_normalize prec emax z 0 false with
  | S754_infinity _ => raise OverflowError
  | f => ret f
  end.

Definition truthy_float (f : spec_float) : bool :=
  match f with S754_zero _ => false | _ => true end.

(** A library for the examples: its markup parser rejects every text
    that holds the opening of a closing tag; titles and printability are
    those of text without letters or control characters. *)
Definition strict_library : library :=
  Library (is_substring "[/") (fun s => s) (fun _ => true).

Section Program.

Variable lib : library.

(* ===================================================================== *)
(** ** The console and the builtins that depend on the libraries          *)
(* ===================================================================== *)

(** [rich] parses a text as markup only when it holds an opening bracket
    ([if "[" not in markup] in [rich.markup.render]). *)
Definition markup_raises (t : string) : bool :=
  contains_char 91 t && markup_error lib t.

(** [console.print(t, style=s, end=e, markup=mk)] *)
Definition console_print (t : string) (s : option Style) (e : string)
  (mk : bool) : M unit :=
  if mk && markup_raises t then raise MarkupError
  else ([Print t s e mk], inr tt).

(** [console.print()] *)
Definition print_newline : M unit := console_print EmptyString None NL true.

(** [s.title()] *)
Definition title (s : string) : string :=
  if is_ascii s then title_from false s else str_title lib s.

(** One character of [repr(s)]. *)
Definition repr_group (q : nat) (g : string) : string :=
  match g with
  | String c EmptyString =>
      if code c <? 128 then repr_char q c
      else if is_printable lib g then g else escape g
  | _ => if is_printable lib g then g else escape g
  end.

(** [repr(s)] of a string: single quotes unless the string holds a single
    quote and no double quote. *)
Definition repr_str (s : string) : string :=
  let q := if contains_char 39 s && negb (contains_char 34 s) then 34 else 39 in
  String (ascii_of_nat q)
         (unchars (map (repr_group q) (chars s))
          +++ String (ascii_of_nat q) EmptyString).

(* ===================================================================== *)
(** ** Decoded JSON values and the builtins applied to them               *)
(* ===================================================================== *)

#[local] Set Warnings "-register-all".

(** What [json.loads] builds.  A dict keeps its pairs in insertion order
    (the order [str] prints them in); its keys are strings. *)
Inductive value :=
| VNone
| VBool (b : bool)
| VInt (z : Z)
| VFloat (f : spec_float)
| VStr (s : string)
| VList (l : list value)
| VDict (d : list (string * value)).

Definition dict := list (string * value).

Fixpoint dict_get (d : dict) (k : string) : option value :=
  match d with
  | [] => None
  | (k', v) :: rest => if String.eqb k' k then Some v else dict_get rest k
  end.

Definition dict_mem (d : dict) (k : string) : bool :=
  match dict_get d k with Some _ => true | None => false end.

(** [bool(v)] *)
Definition truthy (v : value) : bool :=
  match v with
  | VNone => false
  | VBool b => b
  | VInt z => negb (z =? 0)%Z
  | VFloat f => truthy_float f
  | VStr s => truthy_str s
  | VList l => match l with [] => false | _ => true end
  | VDict d => match d with [] => false | _ => true end
  end.

(** [repr(v)] *)
Fixpoint py_repr (v : value) : string :=
  match v with
  | VNone => "None"
  | VBool b => if b then "True" else "False"
  | VInt z => str_of_Z z
  | VFloat f => float_repr f
  | VStr s => repr_str s
  | VList l => "[" +++ join ", " (map py_repr l) +++ "]"
  | VDict d =>
      "{" +++ join ", "
                (map (fun kv => match kv with
                                | (k, x) => repr_str k +++ ": " +++ py_repr x
                                end) d)
          +++ "}"
  end.

(** [str(v)], which is also what an f-string field [{v}] inserts. *)
Definition py_str (v : value) : string :=
  match v with
  | VStr s => s
  | _ => py_repr v
  end.

(** The value under [key], or [default] when the key is absent. *)
Definition field (d : dict) (key : string) (default : value) : value :=
  match dict_get d key with Some v => v | None => default end.

(** [obj.get(key, default)]: only a dict has [get]. *)
Definition py_get (obj : value) (key : string) (default : value) : M value :=
  match obj with
  | VDict d => ret (field d key default)
  | _ => raise AttributeError
  end.

(** [key in container] for a string [key]. *)
Definition py_contains (container : value) (key : string) : M bool :=
  match container with
  | VDict d => ret (dict_mem d key)
  | VStr s => ret (is_substring key s)
  | VList l =>
      ret (existsb (fun x => match x with
                             | VStr s => String.eqb s key
                             | _ => false
                             end) l)
  | _ => raise TypeError
  end.

(** [container[key]] for a string [key]. *)
Definition py_getitem (container : value) (key : string) : M value :=
  match container with
  | VDict d =>
      match dict_get d key with
      | Some v => ret v
      | None => raise KeyError
      end
  | _ => raise TypeError
  end.

(** [v[:8]] *)
Definition py_slice8 (v : value) : M value :=
  match v with
  | VStr s => ret (VStr (take 8 s))
  | VList l => ret (VList (firstn 8 l))
  | _ => raise TypeError
  end.

(** Operands of the numeric tower: an int (a bool counts as 0 or 1) or a
    float. *)
Definition as_number (v : value) : option (Z + spec_float) :=
  match v with
  | VBool b => Some (inl (if b then 1 else 0)%Z)
  | VInt z => Some (inl z)
  | VFloat f => Some (inr f)
  | _ => None
  end.

Definition to_float (n : Z + spec_float) : M spec_float :=
  match n with
  | inl z => float_of_int z
  | inr f => ret f
  end.

(** [a - b] *)
Definition py_sub (a b : value) : M value :=
  match as_number a, as_number b with
  | Some (inl x), Some (inl y) => ret (VInt (x - y))
  | Some x, Some y =>
      fx <- to_float x ;;
      fy <- to_float y ;;
      ret (VFloat (SFsub prec emax fx fy))
  | _, _ => raise TypeError
  end.

(** [f"{v:.0f}"] *)
Definition py_format_0f (v : value) : M string :=
  match v with
  | VBool _ | VInt _ | VFloat _ =>
      match as_number v with
      | Some n => f <- to_float n ;; ret (format_0f f)
      | None => raise TypeError
      end
  | VStr _ => raise ValueError
  | _ => raise TypeError
  end.

(** [v.split("\n")]: only a string has [split]. *)
Definition py_split_lines (v : value) : M (list string) :=
  match v with
  | VStr s => ret (split_lines s)
  | _ => raise AttributeError
  end.

(* ===================================================================== *)
(** ** The program                                                        *)
(* ===================================================================== *)

(** The [event_styles] table of [get_event_style] (lines 35-44). *)
Definition event_styles : list (string * (string * Style)) :=
  [ ("tool_use", ("🔧", colors.cyan));
    ("step_start", ("▶️", colors.blue));
    ("step_finish", ("✅", colors.green));
    ("text", ("💬", colors.reset));
    ("error", ("❌", colors.red));
    ("thinking", ("🤔", colors.magenta));
    ("session_start", ("🚀", style_add colors.bright colors.green));
    ("session_end", ("🏁", style_add colors.bright colors.blue)) ].

Definition fallback_style : string * Style := ("⏺", colors.dim).

Fixpoint styles_get (t : list (string * (string * Style))) (k : string)
  : option (string * Style) :=
  match t with
  | [] => None
  | (k', v) :: rest => if String.eqb k' k then Some v else styles_get rest k
  end.

(** [get_event_style] (lines 33-45).  A list or a dict cannot be hashed
    for the lookup; any other value that is not a known kind gets the
    fallback pair. *)
Definition get_event_style (event_type : value) : M (string * Style) :=
  match event_type with
  | VList _ | VDict _ => raise TypeError
  | VStr s =>
      ret (match styles_get event_styles s with
           | Some p => p
           | None => fallback_style
           end)
  | _ => ret fallback_style
  end.

(** [safe_str] (lines 48-53). *)
Definition safe_str (v : value) (max_len : option Z) : string :=
  let result := match v with VStr s => s | _ => py_str v end in
  match max_len with
  | Some n =>
      if (n <? Z.of_nat (py_len result))%Z
      then slice_to result n +++ "..."
      else result
  | None => result
  end.

Definition INDENT : string := "  ⎿  ".

(** [v == s] for a string literal [s]. *)
Definition eq_str (v : value) (s : string) : bool :=
  match v with VStr s' => String.eqb s' s | _ => false end.

(** Lines 71-77, the body of [if debug:]. *)
Definition print_debug_info (timestamp session_id : value) : M unit :=
  let debug_info :=
    if truthy timestamp then ["[" +++ py_str timestamp +++ "]"] else [] in
  debug_info <-
    (if truthy session_id then
       cut <- py_slice8 session_id ;;
       ret (debug_info ++ ["(session: " +++ py_str cut +++ "...)"])
     else ret debug_info) ;;
  match debug_info with
  | [] => ret tt
  | _ => console_print (join " " debug_info) (Some colors.dim) " " true
  end.

(** Lines 79-80: the icon, then the kind label. *)
Definition print_header (event_type : value) (icon : string) (st : Style)
  : M unit :=
  console_print (icon +++ " ") None EmptyString true ;;
  match event_type with
  | VStr s =>
      console_print (title (replace_underscores s)) (Some st) EmptyString true
  | _ => raise AttributeError
  end.

Definition priority_keys : list string :=
  ["path"; "file_path"; "command"; "query"; "pattern"; "url"].

(** The [for key in [...]] loop of lines 106-115, left at the first key
    found by [break]. *)
Fixpoint show_key_argument (keys : list string) (tool_input : value)
  : M unit :=
  match keys with
  | [] => ret tt
  | key :: rest =>
      found <- py_contains tool_input key ;;
      if found then
        console_print INDENT None EmptyString true ;;
        console_print (key +++ ": ") (Some colors.dim) EmptyString true ;;
        v <- py_getitem tool_input key ;;
        console_print (safe_str v (Some 80%Z)) (Some colors.green) NL false
      else show_key_argument rest tool_input
  end.

(** Lines 83-115. *)
Definition format_tool_use (part : value) : M unit :=
  tool_name <- py_get part "tool" (VStr "unknown") ;;
  tool_state <- py_get part "state" (VDict []) ;;
  tool_title <- py_get tool_state "title" (VStr EmptyString) ;;
  tool_input <- py_get tool_state "input" (VDict []) ;;
  tool_status <- py_get tool_state "status" (VStr EmptyString) ;;
  console_print (" (" +++ py_str tool_name +++ ")") (Some colors.cyan)
                EmptyString true ;;
  (if truthy tool_status then
     let status_color :=
       if eq_str tool_status "completed" then colors.green
       else colors.yellow in
     console_print (" [" +++ py_str tool_status +++ "]") (Some status_color)
                   EmptyString true
   else ret tt) ;;
  print_newline ;;
  (if truthy tool_title then
     console_print INDENT None EmptyString true ;;
     console_print ("Title: " +++ py_str tool_title) (Some colors.dim) NL true
   else ret tt) ;;
  (if truthy tool_input then show_key_argument priority_keys tool_input
   else ret tt).

(** Lines 117-122. *)
Definition format_step_start (part : value) : M unit :=
  step_type <- py_get part "type" (VStr EmptyString) ;;
  if truthy step_type then
    console_print (" - " +++ py_str step_type) (Some colors.blue) NL true
  else print_newline.

(** Lines 124-138. *)
Definition format_step_finish (part : value) : M unit :=
  step_type <- py_get part "type" (VStr EmptyString) ;;
  time_info <- py_get part "time" (VDict []) ;;
  start_time <- py_get time_info "start" VNone ;;
  end_time <- py_get time_info "end" VNone ;;
  duration <-
    (if truthy start_time && truthy end_time
     then py_sub end_time start_time
     else ret VNone) ;;
  (if truthy step_type then
     console_print (" - " +++ py_str step_type) (Some colors.green)
                   EmptyString true
   else ret tt) ;;
  (if truthy duration then
     d <- py_format_0f duration ;;
     console_print (" (" +++ d +++ "ms)") (Some colors.dim) EmptyString true
   else ret tt) ;;
  print_newline.

Definition summary_line (remaining : nat) : string :=
  "... (" +++ str_of_Z (Z.of_nat remaining) +++ " more lines)".

(** The summary of lines 154-156 and 173-175. *)
Definition show_summary (total lines_to_show : nat) : M unit :=
  if lines_to_show <? total then
    console_print INDENT None EmptyString true ;;
    console_print (summary_line (total - lines_to_show)) (Some colors.dim)
                  NL true
  else ret tt.

(** The loop of lines 148-152 over [enumerate(lines[:lines_to_show])],
    from index [i]. *)
Fixpoint show_text_lines (i : nat) (lines : list string) : M unit :=
  match lines with
  | [] => ret tt
  | line :: rest =>
      (if truthy_str (strip line) || (i =? 0) then
         console_print INDENT None EmptyString true ;;
         let line_style := if i =? 0 then colors.reset else colors.dim in
         console_print line (Some line_style) NL false
       else ret tt) ;;
      show_text_lines (S i) rest
  end.

(** Lines 140-158. *)
Definition format_text (part : value) : M unit :=
  text_content <- py_get part "text" (VStr EmptyString) ;;
  if truthy text_content then
    print_newline ;;
    lines <- py_split_lines text_content ;;
    let lines_to_show := Nat.min 5 (List.length lines) in
    show_text_lines 0 (firstn lines_to_show lines) ;;
    show_summary (List.length lines) lines_to_show
  else print_newline.

(** The loop of lines 168-171. *)
Fixpoint show_thinking_lines (lines : list string) : M unit :=
  match lines with
  | [] => ret tt
  | line :: rest =>
      (if truthy_str (strip line) then
         console_print INDENT None EmptyString true ;;
         console_print line (Some colors.magenta) NL false
       else ret tt) ;;
      show_thinking_lines rest
  end.

(** Lines 160-177. *)
Definition format_thinking (part : value) : M unit :=
  thinking_content <- py_get part "text" (VStr EmptyString) ;;
  if truthy thinking_content then
    print_newline ;;
    lines <- py_split_lines thinking_content ;;
    let lines_to_show := Nat.min 3 (List.length lines) in
    show_thinking_lines (firstn lines_to_show lines) ;;
    show_summary (List.length lines) lines_to_show
  else print_newline.

(** Lines 179-186. *)
Definition format_error (error_data : value) : M unit :=
  error_name <- py_get error_data "name" (VStr "Error") ;;
  data <- py_get error_data "data" (VDict []) ;;
  error_msg <- py_get data "message" (VStr (py_str error_data)) ;;
  print_newline ;;
  console_print INDENT None EmptyString true ;;
  console_print (py_str error_name +++ ": ")
                (Some (style_add colors.red colors.bright)) EmptyString true ;;
  console_print (safe_str error_msg (Some 200%Z)) (Some colors.red) NL false.

(** Lines 192-200. *)
Definition format_unknown (part error_data : value) : M unit :=
  let data_to_show := if truthy part then part else error_data in
  if truthy data_to_show then
    print_newline ;;
    console_print INDENT None EmptyString true ;;
    console_print (safe_str data_to_show (Some 100%Z)) (Some colors.dim)
                  NL false
  else print_newline.

(** The [if]/[elif] chain of lines 83-200. *)
Definition format_body (event_type part error_data : value) : M unit :=
  if eq_str event_type "tool_use" then format_tool_use part
  else if eq_str event_type "step_start" then format_step_start part
  else if eq_str event_type "step_finish" then format_step_finish part
  else if eq_str event_type "text" then format_text part
  else if eq_str event_type "thinking" then format_thinking part
  else if eq_str event_type "error" then format_error error_data
  else if eq_str event_type "session_start"
          || eq_str event_type "session_end" then print_newline
  else format_unknown part error_data.

(** [format_opencode_event] (lines 56-202). *)
Definition format_opencode_event (event : value) (debug : bool) : M unit :=
  event_type <- py_get event "type" (VStr "unknown") ;;
  timestamp <- py_get event "timestamp" (VStr EmptyString) ;;
  session_id <- py_get event "sessionID" (VStr EmptyString) ;;
  part <- py_get event "part" (VDict []) ;;
  error_data <- py_get event "error" (VDict []) ;;
  style_pair <- get_event_style event_type ;;
  let '(icon, st) := style_pair in
  (if debug then print_debug_info timestamp session_id else ret tt) ;;
  print_header event_type icon st ;;
  format_body event_type part error_data ;;
  print_newline.

(** [try: body  except json.JSONDecodeError: handler] *)
Definition try_except_JSONDecodeError (body handler : M unit) : M unit :=
  match body with
  | (o, inl JSONDecodeError) => let (o', r) := handler in (o ++ o', r)
  | _ => body
  end.

(** The handler of lines 218-222. *)
Definition print_parse_error (line : string) : M unit :=
  console_print "⏺ " None EmptyString true ;;
  console_print "Parse Error" (Some colors.red) NL true ;;
  console_print (INDENT +++ take 80 line +++ "...") (Some colors.dim) NL false ;;
  print_newline.

Section Stream.

(** [json.loads] of the standard library: a decoded value, or the
    exception it raises. *)
Variable json_loads : string -> exn + value.

Definition loads (line : string) : M value :=
  match json_loads line with
  | inl e => raise e
  | inr v => ret v
  end.

(** [process_stream] (lines 205-222) over the lines of [sys.stdin]. *)
Fixpoint process_lines (debug_mode : bool) (stdin : list string) : M unit :=
  match stdin with
  | [] => ret tt
  | line :: rest =>
      let line := strip line in
      if negb (truthy_str line) then process_lines debug_mode rest
      else
        try_except_JSONDecodeError
          (event <- loads line ;; format_opencode_event event debug_mode)
          (print_parse_error line) ;;
        process_lines debug_mode rest
  end.

Definition process_stream (argv stdin : list string) : M unit :=
  let debug_mode := existsb (String.eqb "--debug") argv in
  process_lines debug_mode stdin.

End Stream.

(* ===================================================================== *)
(** ** Describing what was printed                                        *)
(* ===================================================================== *)

(** [console.print()] as a recorded call. *)
Definition blank_line : call := Print EmptyString None NL true.

(** [console.print("  ⎿  ", end="")] as a recorded call. *)
Definition indent_call : call := Print INDENT None EmptyString true.

(** Lines 70-77 on the fields of the event. *)
Definition debug_prefix (ev : dict) (debug : bool) : M unit :=
  if debug then
    print_debug_info (field ev "timestamp" (VStr EmptyString))
                     (field ev "sessionID" (VStr EmptyString))
  else ret tt.

(** The two header calls: icon, then styled label. *)
Definition header (icon label : string) (st : Style) : list call :=
  [Print (icon +++ " ") None EmptyString true;
   Print label (Some st) EmptyString true].



(** What a [tool_use] event prints before its argument line: the header
    with tool name and status, and the title line. *)
Definition tool_use_head (part state : dict) : list call :=
  let tool_name := field part "tool" (VStr "unknown") in
  let tool_title := field state "title" (VStr EmptyString) in
  let tool_status := field state "status" (VStr EmptyString) in
  header "🔧" "Tool Use" colors.cyan
  ++ [Print (" (" +++ py_str tool_name +++ ")") (Some colors.cyan)
            EmptyString true]
  ++ (if truthy tool_status then
        [Print (" [" +++ py_str tool_status +++ "]")
               (Some (if eq_str tool_status "completed" then colors.green
                      else colors.yellow))
               EmptyString true]
      else [])
  ++ [blank_line]
  ++ (if truthy tool_title then
        [indent_call;
         Print ("Title: " +++ py_str tool_title) (Some colors.dim) NL true]
      else []).

(** The pair [get_event_style] returns for a string kind. *)
Definition style_of (kind : string) : string * Style :=
  match styles_get event_styles kind with
  | Some p => p
  | None => fallback_style
  end.

(** The header of an event of string kind [kind]. *)
Definition kind_header (kind : string) : list call :=
  header (fst (style_of kind)) (title (replace_underscores kind))
         (snd (style_of kind)).

(** A line is blank when [line.strip()] is empty. *)
Definition is_blank (line : string) : bool := negb (truthy_str (strip line)).

(** [enumerate(lines)] counting from [i]. *)
Definition enumerate_from (i : nat) (lines : list string)
  : list (nat * string) :=
  combine (seq i (List.length lines)) lines.

(** A [text] line is kept when it is not blank or is the first line. *)
Definition text_keeps (il : nat * string) : bool :=
  negb (is_blank (snd il)) || (fst il =? 0).

(** The lines a [text] event shows, with their indices: those kept among
    the first five. *)
Definition text_shown (lines : list string) : list (nat * string) :=
  filter text_keeps (enumerate_from 0 (firstn 5 lines)).

(** The lines of the whole content that the [text] rule does not skip. *)
Definition text_non_skipped (lines : list string) : list (nat * string) :=
  filter text_keeps (enumerate_from 0 lines).

(** The lines a [thinking] event shows: the non-blank ones among the first
    three. *)
Definition thinking_shown (lines : list string) : list string :=
  filter (fun line => negb (is_blank line)) (firstn 3 lines).

Definition thinking_non_skipped (lines : list string) : list string :=
  filter (fun line => negb (is_blank line)) lines.

Definition text_line_calls (il : nat * string) : list call :=
  [indent_call;
   Print (snd il)
         (Some (if fst il =? 0 then colors.reset else colors.dim)) NL false].

Definition thinking_line_calls (line : string) : list call :=
  [indent_call; Print line (Some colors.magenta) NL false].

(** The summary line for [total] lines under a cap of [cap] lines. *)
Definition summary_calls (total cap : nat) : list call :=
  if cap <? total then
    [indent_call;
     Print (summary_line (total - cap)) (Some colors.dim) NL true]
  else [].


(** The body of an event of unrecognized kind: the payload summary, or only
    the line break that ends the header. *)
Definition unknown_body (part error_data : value) : list call :=
  let data_to_show := if truthy part then part else error_data in
  if truthy data_to_show then
    [blank_line;
     indent_call;
     Print (safe_str data_to_show (Some 100%Z)) (Some colors.dim) NL false]
  else [blank_line].

(** What the handler of a decode failure prints for the stripped [line]. *)
Definition parse_error_block (line : string) : list call :=
  [Print "⏺ " None EmptyString true;
   Print "Parse Error" (Some colors.red) NL true;
   Print (INDENT +++ take 80 line +++ "...") (Some colors.dim) NL false;
   blank_line].


Definition step_finish_event (start_time end_time : value) : value :=
  VDict [("type", VStr "step_finish");
         ("part", VDict [("type", VStr "build");
                         ("time", VDict [("start", start_time);
                                         ("end", end_time)])])].







(** A decoder that knows one document, for examples. *)
Definition toy_loads (line : string) : exn + value :=
  if String.eqb line "{}" then inr (VDict []) else inl JSONDecodeError.

(* ===================================================================== *)
(** ** The lines of a rendering                                           *)
(* ===================================================================== *)

(** The console as lines of characters: the closed lines, newest first,
    and the line under construction.  A line break closes the line, any
    other character extends it; a call writes its text and then its [end].
    These are the characters passed to the console.  For a tidy call
    (below) the console shows the text as it is, up to emoji codes and the
    wrapping of long lines, which neither empty a line nor fill an empty
    one. *)
Record screen := Screen {
  closed_lines : list string;
  open_line : string
}.

Definition put (s : screen) (c : ascii) : screen :=
  if code c =? 10 then Screen (open_line s :: closed_lines s) EmptyString
  else Screen (closed_lines s) (open_line s +++ String c EmptyString).

Fixpoint put_string (t : string) (s : screen) : screen :=
  match t with
  | EmptyString => s
  | String c r => put_string r (put s c)
  end.

Definition write (s : screen) (c : call) : screen :=
  put_string (end_ c) (put_string (text c) s).

Definition show (out : list call) (s : screen) : screen :=
  fold_left write out s.

Definition lines_of (out : list call) : screen :=
  show out (Screen [] EmptyString).

(** The last line is empty, the line before it is not, and no line is left
    open. *)
Definition blank_closed (s : screen) : Prop :=
  open_line s = EmptyString
  /\ exists line before,
       closed_lines s = EmptyString :: line :: before
       /\ line <> EmptyString.

Definition ends_with_one_blank_line (out : list call) : Prop :=
  blank_closed (lines_of out).

(** The last line is empty and is not the first one. *)
Definition blank_last (s : screen) : Prop :=
  open_line s = EmptyString
  /\ exists line before, closed_lines s = EmptyString :: line :: before.

Definition ends_with_blank_line (out : list call) : Prop :=
  blank_last (lines_of out).

(** The line under construction shows something. *)
Definition line_open (s : screen) : Prop := open_line s <> EmptyString.

(** A line that shows something was just closed. *)
Definition line_closed (s : screen) : Prop :=
  open_line s = EmptyString
  /\ exists line before,
       closed_lines s = line :: before /\ line <> EmptyString.

(** Some line was just closed. *)
Definition line_start (s : screen) : Prop :=
  open_line s = EmptyString /\ closed_lines s <> [].

Fixpoint ends_with_break (t : string) : bool :=
  match t with
  | EmptyString => false
  | String c EmptyString => code c =? 10
  | String _ r => ends_with_break r
  end.

(** A call whose text does not end in a line break and is shown as it is:
    printed with markup off, or free of opening brackets. *)
Definition tidy (c : call) : bool :=
  negb (ends_with_break (text c))
  && (negb (markup c) || negb (contains_char 91 (text c))).

(** [triple G P m Q]: from a screen in [P], a run of [m] that completes,
    all of whose calls are in [G], leaves the screen in [Q]. *)
Definition triple {A} (G : call -> Prop) (P : screen -> Prop) (m : M A)
  (Q : A -> screen -> Prop) : Prop :=
  forall s, P s ->
    match m with
    | (o, inr a) => Forall G o -> Q a (show o s)
    | (_, inl _) => True
    end.

(* ===================================================================== *)
(** ** Events the renderer completes on                                   *)
(* ===================================================================== *)

Definition is_dict (v : value) : bool :=
  match v with VDict _ => true | _ => false end.

Definition is_str (v : value) : bool :=
  match v with VStr _ => true | _ => false end.

(** A session identifier that line 75 can cut, or that line 74 skips. *)
Definition session_id_shaped (v : value) : bool :=
  match v with
  | VStr _ | VList _ => true
  | _ => negb (truthy v)
  end.




(** The console accepts the text as markup. *)
Definition accepted (t : string) : bool := negb (markup_raises t).

(** [v[:8]] where it is defined. *)
Definition slice8 (v : value) : value :=
  match v with
  | VStr s => VStr (take 8 s)
  | VList l => VList (firstn 8 l)
  | _ => v
  end.

(** The parts of the debug prefix (lines 71-75). *)
Definition debug_parts (timestamp session_id : value) : list string :=
  (if truthy timestamp then ["[" +++ py_str timestamp +++ "]"] else [])
  ++ (if truthy session_id
      then ["(session: " +++ py_str (slice8 session_id) +++ "...)"]
      else []).


(** The step type is falsy, or its suffix is accepted markup. *)
Definition suffix_shaped (p : dict) : bool :=
  let step_type := field p "type" (VStr EmptyString) in
  negb (truthy step_type) || accepted (" - " +++ py_str step_type).

(** The texts of lines 91-102 are accepted markup. *)
Definition tool_head_accepted (part state : dict) : bool :=
  let tool_status := field state "status" (VStr EmptyString) in
  let tool_title := field state "title" (VStr EmptyString) in
  accepted (" (" +++ py_str (field part "tool" (VStr "unknown")) +++ ")")
  && (negb (truthy tool_status)
      || accepted (" [" +++ py_str tool_status +++ "]"))
  && (negb (truthy tool_title)
      || accepted ("Title: " +++ py_str tool_title)).











(** A content of seven lines, and one that starts with a blank line. *)
Definition seven_lines : string :=
  join NL ["a"; "b"; "c"; "d"; "e"; "f"; "g"].

Definition seven_lines_part : dict := [("text", VStr seven_lines)].

Definition seven_lines_fields : dict :=
  [("type", VStr "text"); ("part", VDict seven_lines_part)].

Definition blank_first : string := join NL [EmptyString; "foo"].

Definition blank_first_part : dict := [("text", VStr blank_first)].

(* ===================================================================== *)
(** ** The entry point                                                    *)
(* ===================================================================== *)

Section Main.

(** [json.loads], and the text [str(e)] of the exception a run ends with;
    both belong to the interpreter. *)
Variable json_loads : string -> exn + value.
Variable message : exn -> string.

(** Lines 225-232: the output and the exit status of the process.  The run
    that falls off the end exits with 0; an exception is reported in red
    and exits with 1.  (The interrupt of line 228 comes from outside the
    program and is not part of the model.) *)
Definition main (argv stdin : list string) : list call * Z :=
  match process_stream json_loads argv stdin with
  | (o, inr _) => (o, 0%Z)
  | (o, inl e) =>
      (o ++ [Print ("Error: " +++ message e) (Some colors.red) NL false],
       1%Z)
  end.

End Main.

(** The stripped lines that the loop does not skip. *)
Definition non_blank_lines (stdin : list string) : list string :=
  filter truthy_str (map strip stdin).

(** The call that the debug prefix makes for its two parts. *)
Definition debug_call (parts : list string) : call :=
  Print (join " " parts) (Some colors.dim) " " true.

(** The step-type suffix of [step_start] and [step_finish] in [st]. *)
Definition step_suffix (step_type : value) (st : Style) (e : string)
  : list call :=
  if truthy step_type then [Print (" - " +++ py_str step_type) (Some st) e true]
  else [].

(** The eight kinds with a rule of their own. *)
Definition known_kinds : list string := map fst event_styles.

(** [bounded n m]: the run of [m] makes at most [n] console calls,
    whether it completes or raises. *)
Definition bounded {A} (n : nat) (m : M A) : Prop :=
  List.length (output m) <= n.

(** A text event of six lines with a session identifier, for the largest
    rendering. *)
Definition six_lines_fields : dict :=
  [("type", VStr "text"); ("sessionID", VStr "s1");
   ("part", VDict [("text", VStr (join NL ["1"; "2"; "3"; "4"; "5"; "6"]))])].

(** The number of characters of code [n] in [s]. *)
Fixpoint count_char (n : nat) (s : string) : nat :=
  match s with
  | EmptyString => 0
  | String c r => (if code c =? n then 1 else 0) + count_char n r
  end.

(** The screen before anything is printed. *)
Definition blank_screen : screen := Screen [] EmptyString.


(* ===================================================================== *)
(** ** More descriptions and samples                                      *)
(* ===================================================================== *)

(** Lines 79-80 for an event of string kind. *)
Definition print_kind_header (kind : string) : M unit :=
  print_header (VStr kind) (fst (style_of kind)) (snd (style_of kind)).

(** Lines 91-102 on the fields of the part and of its state: tool name,
    status, end of the header line, title line. *)
Definition print_tool_head (part state : dict) : M unit :=
  let tool_name := field part "tool" (VStr "unknown") in
  let tool_title := field state "title" (VStr EmptyString) in
  let tool_status := field state "status" (VStr EmptyString) in
  console_print (" (" +++ py_str tool_name +++ ")") (Some colors.cyan)
                EmptyString true ;;
  (if truthy tool_status then
     console_print (" [" +++ py_str tool_status +++ "]")
                   (Some (if eq_str tool_status "completed" then colors.green
                          else colors.yellow))
                   EmptyString true
   else ret tt) ;;
  print_newline ;;
  (if truthy tool_title then
     console_print INDENT None EmptyString true ;;
     console_print ("Title: " +++ py_str tool_title) (Some colors.dim) NL true
   else ret tt).


(** A thinking content of five lines, three of them blank. *)
Definition sparse_thinking : string :=
  join NL ["a"; EmptyString; EmptyString; EmptyString; "b"].

Definition sparse_thinking_fields : dict :=
  [("type", VStr "thinking"); ("part", VDict [("text", VStr sparse_thinking)])].

(** An error whose message ends in a line break. *)
Definition boom_break_fields : dict :=
  [("type", VStr "error");
   ("error", VDict [("data", VDict [("message", VStr ("boom" +++ NL))])])].

(** A line of 100000 opening brackets, on which [json.loads] exceeds the
    recursion limit, and a decoder that answers so. *)
Definition deep_line : string :=
  N.iter 100000 (String "["%char) EmptyString.

Definition deep_loads (line : string) : exn + value :=
  if String.eqb line deep_line then inl RecursionError else toy_loads line.

(** A thinking content whose second line holds only a no-break space. *)
Definition no_break_space : string := bytes [194; 160].

Definition spaced_thinking : string := join NL ["a"; no_break_space; "b"].

(* ===================================================================== *)
(** ** Strings: characters, lengths and cuts                              *)
(* ===================================================================== *)

Section StringFacts.

Lemma append_assoc_str (a b c : string) : (a +++ b) +++ c = a +++ b +++ c.
Proof.
  induction a as [|x a IH]; simpl; [reflexivity | now rewrite IH].
Qed.

Lemma append_empty_r (a : string) : a +++ EmptyString = a.
Proof.
  induction a as [|x a IH]; simpl; [reflexivity | now rewrite IH].
Qed.

Lemma truthy_append (a b : string) :
  truthy_str (a +++ b) = truthy_str a || truthy_str b.
Proof. destruct a; reflexivity. Qed.

Lemma unchars_app (a b : list string) :
  unchars (a ++ b) = unchars a +++ unchars b.
Proof.
  induction a as [|g a IH]; simpl; [reflexivity|].
  unfold unchars in *. simpl. now rewrite IH, append_assoc_str.
Qed.

Lemma chars_cons (c : ascii) (r : string) :
  chars (String c r) =
  match chars r with
  | g :: gs =>
      if starts_inside r then String c g :: gs
      else String c EmptyString :: g :: gs
  | [] => [String c EmptyString]
  end.
Proof. reflexivity. Qed.

Lemma chars_empty (s : string) : chars s = [] -> s = EmptyString.
Proof.
  destruct s as [|c r]; [reflexivity|]. rewrite chars_cons.
  destruct (chars r); [discriminate|]. now destruct (starts_inside r).
Qed.

Lemma unchars_chars (s : string) : unchars (chars s) = s.
Proof.
  induction s as [|c r IH]; [reflexivity|]. rewrite chars_cons.
  destruct (chars r) as [|g gs] eqn:E.
  - apply chars_empty in E. now subst.
  - destruct (starts_inside r); unfold unchars in *; simpl in *;
      now rewrite IH.
Qed.

(** One character in front of a string that starts with a character. *)
Lemma chars_char (t b : string) (c : ascii) :
  all_continuation t = true -> starts_inside b = false ->
  chars (String c (t +++ b)) = String c t :: chars b.
Proof.
  revert c. induction t as [|c' t IH]; intros c Ht Hb.
  - simpl append. rewrite chars_cons, Hb. now destruct (chars b).
  - simpl in Ht. apply andb_prop in Ht. destruct Ht as [Hc Ht].
    simpl append. rewrite chars_cons, (IH c' Ht Hb). simpl starts_inside.
    now rewrite Hc.
Qed.

Lemma lead_chars_start (gs : list string) :
  forallb is_lead_char gs = true -> starts_inside (unchars gs) = false.
Proof.
  destruct gs as [|g gs]; [reflexivity|]. simpl. intros H.
  apply andb_prop in H. destruct H as [H _]. unfold is_lead_char in H.
  apply andb_prop in H. destruct H as [Hc Hs].
  destruct g as [|c g]; [discriminate|]. unfold unchars. simpl in *.
  now destruct (is_continuation c).
Qed.

Lemma chars_unchars_lead (gs : list string) :
  forallb is_lead_char gs = true -> chars (unchars gs) = gs.
Proof.
  induction gs as [|g gs IH]; [reflexivity|]. intros H.
  cbn [forallb] in H. apply andb_prop in H. destruct H as [Hg Hgs].
  unfold is_lead_char in Hg. apply andb_prop in Hg. destruct Hg as [Hc _].
  destruct g as [|c g]; [discriminate|].
  change (unchars (String c g :: gs)) with (String c (g +++ unchars gs)).
  rewrite chars_char; [now rewrite IH | exact Hc | now apply lead_chars_start].
Qed.

Lemma chars_unchars (gs : list string) :
  well_grouped gs = true -> chars (unchars gs) = gs.
Proof.
  destruct gs as [|g gs]; [reflexivity|]. intros H.
  cbn [well_grouped] in H. apply andb_prop in H. destruct H as [Hc Hgs].
  destruct g as [|c g]; [discriminate|].
  change (unchars (String c g :: gs)) with (String c (g +++ unchars gs)).
  rewrite chars_char;
    [now rewrite chars_unchars_lead | exact Hc | now apply lead_chars_start].
Qed.

Lemma chars_head (c : ascii) (r : string) :
  exists t gs, chars (String c r) = String c t :: gs.
Proof.
  rewrite chars_cons. destruct (chars r) as [|g gs].
  - now exists EmptyString, [].
  - destruct (starts_inside r); eauto.
Qed.

Lemma chars_grouped (s : string) :
  well_grouped (chars s) = true
  /\ (starts_inside s = false -> forallb is_lead_char (chars s) = true).
Proof.
  induction s as [|c r [IHw IHl]]; [split; reflexivity|].
  rewrite chars_cons. destruct r as [|c' r'].
  - split; [reflexivity|]. cbn. intros ->. reflexivity.
  - destruct (chars_head c' r') as (t & gs & E). rewrite E in *.
    cbn [starts_inside] in *. cbn [well_grouped is_char] in IHw.
    apply andb_prop in IHw. destruct IHw as [Ht Hgs].
    destruct (is_continuation c') eqn:Hc'.
    + split.
      * cbn [well_grouped is_char all_continuation].
        now rewrite Hc', Ht, Hgs.
      * intros Hc. cbn [forallb]. unfold is_lead_char at 1.
        cbn [is_char all_continuation starts_inside].
        now rewrite Hc', Ht, Hc, Hgs.
    + specialize (IHl eq_refl). split.
      * cbn [well_grouped is_char all_continuation]. exact IHl.
      * intros Hc. cbn [forallb]. unfold is_lead_char at 1.
        cbn [is_char all_continuation starts_inside]. rewrite Hc.
        exact IHl.
Qed.

Lemma chars_well_grouped (s : string) : well_grouped (chars s) = true.
Proof. apply chars_grouped. Qed.

Lemma chars_lead (s : string) :
  starts_inside s = false -> forallb is_lead_char (chars s) = true.
Proof. apply chars_grouped. Qed.

Lemma well_grouped_lead (gs : list string) :
  forallb is_lead_char gs = true -> well_grouped gs = true.
Proof.
  destruct gs as [|g gs]; [reflexivity|]. simpl. intros H.
  apply andb_prop in H. destruct H as [Hg Hgs]. unfold is_lead_char in Hg.
  apply andb_prop in Hg. destruct Hg as [Hg _]. now rewrite Hg, Hgs.
Qed.

Lemma well_grouped_app (a b : list string) :
  well_grouped a = true -> forallb is_lead_char b = true ->
  well_grouped (a ++ b) = true.
Proof.
  destruct a as [|g a]; simpl; intros Ha Hb.
  - now apply well_grouped_lead.
  - apply andb_prop in Ha. destruct Ha as [Hg Ha].
    now rewrite Hg, forallb_app, Ha, Hb.
Qed.

Lemma forallb_firstn {X} (p : X -> bool) (n : nat) (l : list X) :
  forallb p l = true -> forallb p (firstn n l) = true.
Proof.
  revert l; induction n as [|n IH]; intros [|x l]; simpl; auto.
  intros H. apply andb_prop in H. destruct H as [Hx Hl].
  now rewrite Hx, IH.
Qed.

Lemma well_grouped_firstn (n : nat) (gs : list string) :
  well_grouped gs = true -> well_grouped (firstn n gs) = true.
Proof.
  destruct n as [|n]; [reflexivity|]. destruct gs as [|g gs]; [auto|].
  simpl. intros H. apply andb_prop in H. destruct H as [Hg Hgs].
  now rewrite Hg, forallb_firstn.
Qed.

Lemma chars_app (a b : string) :
  starts_inside b = false -> chars (a +++ b) = chars a ++ chars b.
Proof.
  intros Hb.
  rewrite <- (unchars_chars a) at 1. rewrite <- (unchars_chars b) at 1.
  rewrite <- unchars_app. apply chars_unchars.
  apply well_grouped_app; [apply chars_well_grouped | now apply chars_lead].
Qed.

Lemma py_len_app (a b : string) :
  starts_inside b = false -> py_len (a +++ b) = py_len a + py_len b.
Proof.
  intros Hb. unfold py_len. now rewrite chars_app, length_app.
Qed.

Lemma chars_take (n : nat) (s : string) :
  chars (take n s) = firstn n (chars s).
Proof.
  apply chars_unchars, well_grouped_firstn, chars_well_grouped.
Qed.

Lemma py_len_take (n : nat) (s : string) :
  py_len (take n s) = Nat.min n (py_len s).
Proof.
  unfold py_len. rewrite chars_take. apply length_firstn.
Qed.

Lemma take_all (n : nat) (s : string) : py_len s <= n -> take n s = s.
Proof.
  intros H. unfold take. rewrite firstn_all2 by exact H.
  apply unchars_chars.
Qed.

(** The cut is a prefix. *)
Lemma take_prefix (n : nat) (s : string) :
  s = take n s +++ unchars (skipn n (chars s)).
Proof.
  unfold take. rewrite <- unchars_app, firstn_skipn.
  symmetry. apply unchars_chars.
Qed.

Lemma take_append_exact (n : nat) (s t : string) :
  py_len s = n -> starts_inside t = false -> take n (s +++ t) = s.
Proof.
  intros Hs Ht. unfold take. rewrite chars_app by exact Ht.
  rewrite firstn_app. unfold py_len in Hs. rewrite Hs, Nat.sub_diag.
  simpl firstn at 2. rewrite app_nil_r, <- Hs, firstn_all.
  apply unchars_chars.
Qed.

Lemma contains_char_app (n : nat) (a b : string) :
  contains_char n (a +++ b) = contains_char n a || contains_char n b.
Proof.
  induction a as [|c a IH]; simpl; [reflexivity|].
  now rewrite IH, orb_assoc.
Qed.

End StringFacts.

(* ===================================================================== *)
(** ** [safe_str]                                                         *)
(* ===================================================================== *)

Lemma safe_str_result (v : value) :
  match v with VStr s => s | _ => py_str v end = py_str v.
Proof. destruct v; reflexivity. Qed.

Lemma safe_str_short (v : value) (n : Z) :
  (Z.of_nat (py_len (py_str v)) <= n)%Z ->
  safe_str v (Some n) = py_str v.
Proof.
  intros H. unfold safe_str. rewrite safe_str_result.
  destruct (Z.ltb_spec n (Z.of_nat (py_len (py_str v)))); [lia|reflexivity].
Qed.

Lemma safe_str_long (v : value) (n : Z) :
  (0 <= n < Z.of_nat (py_len (py_str v)))%Z ->
  safe_str v (Some n) = take (Z.to_nat n) (py_str v) +++ "...".
Proof.
  intros H. unfold safe_str, slice_to. rewrite safe_str_result.
  destruct (Z.ltb_spec n (Z.of_nat (py_len (py_str v)))); [|lia].
  destruct (Z.leb_spec 0 n); [reflexivity|lia].
Qed.

Lemma py_len_cut (n : nat) (s : string) :
  py_len (take n s +++ "...") = Nat.min n (py_len s) + 3.
Proof.
  rewrite py_len_app by reflexivity. now rewrite py_len_take.
Qed.

Lemma safe_str_length (v : value) (n : Z) :
  (0 <= n)%Z ->
  (Z.of_nat (py_len (safe_str v (Some n))) <= n + 3)%Z.
Proof.
  intros Hn.
  destruct (Z.le_gt_cases (Z.of_nat (py_len (py_str v))) n) as [H|H].
  - rewrite safe_str_short by exact H. lia.
  - rewrite safe_str_long by lia. rewrite py_len_cut. lia.
Qed.


(** C4.  For every value [v] and every limit [n >= 0], lengths counted in
    characters: the cut string has at most [n + 3] characters; a string of
    at most [n] characters is returned as it is; cutting the result again
    with the same limit changes nothing.  Without a limit [safe_str] is
    [str].  A character of several bytes counts for one: the string
    [héllo€𝄞x] has 8 characters and is cut at 3 to [hél...]. *)
Theorem safe_str_truncation (v : value) (n : Z) :
  (0 <= n)%Z ->
  (Z.of_nat (py_len (safe_str v (Some n))) <= n + 3)%Z
  /\ ((Z.of_nat (py_len (py_str v)) <= n)%Z ->
      safe_str v (Some n) = py_str v)
  /\ safe_str (VStr (safe_str v (Some n))) (Some n) = safe_str v (Some n)
  /\ safe_str v None = py_str v
  /\ safe_str (VStr "héllo€𝄞x") (Some 3%Z) = "hél..."
  /\ py_len "héllo€𝄞x" = 8.
Proof.
  intros Hn.
  assert (Hcases : (Z.of_nat (py_len (py_str v)) <= n)%Z
                   \/ (0 <= n < Z.of_nat (py_len (py_str v)))%Z) by lia.
  repeat split.
  - now apply safe_str_length.
  - apply safe_str_short.
  - destruct Hcases as [H|H].
    + rewrite (safe_str_short v) by exact H.
      now apply (safe_str_short (VStr (py_str v))).
    + rewrite (safe_str_long v) by exact H.
      set (t := take (Z.to_nat n) (py_str v)).
      assert (Ht : py_len t = Z.to_nat n).
      { unfold t. rewrite py_len_take. lia. }
      rewrite (safe_str_long (VStr (t +++ "..."))).
      * simpl py_str. now rewrite take_append_exact.
      * simpl py_str. rewrite py_len_app, Ht by reflexivity.
        change (py_len "...") with 3. lia.
  - unfold safe_str. apply safe_str_result.
Qed.

(* ===================================================================== *)
(** ** The writer monad                                                   *)
(* ===================================================================== *)

Section MonadFacts.

Context {A B C : Type}.

Lemma bind_ret_l (a : A) (f : A -> M B) : bind (ret a) f = f a.
Proof. unfold bind, ret. now destruct (f a). Qed.

Lemma bind_raise_l (e : exn) (f : A -> M B) : bind (raise e) f = raise e.
Proof. reflexivity. Qed.

Lemma bind_ext (m : M A) (f g : A -> M B) :
  (forall a, f a = g a) -> bind m f = bind m g.
Proof.
  intros H. destruct m as [o [e|a]]; simpl; [reflexivity | now rewrite H].
Qed.

Lemma bind_assoc (m : M A) (f : A -> M B) (g : B -> M C) :
  bind (bind m f) g = bind m (fun a => bind (f a) g).
Proof.
  destruct m as [o [e|a]]; simpl; [reflexivity|].
  destruct (f a) as [o1 [e|b]]; simpl; [reflexivity|].
  destruct (g b) as [o2 r]. now rewrite app_assoc.
Qed.

End MonadFacts.


Lemma tell_tell (o o' : list call) : (tell o ;; tell o') = tell (o ++ o').
Proof. reflexivity. Qed.


Lemma bind_tell_ret (o : list call) (k : M unit) (o' : list call) :
  k = tell o' -> (tell o ;; k) = tell (o ++ o').
Proof. intros ->. reflexivity. Qed.

Lemma ret_tell : ret tt = tell [].
Proof. reflexivity. Qed.

Lemma bind_ret_r (m : M unit) : (m ;; ret tt) = m.
Proof.
  destruct m as [o [e|[]]]; simpl; [reflexivity | now rewrite app_nil_r].
Qed.

(* ===================================================================== *)
(** ** The console                                                        *)
(* ===================================================================== *)

(** A call with markup off records its text. *)
Lemma print_raw (t : string) (s : option Style) (e : string) :
  console_print t s e false = tell [Print t s e false].
Proof. reflexivity. Qed.

(** So does a call whose text the markup parser accepts, and every text
    without an opening bracket is one. *)
Lemma print_accepted (t : string) (s : option Style) (e : string)
  (mk : bool) :
  accepted t = true -> console_print t s e mk = tell [Print t s e mk].
Proof.
  unfold accepted, console_print. intros H. apply negb_true_iff in H.
  rewrite H. now rewrite andb_false_r.
Qed.

Lemma accepted_plain (t : string) : contains_char 91 t = false -> accepted t = true.
Proof. unfold accepted, markup_raises. now intros ->. Qed.

Lemma print_plain (t : string) (s : option Style) (e : string) (mk : bool) :
  contains_char 91 t = false -> console_print t s e mk = tell [Print t s e mk].
Proof. intros H. now apply print_accepted, accepted_plain. Qed.


Lemma print_cases (t : string) (s : option Style) (e : string) (mk : bool) :
  console_print t s e mk = tell [Print t s e mk]
  \/ console_print t s e mk = raise MarkupError.
Proof.
  unfold console_print. destruct (mk && markup_raises t); auto.
Qed.

Lemma newline_tell : print_newline = tell [blank_line].
Proof. reflexivity. Qed.

Lemma indent_tell : console_print INDENT None EmptyString true = tell [indent_call].
Proof. reflexivity. Qed.

(** Decimal digits hold no bracket. *)
Lemma uint_plain (u : Decimal.uint) :
  contains_char 91 (NilEmpty.string_of_uint u) = false.
Proof.
  induction u; cbn [NilEmpty.string_of_uint contains_char]; try exact IHu;
    reflexivity.
Qed.

Lemma uint_zero_plain (u : Decimal.uint) :
  contains_char 91 (NilZero.string_of_uint u) = false.
Proof.
  destruct u; try reflexivity; apply uint_plain.
Qed.

Lemma str_of_Z_plain (z : Z) : contains_char 91 (str_of_Z z) = false.
Proof.
  unfold str_of_Z, NilZero.string_of_int.
  destruct (Z.to_int z); cbn [contains_char]; apply uint_zero_plain.
Qed.

Lemma summary_line_plain (n : nat) : contains_char 91 (summary_line n) = false.
Proof.
  unfold summary_line. rewrite !contains_char_app, str_of_Z_plain.
  reflexivity.
Qed.


Lemma icon_plain (kind : string) :
  contains_char 91 (fst (style_of kind) +++ " ") = false.
Proof.
  unfold style_of, event_styles. cbn [styles_get].
  repeat match goal with
         | |- context [String.eqb ?a kind] => destruct (String.eqb a kind)
         end; reflexivity.
Qed.

Lemma key_plain (key : string) :
  In key priority_keys -> contains_char 91 (key +++ ": ") = false.
Proof.
  intros H. repeat (destruct H as [<-|H]; [reflexivity|]). destruct H.
Qed.

(* ===================================================================== *)
(** ** Whitespace around a line                                           *)
(* ===================================================================== *)

Section Strip.

Lemma lstrip_shape (gs : list string) :
  lstrip_chars gs = []
  \/ exists g r, lstrip_chars gs = g :: r /\ is_space g = false.
Proof.
  induction gs as [|g r IH]; [now left|]. cbn [lstrip_chars].
  destruct (is_space g) eqn:H; [exact IH|]. right. now exists g, r.
Qed.

Lemma rstrip_head (g : string) (r : list string) :
  is_space g = false -> exists r', rstrip_chars (g :: r) = g :: r'.
Proof.
  intros H. cbn [rstrip_chars]. destruct (rstrip_chars r).
  - rewrite H. now eexists.
  - now eexists.
Qed.

Lemma rstrip_idempotent (gs : list string) :
  rstrip_chars (rstrip_chars gs) = rstrip_chars gs.
Proof.
  induction gs as [|g r IH]; [reflexivity|]. cbn [rstrip_chars].
  destruct (rstrip_chars r) as [|d u] eqn:Hu.
  - destruct (is_space g) eqn:Hg; [reflexivity|]. cbn [rstrip_chars].
    now rewrite Hg.
  - cbn [rstrip_chars]. cbn [rstrip_chars] in IH. now rewrite IH.
Qed.

Lemma lstrip_nil (gs : list string) :
  lstrip_chars gs = [] <-> forallb is_space gs = true.
Proof.
  induction gs as [|g r IH]; [easy|]. cbn [lstrip_chars forallb].
  destruct (is_space g); [exact IH | easy].
Qed.

Lemma rstrip_nil (gs : list string) :
  rstrip_chars gs = [] <-> forallb is_space gs = true.
Proof.
  induction gs as [|g r IH]; [easy|]. cbn [rstrip_chars forallb].
  destruct (rstrip_chars r) as [|d u].
  - destruct (is_space g); cbn [andb]; [|easy].
    split; intros _; [now apply IH | reflexivity].
  - split; [discriminate|]. intros H. apply andb_prop in H.
    destruct H as [_ H]. now apply IH in H.
Qed.

(** Nothing is left of a line exactly when all its characters are
    spaces. *)
Lemma strip_chars_nil (gs : list string) :
  rstrip_chars (lstrip_chars gs) = [] <-> forallb is_space gs = true.
Proof.
  rewrite <- lstrip_nil.
  destruct (lstrip_shape gs) as [E|(g & r & E & Hg)]; rewrite E.
  - easy.
  - destruct (rstrip_head g r Hg) as [r' ->]. easy.
Qed.

Lemma lstrip_suffix (gs : list string) :
  exists n, lstrip_chars gs = skipn n gs.
Proof.
  induction gs as [|g r [n IH]]; [now exists 0|]. cbn [lstrip_chars].
  destruct (is_space g); [now exists (S n) | now exists 0].
Qed.

Lemma rstrip_prefix (gs : list string) :
  exists n, rstrip_chars gs = firstn n gs.
Proof.
  induction gs as [|g r [n IH]]; [now exists 0|]. cbn [rstrip_chars].
  destruct (rstrip_chars r) as [|d u].
  - destruct (is_space g); [now exists 0 | now exists 1].
  - exists (S n). cbn [firstn]. now rewrite IH.
Qed.

Lemma forallb_skipn {X} (p : X -> bool) (n : nat) (l : list X) :
  forallb p l = true -> forallb p (skipn n l) = true.
Proof.
  revert l; induction n as [|n IH]; intros [|x l]; simpl; auto.
  intros H. apply andb_prop in H. now apply IH.
Qed.

Lemma well_grouped_skipn (n : nat) (gs : list string) :
  well_grouped gs = true -> well_grouped (skipn n gs) = true.
Proof.
  destruct n as [|n]; [auto|]. destruct gs as [|g gs]; [auto|].
  cbn [skipn well_grouped]. intros H. apply andb_prop in H.
  destruct H as [_ H]. now apply well_grouped_lead, forallb_skipn.
Qed.

Lemma strip_well_grouped (s : string) :
  well_grouped (rstrip_chars (lstrip_chars (chars s))) = true.
Proof.
  destruct (lstrip_suffix (chars s)) as [n ->].
  destruct (rstrip_prefix (skipn n (chars s))) as [k ->].
  apply well_grouped_firstn, well_grouped_skipn, chars_well_grouped.
Qed.

Lemma chars_strip (s : string) :
  chars (strip s) = rstrip_chars (lstrip_chars (chars s)).
Proof. apply chars_unchars, strip_well_grouped. Qed.

Lemma strip_idempotent (s : string) : strip (strip s) = strip s.
Proof.
  unfold strip at 1. rewrite chars_strip. unfold strip. f_equal.
  destruct (lstrip_shape (chars s)) as [->|(g & r & -> & Hg)].
  - reflexivity.
  - destruct (rstrip_head g r Hg) as [r' Hr]. rewrite Hr.
    cbn [lstrip_chars]. rewrite Hg, <- Hr. apply rstrip_idempotent.
Qed.

Lemma chars_nil (s : string) : chars s = [] <-> s = EmptyString.
Proof.
  split; [apply chars_empty | now intros ->].
Qed.

(** A line is blank exactly when all its characters are spaces. *)
Lemma is_blank_spaces (line : string) :
  is_blank line = forallb is_space (chars line).
Proof.
  unfold is_blank. apply eq_true_iff_eq.
  rewrite <- strip_chars_nil, <- chars_strip, chars_nil.
  destruct (strip line); cbn; easy.
Qed.

End Strip.

(* ===================================================================== *)
(** ** Dictionaries                                                       *)
(* ===================================================================== *)


Lemma field_absent (d : dict) (k : string) (default : value) :
  dict_get d k = None -> field d k default = default.
Proof. intros H. unfold field. now rewrite H. Qed.


(* ===================================================================== *)
(** ** [tool_use]: the argument line                                      *)
(* ===================================================================== *)








(* ===================================================================== *)
(** ** The renderer on an event object                                    *)
(* ===================================================================== *)

(** An event object of string kind: debug prefix, header, body of the
    kind, blank line. *)
Lemma format_event_kind (ev : dict) (debug : bool) (kind : string) :
  field ev "type" (VStr "unknown") = VStr kind ->
  format_opencode_event (VDict ev) debug =
  (debug_prefix ev debug ;;
   print_kind_header kind ;;
   format_body (VStr kind) (field ev "part" (VDict []))
               (field ev "error" (VDict [])) ;;
   print_newline).
Proof.
  intros Ht. unfold format_opencode_event. cbn [py_get].
  rewrite !bind_ret_l, Ht. cbn [get_event_style]. rewrite bind_ret_l.
  fold (style_of kind). unfold print_kind_header.
  destruct (style_of kind) as [icon st] eqn:Hs.
  unfold debug_prefix. cbn [fst snd].
  reflexivity.
Qed.

(** The header of a kind whose label the console accepts. *)
Lemma print_kind_header_tell (kind : string) :
  accepted (title (replace_underscores kind)) = true ->
  print_kind_header kind = tell (kind_header kind).
Proof.
  intros H. unfold print_kind_header, print_header, kind_header, header.
  rewrite (print_plain _ _ _ _ (icon_plain kind)).
  now rewrite (print_accepted _ _ _ _ H).
Qed.

(** An event of string kind whose label the console accepts. *)
Lemma format_event_accepted (ev : dict) (debug : bool) (kind : string) :
  field ev "type" (VStr "unknown") = VStr kind ->
  accepted (title (replace_underscores kind)) = true ->
  format_opencode_event (VDict ev) debug =
  (debug_prefix ev debug ;;
   tell (kind_header kind) ;;
   format_body (VStr kind) (field ev "part" (VDict []))
               (field ev "error" (VDict [])) ;;
   print_newline).
Proof.
  intros Ht Ha. rewrite (format_event_kind ev debug kind Ht).
  now rewrite (print_kind_header_tell kind Ha).
Qed.

(** The head of a [tool_use] event whose texts the console accepts. *)
Lemma print_tool_head_tell (part state : dict) :
  tool_head_accepted part state = true ->
  (tell (header "🔧" "Tool Use" colors.cyan) ;; print_tool_head part state)
  = tell (tool_use_head part state).
Proof.
  unfold tool_head_accepted, print_tool_head, tool_use_head. intros H.
  apply andb_prop in H. destruct H as [H Ht].
  apply andb_prop in H. destruct H as [Hn Hs].
  rewrite (print_accepted _ _ _ _ Hn).
  destruct (truthy (field state "status" (VStr EmptyString)));
    cbn [negb orb] in Hs; [rewrite (print_accepted _ _ _ _ Hs)|];
    (destruct (truthy (field state "title" (VStr EmptyString)));
     cbn [negb orb] in Ht; [rewrite (print_accepted _ _ _ _ Ht)|]);
    reflexivity.
Qed.



(* ===================================================================== *)
(** ** [text] and [thinking]: shown lines and the summary                 *)
(* ===================================================================== *)

Lemma show_text_lines_filter (lines : list string) (i : nat) :
  show_text_lines i lines =
  tell (flat_map text_line_calls
          (filter text_keeps (enumerate_from i lines))).
Proof.
  revert i. induction lines as [|line rest IH]; intros i; [reflexivity|].
  cbn [show_text_lines]. rewrite (IH (S i)).
  unfold enumerate_from. cbn [List.length seq combine filter].
  unfold text_keeps at 2, is_blank. cbn [fst snd].
  rewrite negb_involutive.
  destruct (truthy_str (strip line) || (i =? 0)); reflexivity.
Qed.

Lemma show_thinking_lines_filter (lines : list string) :
  show_thinking_lines lines =
  tell (flat_map thinking_line_calls
          (filter (fun line => negb (is_blank line)) lines)).
Proof.
  induction lines as [|line rest IH]; [reflexivity|].
  cbn [show_thinking_lines filter]. rewrite IH.
  unfold is_blank. rewrite negb_involutive.
  destruct (truthy_str (strip line)); reflexivity.
Qed.

Lemma show_summary_calls (total cap : nat) :
  show_summary total cap = tell (summary_calls total cap).
Proof.
  unfold show_summary, summary_calls. destruct (cap <? total); [|reflexivity].
  rewrite indent_tell.
  now rewrite (print_plain _ _ _ _ (summary_line_plain (total - cap))).
Qed.

Lemma firstn_min (n : nat) {X} (l : list X) :
  firstn (Nat.min n (List.length l)) l = firstn n l.
Proof.
  destruct (Nat.le_ge_cases n (List.length l)) as [H|H].
  - now rewrite Nat.min_l.
  - rewrite Nat.min_r by exact H.
    now rewrite firstn_all, firstn_all2.
Qed.

Lemma summary_calls_min (total cap : nat) :
  summary_calls total (Nat.min cap total) = summary_calls total cap.
Proof.
  unfold summary_calls.
  destruct (Nat.le_ge_cases cap total) as [H|H].
  - now rewrite Nat.min_l.
  - rewrite Nat.min_r by exact H.
    destruct (Nat.ltb_spec total total); [lia|].
    destruct (Nat.ltb_spec cap total); [lia|reflexivity].
Qed.

(** What the [text] rule prints for a non-empty string content. *)
Lemma format_text_lines (part : dict) (s : string) :
  field part "text" (VStr EmptyString) = VStr s -> truthy_str s = true ->
  format_text (VDict part) =
  tell ([blank_line]
        ++ flat_map text_line_calls (text_shown (split_lines s))
        ++ summary_calls (List.length (split_lines s)) 5).
Proof.
  intros Hf Hs. unfold format_text. cbn [py_get]. rewrite bind_ret_l, Hf.
  cbn [truthy py_split_lines]. rewrite Hs, bind_ret_l.
  rewrite show_text_lines_filter, show_summary_calls, firstn_min,
    summary_calls_min.
  reflexivity.
Qed.

(** What the [thinking] rule prints for a non-empty string content. *)
Lemma format_thinking_lines (part : dict) (s : string) :
  field part "text" (VStr EmptyString) = VStr s -> truthy_str s = true ->
  format_thinking (VDict part) =
  tell ([blank_line]
        ++ flat_map thinking_line_calls (thinking_shown (split_lines s))
        ++ summary_calls (List.length (split_lines s)) 3).
Proof.
  intros Hf Hs. unfold format_thinking. cbn [py_get]. rewrite bind_ret_l, Hf.
  cbn [truthy py_split_lines]. rewrite Hs, bind_ret_l.
  rewrite show_thinking_lines_filter, show_summary_calls, firstn_min,
    summary_calls_min.
  reflexivity.
Qed.

Lemma filter_length_le {X} (p : X -> bool) (l : list X) :
  List.length (filter p l) <= List.length l.
Proof.
  induction l as [|x l IH]; simpl; [lia|]. destruct (p x); simpl; lia.
Qed.

Lemma enumerate_from_length (i : nat) (lines : list string) :
  List.length (enumerate_from i lines) = List.length lines.
Proof.
  unfold enumerate_from. rewrite length_combine, length_seq. lia.
Qed.

Lemma summary_calls_over (total cap : nat) :
  cap < total ->
  summary_calls total cap =
  [indent_call;
   Print ("... (" +++ str_of_Z (Z.of_nat (total - cap)) +++ " more lines)")
         (Some colors.dim) NL true].
Proof.
  intros H. unfold summary_calls.
  destruct (Nat.ltb_spec cap total); [reflexivity|lia].
Qed.

Lemma summary_calls_under (total cap : nat) :
  total <= cap -> summary_calls total cap = [].
Proof.
  intros H. unfold summary_calls.
  destruct (Nat.ltb_spec cap total); [lia|reflexivity].
Qed.

Lemma in_enumerate_from (lines : list string) (a i : nat) (x : string) :
  In (i, x) (enumerate_from a lines) <->
  a <= i /\ nth_error lines (i - a) = Some x.
Proof.
  unfold enumerate_from. revert a.
  induction lines as [|l lines IH]; intros a; cbn [List.length seq combine].
  - split; [intros [] | intros [_ H]]. now destruct (i - a).
  - cbn [In]. rewrite IH. split.
    + intros [E|[H1 H2]].
      * inversion E; subst. rewrite Nat.sub_diag. split; [lia|reflexivity].
      * split; [lia|]. replace (i - a) with (S (i - S a)) by lia. exact H2.
    + intros [H1 H2]. destruct (Nat.eq_dec a i) as [->|N].
      * left. rewrite Nat.sub_diag in H2. now inversion H2.
      * right. split; [lia|].
        replace (i - a) with (S (i - S a)) in H2 by lia. exact H2.
Qed.

Lemma in_text_shown (lines : list string) (i : nat) (line : string) :
  In (i, line) (text_shown lines) <->
  nth_error lines i = Some line /\ i < 5
  /\ (is_blank line = false \/ i = 0).
Proof.
  unfold text_shown. rewrite filter_In, in_enumerate_from, Nat.sub_0_r.
  rewrite nth_error_firstn. unfold text_keeps. cbn [fst snd].
  rewrite orb_true_iff, negb_true_iff, Nat.eqb_eq.
  destruct (Nat.ltb_spec i 5); split.
  - intros [[_ H1] H2]. auto.
  - intros (H1 & _ & H2). split; [split; [lia|exact H1] | exact H2].
  - intros [[_ H1] _]. discriminate.
  - intros (_ & H1 & _). lia.
Qed.

Lemma in_thinking_shown (lines : list string) (line : string) :
  In line (thinking_shown lines) <->
  (exists i, nth_error lines i = Some line /\ i < 3)
  /\ is_blank line = false.
Proof.
  unfold thinking_shown. rewrite filter_In, negb_true_iff, In_iff_nth_error.
  split; intros [[i H] Hb]; (split; [|exact Hb]); exists i.
  - rewrite nth_error_firstn in H.
    destruct (Nat.ltb_spec i 3); [auto | discriminate].
  - rewrite nth_error_firstn. destruct H as [H Hi].
    destruct (Nat.ltb_spec i 3); [exact H | lia].
Qed.

(** C6 (as amended).  A [text] (resp. [thinking]) event with a non-empty
    string content prints its kept lines and then [summary_calls] for the
    cap 5 (resp. 3), once, before the closing blank line.  The summary is
    the one line [... (N more lines)] exactly when the content has more
    lines than the cap, skipped lines included, [N] being the number of
    lines of the content beyond the cap; with at most the cap of lines
    there is no summary line.  The non-skipped lines are among the lines,
    so more than the cap of them brings the summary; fewer do not exclude
    it. *)
Theorem text_thinking_summary (ev part : dict) (s : string) (debug : bool) :
  field ev "part" (VDict []) = VDict part ->
  field part "text" (VStr EmptyString) = VStr s ->
  truthy_str s = true ->
  (field ev "type" (VStr "unknown") = VStr "text" ->
   format_opencode_event (VDict ev) debug =
     (debug_prefix ev debug ;;
      tell (kind_header "text" ++ [blank_line]
            ++ flat_map text_line_calls (text_shown (split_lines s))
            ++ summary_calls (List.length (split_lines s)) 5
            ++ [blank_line])))
  /\ (field ev "type" (VStr "unknown") = VStr "thinking" ->
      format_opencode_event (VDict ev) debug =
        (debug_prefix ev debug ;;
         tell (kind_header "thinking" ++ [blank_line]
               ++ flat_map thinking_line_calls
                    (thinking_shown (split_lines s))
               ++ summary_calls (List.length (split_lines s)) 3
               ++ [blank_line])))
  /\ (forall cap, cap < List.length (split_lines s) ->
      summary_calls (List.length (split_lines s)) cap =
        [indent_call;
         Print ("... ("
                +++ str_of_Z (Z.of_nat (List.length (split_lines s) - cap))
                +++ " more lines)") (Some colors.dim) NL true])
  /\ (forall cap, List.length (split_lines s) <= cap ->
      summary_calls (List.length (split_lines s)) cap = [])
  /\ List.length (text_non_skipped (split_lines s))
     <= List.length (split_lines s)
  /\ List.length (thinking_non_skipped (split_lines s))
     <= List.length (split_lines s).
Proof.
  intros Hp Hf Hs. split; [|split; [|split; [|split; [|split]]]].
  - intros Ht. rewrite (format_event_kind ev debug "text" Ht), Hp.
    apply bind_ext; intros _.
    change (print_kind_header "text") with (tell (kind_header "text")).
    cbn [format_body eq_str String.eqb Ascii.eqb Bool.eqb].
    rewrite (format_text_lines part s Hf Hs). rewrite newline_tell.
    rewrite !tell_tell. now rewrite <- !app_assoc.
  - intros Ht. rewrite (format_event_kind ev debug "thinking" Ht), Hp.
    apply bind_ext; intros _.
    change (print_kind_header "thinking")
      with (tell (kind_header "thinking")).
    cbn [format_body eq_str String.eqb Ascii.eqb Bool.eqb].
    rewrite (format_thinking_lines part s Hf Hs). rewrite newline_tell.
    rewrite !tell_tell. now rewrite <- !app_assoc.
  - intros cap. apply summary_calls_over.
  - intros cap. apply summary_calls_under.
  - unfold text_non_skipped.
    pose proof (filter_length_le text_keeps
                  (enumerate_from 0 (split_lines s))) as Hle.
    now rewrite enumerate_from_length in Hle.
  - apply filter_length_le.
Qed.

(** C8.  For a non-empty string content, the [text] rule shows line [i]
    exactly when it is among the first five and is non-blank or the first
    one; the [thinking] rule shows a line exactly when it is among the
    first three and non-blank.  A blank first line is thus the first entry
    shown by [text] and is skipped by [thinking].  A line is blank when
    all its characters are white space, as for a line that holds only a
    no-break space; the white space characters are those of
    [str.isspace], listed by code point. *)
Theorem blank_line_asymmetry (part : dict) (s : string) :
  field part "text" (VStr EmptyString) = VStr s ->
  truthy_str s = true ->
  format_text (VDict part) =
    tell ([blank_line]
          ++ flat_map text_line_calls (text_shown (split_lines s))
          ++ summary_calls (List.length (split_lines s)) 5)
  /\ format_thinking (VDict part) =
       tell ([blank_line]
             ++ flat_map thinking_line_calls (thinking_shown (split_lines s))
             ++ summary_calls (List.length (split_lines s)) 3)
  /\ (forall i line,
        In (i, line) (text_shown (split_lines s)) <->
        nth_error (split_lines s) i = Some line /\ i < 5
        /\ (is_blank line = false \/ i = 0))
  /\ (forall line,
        In line (thinking_shown (split_lines s)) <->
        (exists i, nth_error (split_lines s) i = Some line /\ i < 3)
        /\ is_blank line = false)
  /\ (forall first rest,
        split_lines s = first :: rest -> is_blank first = true ->
        flat_map text_line_calls (text_shown (split_lines s)) =
          [indent_call; Print first (Some colors.reset) NL false]
          ++ flat_map text_line_calls
               (filter text_keeps (enumerate_from 1 (firstn 4 rest)))
        /\ thinking_shown (split_lines s) =
             filter (fun line => negb (is_blank line)) (firstn 2 rest))
  /\ (forall line, is_blank line = forallb is_space (chars line))
  /\ is_blank no_break_space = true
  /\ thinking_shown (split_lines spaced_thinking) = ["a"; "b"]
  /\ strip (" " +++ no_break_space +++ "a b" +++ no_break_space +++ NL)
     = "a b"
  /\ map (fun g => N.of_nat (code_point g)) whitespace =
     [9; 10; 11; 12; 13; 28; 29; 30; 31; 32; 133; 160; 5760;
      8192; 8193; 8194; 8195; 8196; 8197; 8198; 8199; 8200; 8201; 8202;
      8232; 8233; 8239; 8287; 12288]%N.
Proof.
  intros Hf Hs. split; [|split; [|split; [|split; [|split; [|split]]]]].
  - now apply format_text_lines.
  - now apply format_thinking_lines.
  - intros i line. apply in_text_shown.
  - intros line. apply in_thinking_shown.
  - intros first rest H Hb. rewrite H. split.
    + unfold text_shown, enumerate_from.
      cbn [firstn List.length seq combine filter].
      unfold text_keeps at 1. cbn [fst snd]. rewrite orb_true_r.
      reflexivity.
    + unfold thinking_shown. cbn [firstn filter]. now rewrite Hb.
  - apply is_blank_spaces.
  - split; [reflexivity|]. split; [reflexivity|].
    split; [reflexivity | vm_compute; reflexivity].
Qed.

(* ===================================================================== *)
(** ** [error] events                                                     *)
(* ===================================================================== *)



(* ===================================================================== *)
(** ** Events without a [type]                                            *)
(* ===================================================================== *)

Lemma format_unknown_body (part error_data : value) :
  format_unknown part error_data = tell (unknown_body part error_data).
Proof.
  unfold format_unknown, unknown_body.
  now destruct (truthy (if truthy part then part else error_data)).
Qed.

(** C10.  An event object without a [type] key is rendered as the same
    object with [type] bound to ["unknown"]: after the debug prefix, the
    fallback icon and the label [Unknown] in the muted fallback style,
    then the body of an unrecognized kind and the blank line. *)
Theorem missing_type_is_unknown (ev : dict) (debug : bool) :
  dict_get ev "type" = None ->
  format_opencode_event (VDict ev) debug =
    format_opencode_event (VDict (("type", VStr "unknown") :: ev)) debug
  /\ get_event_style (field ev "type" (VStr "unknown"))
     = ret ("⏺", colors.dim)
  /\ format_opencode_event (VDict ev) debug =
       (debug_prefix ev debug ;;
        tell ([Print "⏺ " None EmptyString true;
               Print "Unknown" (Some colors.dim) EmptyString true]
              ++ unknown_body (field ev "part" (VDict []))
                   (field ev "error" (VDict []))
              ++ [blank_line])).
Proof.
  intros H.
  assert (Ht : field ev "type" (VStr "unknown") = VStr "unknown")
    by now apply field_absent.
  split; [|split].
  - rewrite (format_event_kind ev debug "unknown" Ht).
    now rewrite (format_event_kind (("type", VStr "unknown") :: ev) debug
                   "unknown" eq_refl).
  - now rewrite Ht.
  - rewrite (format_event_kind ev debug "unknown" Ht).
    apply bind_ext; intros _.
    change (print_kind_header "unknown") with (tell (kind_header "unknown")).
    cbn [format_body eq_str String.eqb Ascii.eqb Bool.eqb orb].
    rewrite format_unknown_body, newline_tell, !tell_tell.
    reflexivity.
Qed.

(* ===================================================================== *)
(** ** [step_finish]: the duration                                        *)
(* ===================================================================== *)

(** The step-type suffix in [st], for a suffix that the console
    accepts. *)
Lemma print_step_suffix (p : dict) (st : Style) (e : string) :
  suffix_shaped p = true ->
  (if truthy (field p "type" (VStr EmptyString)) then
     console_print (" - " +++ py_str (field p "type" (VStr EmptyString)))
                   (Some st) e true
   else ret tt)
  = tell (step_suffix (field p "type" (VStr EmptyString)) st e).
Proof.
  unfold suffix_shaped, step_suffix. intros H.
  destruct (truthy (field p "type" (VStr EmptyString))); [|reflexivity].
  cbn [negb orb] in H. now rewrite (print_accepted _ _ _ _ H).
Qed.

(** A falsy [start] (absent, [null], [0], [0.0], [false]) suppresses the
    duration whatever [end] is. *)
Lemma format_step_finish_falsy_start (part time : dict) :
  field part "time" (VDict []) = VDict time ->
  truthy (field time "start" VNone) = false ->
  suffix_shaped part = true ->
  format_step_finish (VDict part) =
  tell (step_suffix (field part "type" (VStr EmptyString)) colors.green
                    EmptyString ++ [blank_line]).
Proof.
  intros Ht Hs Ha. unfold format_step_finish. cbn [py_get].
  rewrite !bind_ret_l, Ht. cbn [py_get]. rewrite !bind_ret_l, Hs.
  cbn [andb]. rewrite bind_ret_l. cbn [truthy].
  rewrite (print_step_suffix part colors.green EmptyString Ha).
  reflexivity.
Qed.

(** C5, at the scenario of the specification and at a start time of 0.
    With [start = 1000] and [end = 1500] the header carries [ - build] and
    [ (500ms)].  With [start = 0] and [end = 500], both present and
    numeric and the duration 500 non-zero, the suffix [ (500ms)] is
    missing: line 131 tests the truth of [start_time], and 0 is falsy. *)
Theorem step_finish_zero_start_no_duration :
  format_opencode_event (step_finish_event (VInt 1000) (VInt 1500)) false =
    tell [Print "✅ " None EmptyString true;
          Print "Step Finish" (Some colors.green) EmptyString true;
          Print " - build" (Some colors.green) EmptyString true;
          Print " (500ms)" (Some colors.dim) EmptyString true;
          blank_line;
          blank_line]
  /\ py_sub (VInt 500) (VInt 0) = ret (VInt 500)
  /\ truthy (VInt 500) = true
  /\ format_opencode_event (step_finish_event (VInt 0) (VInt 500)) false =
       tell [Print "✅ " None EmptyString true;
             Print "Step Finish" (Some colors.green) EmptyString true;
             Print " - build" (Some colors.green) EmptyString true;
             blank_line;
             blank_line].
Proof.
  split; [vm_compute; reflexivity|]. split; [reflexivity|].
  split; [reflexivity|]. vm_compute. reflexivity.
Qed.

(* ===================================================================== *)
(** ** The stream loop                                                    *)
(* ===================================================================== *)

Section StreamFacts.

Variable json_loads : string -> exn + value.

Lemma parse_error_tell (line : string) :
  print_parse_error line = tell (parse_error_block line).
Proof. reflexivity. Qed.

Lemma process_lines_decode_failure (debug : bool) (line : string)
  (rest : list string) :
  truthy_str (strip line) = true ->
  json_loads (strip line) = inl JSONDecodeError ->
  process_lines json_loads debug (line :: rest) =
  (tell (parse_error_block (strip line)) ;;
   process_lines json_loads debug rest).
Proof.
  intros Hne Hfail. cbn [process_lines]. rewrite Hne. cbn [negb].
  unfold loads. rewrite Hfail, bind_raise_l.
  reflexivity.
Qed.

Lemma try_except_other (o : list call) (e : exn) (handler : M unit) :
  e <> JSONDecodeError ->
  try_except_JSONDecodeError (o, inl e) handler = (o, inl e).
Proof. intros H. now destruct e. Qed.

Lemma process_lines_other_failure (debug : bool) (line : string)
  (rest : list string) (e : exn) :
  truthy_str (strip line) = true ->
  json_loads (strip line) = inl e -> e <> JSONDecodeError ->
  process_lines json_loads debug (line :: rest) = ([], inl e).
Proof.
  intros Hne Hfail He. cbn [process_lines]. rewrite Hne. cbn [negb].
  unfold loads. rewrite Hfail, bind_raise_l.
  unfold raise. now rewrite (try_except_other [] e _ He).
Qed.

End StreamFacts.

(** C3 (as amended).  A non-empty line that [json.loads] rejects with
    [JSONDecodeError] raises nothing: the loop prints the [Parse Error]
    header, one indented line with the first 80 characters of the stripped
    line followed by [...], and the blank line, then goes on with the
    lines that follow.  Any other exception of [json.loads] is not
    handled: it leaves the loop before anything is printed for the line,
    and the lines that follow are not read.  The first 80 characters are a
    prefix of the line counted in characters, not in bytes. *)
Theorem decode_failure_is_isolated (json_loads : string -> exn + value)
  (argv : list string) (line : string) (rest : list string) :
  truthy_str (strip line) = true ->
  (json_loads (strip line) = inl JSONDecodeError ->
   process_stream json_loads argv (line :: rest) =
     (tell [Print "⏺ " None EmptyString true;
            Print "Parse Error" (Some colors.red) NL true;
            Print (INDENT +++ take 80 (strip line) +++ "...")
                  (Some colors.dim) NL false;
            Print EmptyString None NL true] ;;
      process_stream json_loads argv rest))
  /\ (forall e, json_loads (strip line) = inl e -> e <> JSONDecodeError ->
      process_stream json_loads argv (line :: rest) = ([], inl e))
  /\ py_len (take 80 (strip line)) = Nat.min 80 (py_len (strip line))
  /\ (exists rest, strip line = take 80 (strip line) +++ rest)
  /\ take 2 "héllo" = "hé".
Proof.
  intros Hne. unfold process_stream. split; [|split; [|split; [|split]]].
  - intros Hfail. now apply process_lines_decode_failure.
  - intros e Hfail He. now apply process_lines_other_failure.
  - apply py_len_take.
  - eexists. apply take_prefix.
  - reflexivity.
Qed.

(* ===================================================================== *)
(** ** The closing blank line                                             *)
(* ===================================================================== *)

Lemma show_app (o o' : list call) (s : screen) :
  show (o ++ o') s = show o' (show o s).
Proof. apply fold_left_app. Qed.

Lemma output_py_get (v : value) (k : string) (default : value) :
  output (py_get v k default) = [].
Proof. now destruct v. Qed.

Lemma output_py_sub (a b : value) : output (py_sub a b) = [].
Proof.
  unfold py_sub.
  destruct (as_number a) as [[x|x]|]; destruct (as_number b) as [[y|y]|];
    try reflexivity; cbn [to_float]; unfold float_of_int;
    repeat match goal with
           | |- context [binary_normalize ?p ?e ?z ?x ?b] =>
               destruct (binary_normalize p e z x b)
           end; reflexivity.
Qed.

Lemma output_py_format_0f (v : value) : output (py_format_0f v) = [].
Proof.
  destruct v; try reflexivity; cbn; unfold float_of_int;
    repeat match goal with
           | |- context [binary_normalize ?p ?e ?z ?x ?b] =>
               destruct (binary_normalize p e z x b)
           end; reflexivity.
Qed.

Lemma write_inline (s : screen) (t : string) (st : option Style)
  (mk : bool) :
  write s (Print t st EmptyString mk) = put_string t s.
Proof. reflexivity. Qed.

Lemma write_line (s : screen) (t : string) (st : option Style) (mk : bool) :
  write s (Print t st NL mk) =
  Screen (open_line (put_string t s) :: closed_lines (put_string t s))
         EmptyString.
Proof. reflexivity. Qed.

(** Two ways of reading the lines of the screen share the rules of this
    section: [Open] after a text on the line, [Closed] after a line break,
    [Final] after the blank line, for the calls in [G]. *)
Section Machine.

Variable G : call -> Prop.
Variables Open Closed Final : screen -> Prop.

Hypothesis H_inline : forall t st mk s,
  G (Print t st EmptyString mk) -> Open s ->
  Open (write s (Print t st EmptyString mk)).
Hypothesis H_visible : forall t st mk s,
  t <> EmptyString -> G (Print t st EmptyString mk) ->
  Open (write s (Print t st EmptyString mk)).
Hypothesis H_close : forall t st mk s,
  G (Print t st NL mk) -> Open s -> Closed (write s (Print t st NL mk)).
Hypothesis H_line : forall t st mk s,
  t <> EmptyString -> G (Print t st NL mk) ->
  Closed (write s (Print t st NL mk)).
Hypothesis H_blank : forall s, Closed s -> Final (write s blank_line).

Lemma triple_bind {A B} (P : screen -> Prop) (Q : A -> screen -> Prop)
  (R : B -> screen -> Prop) (m : M A) (f : A -> M B) :
  triple G P m Q -> (forall a, triple G (Q a) (f a) R) ->
  triple G P (bind m f) R.
Proof.
  intros Hm Hf s Hs. specialize (Hm s Hs).
  destruct m as [o [e|a]]; cbn [bind]; [exact I|].
  destruct (f a) as [o' [e|b]] eqn:Hfa; [exact I|].
  intros HG. apply Forall_app in HG. destruct HG as [Ho Ho'].
  specialize (Hf a _ (Hm Ho)). rewrite Hfa in Hf.
  rewrite show_app. now apply Hf.
Qed.

Lemma triple_weaken {A} (P P' : screen -> Prop) (Q Q' : A -> screen -> Prop)
  (m : M A) :
  triple G P' m Q' -> (forall s, P s -> P' s) ->
  (forall a s, Q' a s -> Q a s) -> triple G P m Q.
Proof.
  intros H HP HQ s Hs. specialize (H s (HP s Hs)).
  destruct m as [o [e|a]]; [exact I | intros Ho; now apply HQ, H].
Qed.

(** A computation that prints nothing keeps the screen. *)
Lemma triple_silent {A} (P : screen -> Prop) (m : M A) :
  output m = [] -> triple G P m (fun _ => P).
Proof.
  intros H s Hs. destruct m as [o [e|a]]; [exact I|].
  cbn in H. now subst.
Qed.

Lemma triple_ret {A} (P : screen -> Prop) (a : A) :
  triple G P (ret a) (fun _ => P).
Proof. now apply triple_silent. Qed.

Lemma triple_raise {A} (P : screen -> Prop) (Q : A -> screen -> Prop)
  (e : exn) : triple G P (raise e) Q.
Proof. intros s _. exact I. Qed.

Lemma triple_if {A} (P : screen -> Prop) (Q : A -> screen -> Prop)
  (b : bool) (m m' : M A) :
  triple G P m Q -> triple G P m' Q -> triple G P (if b then m else m') Q.
Proof. now destruct b. Qed.

Lemma triple_py_get (P : screen -> Prop) (v : value) (k : string)
  (default : value) : triple G P (py_get v k default) (fun _ => P).
Proof. apply triple_silent, output_py_get. Qed.

(** One call, when it is made. *)
Lemma triple_print (P Q : screen -> Prop) (t : string) (st : option Style)
  (e : string) (mk : bool) :
  (forall s, P s -> G (Print t st e mk) -> Q (write s (Print t st e mk))) ->
  triple G P (console_print t st e mk) (fun _ => Q).
Proof.
  intros H s Hs. destruct (print_cases t st e mk) as [-> | ->]; [|exact I].
  cbn. intros HG. apply H; [exact Hs | now inversion HG].
Qed.

(** Printing on an open line without a line break keeps it open. *)
Lemma triple_print_open (t : string) (st : option Style) (mk : bool) :
  triple G Open (console_print t st EmptyString mk) (fun _ => Open).
Proof. apply triple_print. intros s Hs HG. now apply H_inline. Qed.

(** Printing a text that shows something, without a line break, opens a
    line wherever the screen was. *)
Lemma triple_print_visible (P : screen -> Prop) (t : string)
  (st : option Style) (mk : bool) :
  t <> EmptyString ->
  triple G P (console_print t st EmptyString mk) (fun _ => Open).
Proof. intros Ht. apply triple_print. intros s _ HG. now apply H_visible. Qed.

(** A line break on an open line closes it. *)
Lemma triple_print_close (t : string) (st : option Style) (mk : bool) :
  triple G Open (console_print t st NL mk) (fun _ => Closed).
Proof. apply triple_print. intros s Hs HG. now apply H_close. Qed.

(** A line of its own. *)
Lemma triple_print_line (P : screen -> Prop) (t : string)
  (st : option Style) (mk : bool) :
  t <> EmptyString ->
  triple G P (console_print t st NL mk) (fun _ => Closed).
Proof. intros Ht. apply triple_print. intros s _ HG. now apply H_line. Qed.

(** The indented line [  ⎿  text]. *)
Lemma triple_indented_line (P : screen -> Prop) (t : string)
  (st : option Style) (mk : bool) :
  triple G P (console_print INDENT None EmptyString true ;;
              console_print t st NL mk) (fun _ => Closed).
Proof.
  eapply triple_bind.
  - apply triple_print_visible. discriminate.
  - intros ?. apply triple_print_close.
Qed.

(** The blank line after a closed line. *)
Lemma triple_blank_line :
  triple G Closed print_newline (fun _ => Final).
Proof. intros s Hs. cbn. intros _. now apply H_blank. Qed.

Lemma triple_show_key_argument (keys : list string) (tool_input : value) :
  triple G Closed (show_key_argument keys tool_input) (fun _ => Closed).
Proof.
  induction keys as [|key rest IH]; cbn [show_key_argument].
  - apply triple_ret.
  - eapply triple_bind.
    + apply triple_silent. now destruct tool_input.
    + intros [|]; [|exact IH].
      eapply triple_bind; [apply triple_print_visible; discriminate|].
      intros ?. eapply triple_bind; [apply triple_print_open|].
      intros ?. eapply triple_bind.
      * apply triple_silent. destruct tool_input; try reflexivity.
        cbn. now destruct (dict_get d key).
      * intros v. apply triple_print_close.
Qed.

Lemma triple_show_text_lines (lines : list string) (i : nat) :
  triple G Closed (show_text_lines i lines) (fun _ => Closed).
Proof.
  revert i. induction lines as [|line rest IH]; intros i;
    cbn [show_text_lines].
  - apply triple_ret.
  - eapply triple_bind; [|intros ?; apply IH].
    apply triple_if; [apply triple_indented_line | apply triple_ret].
Qed.

Lemma triple_show_thinking_lines (lines : list string) :
  triple G Closed (show_thinking_lines lines) (fun _ => Closed).
Proof.
  induction lines as [|line rest IH]; cbn [show_thinking_lines].
  - apply triple_ret.
  - eapply triple_bind; [|intros ?; apply IH].
    apply triple_if; [apply triple_indented_line | apply triple_ret].
Qed.

Lemma triple_show_summary (total cap : nat) :
  triple G Closed (show_summary total cap) (fun _ => Closed).
Proof.
  unfold show_summary.
  apply triple_if; [apply triple_indented_line | apply triple_ret].
Qed.

Lemma triple_format_tool_use (part : value) :
  triple G Open (format_tool_use part) (fun _ => Closed).
Proof.
  unfold format_tool_use.
  do 5 (eapply triple_bind; [apply triple_py_get | intros ?]).
  eapply triple_bind; [apply triple_print_open | intros ?].
  eapply triple_bind.
  { apply triple_if; [apply triple_print_open | apply triple_ret]. }
  intros ?. eapply triple_bind; [apply triple_print_close | intros ?].
  eapply triple_bind.
  { apply triple_if; [apply triple_indented_line | apply triple_ret]. }
  intros ?. apply triple_if;
    [apply triple_show_key_argument | apply triple_ret].
Qed.

Lemma triple_format_step_start (part : value) :
  triple G Open (format_step_start part) (fun _ => Closed).
Proof.
  unfold format_step_start.
  eapply triple_bind; [apply triple_py_get | intros ?].
  apply triple_if; apply triple_print_close.
Qed.

Lemma triple_format_step_finish (part : value) :
  triple G Open (format_step_finish part) (fun _ => Closed).
Proof.
  unfold format_step_finish.
  do 4 (eapply triple_bind; [apply triple_py_get | intros ?]).
  eapply triple_bind.
  { apply triple_if;
      [apply triple_silent, output_py_sub | apply triple_ret]. }
  intros duration. eapply triple_bind.
  { apply triple_if; [apply triple_print_open | apply triple_ret]. }
  intros ?. eapply triple_bind; [|intros ?; apply triple_print_close].
  apply triple_if; [|apply triple_ret].
  eapply triple_bind; [apply triple_silent, output_py_format_0f|].
  intros d. apply triple_print_open.
Qed.

Lemma triple_format_text (part : value) :
  triple G Open (format_text part) (fun _ => Closed).
Proof.
  unfold format_text.
  eapply triple_bind; [apply triple_py_get | intros text_content].
  apply triple_if; [|apply triple_print_close].
  eapply triple_bind; [apply triple_print_close | intros ?].
  eapply triple_bind.
  { apply triple_silent. now destruct text_content. }
  intros lines. eapply triple_bind;
    [apply triple_show_text_lines | intros ?; apply triple_show_summary].
Qed.

Lemma triple_format_thinking (part : value) :
  triple G Open (format_thinking part) (fun _ => Closed).
Proof.
  unfold format_thinking.
  eapply triple_bind; [apply triple_py_get | intros text_content].
  apply triple_if; [|apply triple_print_close].
  eapply triple_bind; [apply triple_print_close | intros ?].
  eapply triple_bind.
  { apply triple_silent. now destruct text_content. }
  intros lines. eapply triple_bind;
    [apply triple_show_thinking_lines | intros ?; apply triple_show_summary].
Qed.

Lemma triple_format_error (error_data : value) :
  triple G Open (format_error error_data) (fun _ => Closed).
Proof.
  unfold format_error.
  do 3 (eapply triple_bind; [apply triple_py_get | intros ?]).
  eapply triple_bind; [apply triple_print_close | intros ?].
  eapply triple_bind; [apply triple_print_visible; discriminate | intros ?].
  eapply triple_bind; [apply triple_print_open | intros ?].
  apply triple_print_close.
Qed.

Lemma triple_format_unknown (part error_data : value) :
  triple G Open (format_unknown part error_data) (fun _ => Closed).
Proof.
  unfold format_unknown.
  apply triple_if; [|apply triple_print_close].
  eapply triple_bind; [apply triple_print_close | intros ?].
  apply triple_indented_line.
Qed.

Lemma triple_format_body (event_type part error_data : value) :
  triple G Open (format_body event_type part error_data)
         (fun _ => Closed).
Proof.
  unfold format_body.
  repeat (apply triple_if;
          [first [ apply triple_format_tool_use
                 | apply triple_format_step_start
                 | apply triple_format_step_finish
                 | apply triple_format_text
                 | apply triple_format_thinking
                 | apply triple_format_error
                 | apply triple_print_close ] |]).
  apply triple_format_unknown.
Qed.

Lemma triple_print_debug_info (timestamp session_id : value) :
  triple G (fun _ => True) (print_debug_info timestamp session_id)
         (fun _ _ => True).
Proof.
  intros s _. now destruct (print_debug_info timestamp session_id) as [o [e|a]].
Qed.

Lemma triple_print_header (event_type : value) (icon : string) (st : Style) :
  triple G (fun _ => True) (print_header event_type icon st)
         (fun _ => Open).
Proof.
  unfold print_header. eapply triple_bind.
  - apply triple_print_visible. destruct icon; discriminate.
  - intros ?. destruct event_type; try apply triple_raise.
    apply triple_print_open.
Qed.

Lemma triple_format_opencode_event (event : value) (debug : bool) :
  triple G (fun _ => True) (format_opencode_event event debug)
         (fun _ => Final).
Proof.
  unfold format_opencode_event.
  do 5 (eapply triple_bind; [apply triple_py_get | intros ?]).
  eapply triple_bind.
  { apply triple_silent. unfold get_event_style. now destruct a. }
  intros [icon st]. eapply triple_bind.
  { apply triple_if; [apply triple_print_debug_info | apply triple_ret]. }
  intros ?. eapply triple_bind; [apply triple_print_header | intros ?].
  eapply triple_bind; [apply triple_format_body | intros ?].
  apply triple_blank_line.
Qed.

Lemma triple_print_parse_error (P : screen -> Prop) (line : string) :
  triple G P (print_parse_error line) (fun _ => Final).
Proof.
  unfold print_parse_error.
  eapply triple_bind; [apply triple_print_visible; discriminate | intros ?].
  eapply triple_bind; [apply triple_print_close | intros ?].
  eapply triple_bind; [|intros ?; apply triple_blank_line].
  apply triple_print_line. discriminate.
Qed.

Lemma triple_try_except (P : screen -> Prop) (Q : unit -> screen -> Prop)
  (body handler : M unit) :
  triple G P body Q -> triple G (fun _ => True) handler Q ->
  triple G P (try_except_JSONDecodeError body handler) Q.
Proof.
  intros Hb Hh s Hs. specialize (Hb s Hs).
  destruct body as [o [e|[]]]; [|exact Hb].
  destruct e; try exact I. cbn.
  specialize (Hh (show o s) I). destruct handler as [o' [e'|a]]; [exact I|].
  intros HG. apply Forall_app in HG. rewrite show_app. now apply Hh.
Qed.

Lemma triple_process_lines (json_loads : string -> exn + value)
  (debug : bool) (stdin : list string) :
  triple G (fun s => s = blank_screen \/ Final s)
         (process_lines json_loads debug stdin)
         (fun _ s => s = blank_screen \/ Final s).
Proof.
  induction stdin as [|line rest IH]; cbn [process_lines].
  - apply triple_ret.
  - destruct (negb (truthy_str (strip line))); [exact IH|].
    eapply triple_bind; [|intros ?; exact IH].
    apply triple_try_except.
    + eapply triple_bind.
      * apply triple_silent. unfold loads.
        now destruct (json_loads (strip line)).
      * intros event.
        eapply triple_weaken;
          [apply triple_format_opencode_event
          | intros s _; exact I
          | intros u s Hs; now right].
    + eapply triple_weaken;
        [apply (triple_print_parse_error (fun _ => True))
        | intros s _; exact I
        | intros u s Hs; now right].
Qed.

End Machine.

(** Reading the lines exactly: the calls are tidy, an open line shows
    something, a closed line showed something. *)
Section ExactLines.

Lemma nonempty_append_l (a b : string) :
  a <> EmptyString -> a +++ b <> EmptyString.
Proof. destruct a; [congruence | discriminate]. Qed.

Lemma nonempty_append_r (a b : string) :
  b <> EmptyString -> a +++ b <> EmptyString.
Proof. destruct a; [auto | discriminate]. Qed.

(** A text that does not end in a line break leaves its last line
    open. *)
Lemma put_string_open (t : string) (s : screen) :
  t <> EmptyString -> ends_with_break t = false ->
  line_open (put_string t s).
Proof.
  revert s. induction t as [|c r IH]; intros s Ht Hb; [contradiction|].
  cbn [put_string]. destruct r as [|c' r'].
  - cbn [ends_with_break] in Hb. cbn [put_string]. unfold put.
    rewrite Hb. unfold line_open. cbn [open_line].
    apply nonempty_append_r. discriminate.
  - apply IH; [discriminate | exact Hb].
Qed.

Lemma put_string_keeps_open (t : string) (s : screen) :
  ends_with_break t = false -> line_open s -> line_open (put_string t s).
Proof.
  intros Hb Hs. destruct t as [|c r]; [exact Hs|].
  apply put_string_open; [discriminate | exact Hb].
Qed.

Lemma tidy_no_break (c : call) :
  tidy c = true -> ends_with_break (text c) = false.
Proof.
  unfold tidy. intros H. apply andb_prop in H. destruct H as [H _].
  now apply negb_true_iff in H.
Qed.

Lemma line_closed_of_open (s : screen) :
  line_open s -> line_closed (Screen (open_line s :: closed_lines s) EmptyString).
Proof.
  intros H. split; [reflexivity|]. now exists (open_line s), (closed_lines s).
Qed.

Lemma exact_inline (t : string) (st : option Style) (mk : bool)
  (s : screen) :
  tidy (Print t st EmptyString mk) = true -> line_open s ->
  line_open (write s (Print t st EmptyString mk)).
Proof.
  intros HG Hs. rewrite write_inline.
  apply put_string_keeps_open; [exact (tidy_no_break _ HG) | exact Hs].
Qed.

Lemma exact_visible (t : string) (st : option Style) (mk : bool)
  (s : screen) :
  t <> EmptyString -> tidy (Print t st EmptyString mk) = true ->
  line_open (write s (Print t st EmptyString mk)).
Proof.
  intros Ht HG. rewrite write_inline.
  apply put_string_open; [exact Ht | exact (tidy_no_break _ HG)].
Qed.

Lemma exact_close (t : string) (st : option Style) (mk : bool)
  (s : screen) :
  tidy (Print t st NL mk) = true -> line_open s ->
  line_closed (write s (Print t st NL mk)).
Proof.
  intros HG Hs. rewrite write_line. apply line_closed_of_open.
  apply put_string_keeps_open; [exact (tidy_no_break _ HG) | exact Hs].
Qed.

Lemma exact_line (t : string) (st : option Style) (mk : bool)
  (s : screen) :
  t <> EmptyString -> tidy (Print t st NL mk) = true ->
  line_closed (write s (Print t st NL mk)).
Proof.
  intros Ht HG. rewrite write_line. apply line_closed_of_open.
  apply put_string_open; [exact Ht | exact (tidy_no_break _ HG)].
Qed.

Lemma exact_blank (s : screen) :
  line_closed s -> blank_closed (write s blank_line).
Proof.
  intros [Ho (line & before & Hc & Hl)]. unfold blank_line.
  rewrite write_line. cbn [put_string]. rewrite Ho, Hc.
  split; [reflexivity|]. now exists line, before.
Qed.

End ExactLines.

(** Reading only where the lines break: every call is allowed. *)
Section LineBreaks.

Lemma breaks_close (t : string) (st : option Style) (mk : bool)
  (s : screen) :
  line_start (write s (Print t st NL mk)).
Proof. rewrite write_line. split; [reflexivity | discriminate]. Qed.

Lemma breaks_blank (s : screen) :
  line_start s -> blank_last (write s blank_line).
Proof.
  intros [Ho Hc]. unfold blank_line. rewrite write_line.
  cbn [put_string]. rewrite Ho. split; [reflexivity|].
  destruct (closed_lines s) as [|line before]; [contradiction|].
  now exists line, before.
Qed.

End LineBreaks.

(** Every rendering that completes ends with a blank line. *)
Lemma rendering_blank_last (event : value) (debug : bool)
  (out : list call) :
  format_opencode_event event debug = (out, inr tt) ->
  ends_with_blank_line out.
Proof.
  intros H.
  pose proof (triple_format_opencode_event (fun _ => True)
                (fun _ => True) line_start blank_last
                (fun _ _ _ _ _ _ => I) (fun _ _ _ _ _ _ => I)
                (fun t st mk s _ _ => breaks_close t st mk s)
                breaks_blank event debug (Screen [] EmptyString) I) as T.
  rewrite H in T. apply T. apply Forall_forall. intros; exact I.
Qed.

(** With tidy calls, it ends with exactly one. *)
Lemma rendering_blank_closed (event : value) (debug : bool)
  (out : list call) :
  format_opencode_event event debug = (out, inr tt) ->
  Forall (fun c => tidy c = true) out ->
  ends_with_one_blank_line out.
Proof.
  intros H Ht.
  pose proof (triple_format_opencode_event (fun c => tidy c = true)
                line_open line_closed blank_closed
                exact_inline exact_visible exact_close exact_blank
                event debug (Screen [] EmptyString) I) as T.
  rewrite H in T. now apply T.
Qed.

(** A kind outside the style table falls through the whole [if]/[elif]
    chain. *)
Lemma unrecognized_body (kind : string) (part error_data : value) :
  styles_get event_styles kind = None ->
  format_body (VStr kind) part error_data = format_unknown part error_data.
Proof.
  unfold styles_get, event_styles, format_body, eq_str.
  repeat match goal with
         | |- context [String.eqb ?k kind] =>
             rewrite (String.eqb_sym k kind);
             destruct (String.eqb kind k); [discriminate|]
         end.
  reflexivity.
Qed.

(** C9 (as amended).  Every rendering that [format_opencode_event]
    completes ends with a blank line.  When none of its texts ends in a
    line break and the texts printed with markup on hold no opening
    bracket, so that all are shown as they are, it ends with exactly one:
    its last line is empty and the line before it is not.  An event of
    unrecognized kind whose label the console accepts and whose [part] and
    [error] payloads are empty (or absent) prints its header line and that
    blank line, nothing else. *)
Theorem rendering_ends_with_blank_line :
  (forall event debug out,
     format_opencode_event event debug = (out, inr tt) ->
     ends_with_blank_line out)
  /\ (forall event debug out,
        format_opencode_event event debug = (out, inr tt) ->
        Forall (fun c => tidy c = true) out ->
        ends_with_one_blank_line out)
  /\ (forall ev debug kind,
        field ev "type" (VStr "unknown") = VStr kind ->
        styles_get event_styles kind = None ->
        accepted (title (replace_underscores kind)) = true ->
        truthy (field ev "part" (VDict [])) = false ->
        truthy (field ev "error" (VDict [])) = false ->
        format_opencode_event (VDict ev) debug =
          (debug_prefix ev debug ;;
           tell [Print "⏺ " None EmptyString true;
                 Print (title (replace_underscores kind)) (Some colors.dim)
                       EmptyString true;
                 blank_line;
                 blank_line])).
Proof.
  split; [exact rendering_blank_last|]. split; [exact rendering_blank_closed|].
  intros ev debug kind Ht Hk Ha Hp He.
  rewrite (format_event_accepted ev debug kind Ht Ha).
  apply bind_ext; intros _.
  unfold kind_header, style_of. rewrite Hk.
  rewrite (unrecognized_body kind _ _ Hk), format_unknown_body.
  unfold unknown_body. rewrite Hp, He. reflexivity.
Qed.

(* ===================================================================== *)
(** ** Completion on well-shaped events                                   *)
(* ===================================================================== *)

Section Completion.

Lemma completes_tell (o : list call) : completes (tell o) = true.
Proof. reflexivity. Qed.























(** The debug prefix for a session identifier that can be cut: one call
    for its parts, none without parts. *)
Lemma print_debug_info_parts (timestamp session_id : value) :
  session_id_shaped session_id = true ->
  print_debug_info timestamp session_id =
  match debug_parts timestamp session_id with
  | [] => ret tt
  | _ => console_print (join " " (debug_parts timestamp session_id))
                       (Some colors.dim) " " true
  end.
Proof.
  intros H. unfold print_debug_info, debug_parts.
  destruct session_id as [|b|z|f|s|l|d]; cbn [session_id_shaped] in H;
    try (apply negb_true_iff in H; rewrite H; rewrite bind_ret_l;
         now rewrite app_nil_r).
  - destruct (truthy (VStr s)); cbn [py_slice8 slice8];
      rewrite !bind_ret_l; [reflexivity | now rewrite app_nil_r].
  - destruct (truthy (VList l)); cbn [py_slice8 slice8];
      rewrite !bind_ret_l; [reflexivity | now rewrite app_nil_r].
Qed.


End Completion.


(* ===================================================================== *)
(** ** More on the stream loop and the entry point                        *)
(* ===================================================================== *)

Section LoopFacts.

Variable json_loads : string -> exn + value.

Lemma process_lines_blank (debug : bool) (line : string)
  (rest : list string) :
  truthy_str (strip line) = false ->
  process_lines json_loads debug (line :: rest) =
  process_lines json_loads debug rest.
Proof. intros H. cbn [process_lines]. now rewrite H. Qed.

Lemma process_lines_app (debug : bool) (a b : list string) :
  process_lines json_loads debug (a ++ b) =
  (process_lines json_loads debug a ;; process_lines json_loads debug b).
Proof.
  induction a as [|line a IH]; cbn [app process_lines].
  - now rewrite bind_ret_l.
  - destruct (negb (truthy_str (strip line))); [exact IH|].
    rewrite bind_assoc. apply bind_ext. intros _. exact IH.
Qed.

Lemma try_except_never_decode_error (body handler : M unit) :
  completes handler = true ->
  snd (try_except_JSONDecodeError body handler) <> inl JSONDecodeError.
Proof.
  intros H. destruct body as [o [e|[]]]; [|discriminate].
  destruct handler as [o' [e'|[]]]; [discriminate|].
  destruct e; discriminate.
Qed.

Lemma bind_never {A B} (m : M A) (f : A -> M B) (e : exn) :
  snd m <> inl e -> (forall a, snd (f a) <> inl e) ->
  snd (bind m f) <> inl e.
Proof.
  intros Hm Hf. destruct m as [o [e'|a]]; cbn in *.
  - intros E. apply Hm. now inversion E.
  - specialize (Hf a). now destruct (f a).
Qed.

Lemma process_lines_never_decode_error (debug : bool)
  (stdin : list string) :
  snd (process_lines json_loads debug stdin) <> inl JSONDecodeError.
Proof.
  induction stdin as [|line rest IH]; cbn [process_lines]; [discriminate|].
  destruct (negb (truthy_str (strip line))); [exact IH|].
  apply bind_never; [|intros _; exact IH].
  now apply try_except_never_decode_error.
Qed.

Lemma process_lines_only_failures (debug : bool) (stdin : list string) :
  (forall line, In line (non_blank_lines stdin) ->
                json_loads line = inl JSONDecodeError) ->
  process_lines json_loads debug stdin =
  tell (flat_map parse_error_block (non_blank_lines stdin)).
Proof.
  unfold non_blank_lines.
  induction stdin as [|line rest IH]; intros H; [reflexivity|].
  cbn [map filter] in *.
  destruct (truthy_str (strip line)) eqn:Hb.
  - rewrite (process_lines_decode_failure json_loads debug line rest Hb)
      by (apply H; now left).
    rewrite IH by (intros l Hl; apply H; now right).
    reflexivity.
  - rewrite (process_lines_blank debug line rest Hb). now apply IH.
Qed.

End LoopFacts.

(** The loop keeps no state between lines: a stream cut in two is
    processed as the first part and then the second; a line that is empty
    after stripping is skipped. *)
Theorem stream_is_processed_line_by_line
  (json_loads : string -> exn + value) (argv first second : list string) :
  process_stream json_loads argv (first ++ second) =
    (process_stream json_loads argv first ;;
     process_stream json_loads argv second)
  /\ (forall line,
        strip line = EmptyString ->
        process_stream json_loads argv (first ++ line :: second) =
        process_stream json_loads argv (first ++ second)).
Proof.
  unfold process_stream. split.
  - apply process_lines_app.
  - intros line H. rewrite !process_lines_app. apply bind_ext. intros _.
    apply process_lines_blank. now rewrite H.
Qed.

(** A line that decodes is rendered.  When its rendering completes the
    loop goes on with the next line; when it raises, the exception leaves
    the loop with what was printed so far and no later line is read. *)
Theorem rendering_failure_stops_the_stream
  (json_loads : string -> exn + value) (argv : list string)
  (line : string) (rest : list string) (event : value) :
  truthy_str (strip line) = true ->
  json_loads (strip line) = inr event ->
  let debug := existsb (String.eqb "--debug") argv in
  (forall out,
     format_opencode_event event debug = (out, inr tt) ->
     process_stream json_loads argv (line :: rest) =
       (tell out ;; process_stream json_loads argv rest))
  /\ (forall out e,
        format_opencode_event event debug = (out, inl e) ->
        e <> JSONDecodeError ->
        process_stream json_loads argv (line :: rest) = (out, inl e)).
Proof.
  intros Hb Hl debug. unfold process_stream. fold debug.
  split; intros out.
  - intros Hf. cbn [process_lines]. rewrite Hb. cbn [negb].
    unfold loads. now rewrite Hl, bind_ret_l, Hf.
  - intros e Hf He. cbn [process_lines]. rewrite Hb. cbn [negb].
    unfold loads. rewrite Hl, bind_ret_l, Hf.
    now rewrite try_except_other.
Qed.

(** Whatever the decoder and the renderer do, no [JSONDecodeError] leaves
    the loop. *)
Theorem decode_error_never_escapes (json_loads : string -> exn + value)
  (argv stdin : list string) :
  snd (process_stream json_loads argv stdin) <> inl JSONDecodeError.
Proof. apply process_lines_never_decode_error. Qed.

(** A stream in which every non-blank line is rejected by the decoder
    ends with exit status 0, after one [Parse Error] block per non-blank
    line, in order. *)
Theorem undecodable_stream_exits_zero (json_loads : string -> exn + value)
  (message : exn -> string) (argv stdin : list string) :
  (forall line, In line (non_blank_lines stdin) ->
                json_loads line = inl JSONDecodeError) ->
  main json_loads message argv stdin =
  (flat_map parse_error_block (non_blank_lines stdin), 0%Z).
Proof.
  intros H. unfold main, process_stream.
  now rewrite (process_lines_only_failures json_loads _ stdin H).
Qed.

(* ===================================================================== *)
(** ** What the renderer reads, and the debug prefix                      *)
(* ===================================================================== *)

Lemma format_event_fields (ev ev' : dict) (debug : bool) :
  field ev "type" (VStr "unknown") = field ev' "type" (VStr "unknown") ->
  field ev "part" (VDict []) = field ev' "part" (VDict []) ->
  field ev "error" (VDict []) = field ev' "error" (VDict []) ->
  (debug = true ->
   field ev "timestamp" (VStr EmptyString)
   = field ev' "timestamp" (VStr EmptyString)
   /\ field ev "sessionID" (VStr EmptyString)
      = field ev' "sessionID" (VStr EmptyString)) ->
  format_opencode_event (VDict ev) debug =
  format_opencode_event (VDict ev') debug.
Proof.
  intros Ht Hp He Hd. unfold format_opencode_event. cbn [py_get].
  rewrite !bind_ret_l, Ht, Hp, He.
  apply bind_ext. intros [icon st].
  destruct debug; [|reflexivity].
  destruct (Hd eq_refl) as [H1 H2]. now rewrite H1, H2.
Qed.

Lemma dict_get_other (d : dict) (k k' : string) (v : value) :
  String.eqb k' k = false -> dict_get ((k', v) :: d) k = dict_get d k.
Proof. intros H. cbn [dict_get]. now rewrite H. Qed.

(** The renderer reads five keys of the event object and nothing else:
    two objects that agree on [type], [part] and [error] (and, in debug
    mode, on [timestamp] and [sessionID]) render alike.  In particular a
    key the renderer does not know changes nothing, and without debug the
    timestamp and the session identifier change nothing. *)
Theorem renderer_reads_five_keys (ev ev' : dict) (debug : bool) :
  (field ev "type" (VStr "unknown") = field ev' "type" (VStr "unknown") ->
   field ev "part" (VDict []) = field ev' "part" (VDict []) ->
   field ev "error" (VDict []) = field ev' "error" (VDict []) ->
   (debug = true ->
    field ev "timestamp" (VStr EmptyString)
    = field ev' "timestamp" (VStr EmptyString)
    /\ field ev "sessionID" (VStr EmptyString)
       = field ev' "sessionID" (VStr EmptyString)) ->
   format_opencode_event (VDict ev) debug =
   format_opencode_event (VDict ev') debug)
  /\ (forall key v,
        ~ In key ["type"; "timestamp"; "sessionID"; "part"; "error"] ->
        format_opencode_event (VDict ((key, v) :: ev)) debug =
        format_opencode_event (VDict ev) debug)
  /\ (forall ts sid,
        format_opencode_event
          (VDict (("timestamp", ts) :: ("sessionID", sid) :: ev)) false =
        format_opencode_event (VDict ev) false).
Proof.
  split; [apply format_event_fields|]. split.
  - intros key v Hk.
    assert (Hne : forall k,
              In k ["type"; "timestamp"; "sessionID"; "part"; "error"] ->
              String.eqb key k = false).
    { intros k Hin. destruct (String.eqb_spec key k); [|reflexivity].
      subst. contradiction. }
    apply format_event_fields; unfold field;
      try (intros _; split); rewrite dict_get_other; auto;
      apply Hne; cbn; auto 6.
  - intros ts sid. apply format_event_fields; try reflexivity.
    discriminate.
Qed.

(** The debug prefix when the session identifier is a string: one muted
    call ending in a space for the parts that are present. *)
Lemma debug_prefix_parts (ev : dict) (sid : string) :
  field ev "sessionID" (VStr EmptyString) = VStr sid ->
  debug_prefix ev true =
  match debug_parts (field ev "timestamp" (VStr EmptyString)) (VStr sid) with
  | [] => ret tt
  | _ => console_print
           (join " " (debug_parts (field ev "timestamp" (VStr EmptyString))
                                  (VStr sid)))
           (Some colors.dim) " " true
  end.
Proof.
  intros Hs. unfold debug_prefix. rewrite Hs.
  now apply print_debug_info_parts.
Qed.

(** Debug mode only puts a prefix in front: for an event of string kind,
    the debug rendering is the debug prefix followed by the rendering
    without debug.  With a string session identifier the prefix is made of
    [[timestamp]] when the timestamp is truthy and of
    [(session: <first 8 characters>...)] when the identifier is not empty,
    joined by a space; when the console accepts that text, the prefix is
    one muted call ending in a space; with neither part, nothing is
    printed and both renderings are the same. *)
Theorem debug_only_prepends (ev : dict) (kind sid : string) :
  field ev "type" (VStr "unknown") = VStr kind ->
  field ev "sessionID" (VStr EmptyString) = VStr sid ->
  let timestamp := field ev "timestamp" (VStr EmptyString) in
  format_opencode_event (VDict ev) true =
    (debug_prefix ev true ;; format_opencode_event (VDict ev) false)
  /\ debug_parts timestamp (VStr sid) =
       (if truthy timestamp then ["[" +++ py_str timestamp +++ "]"] else [])
       ++ (if truthy_str sid then ["(session: " +++ take 8 sid +++ "...)"]
           else [])
  /\ (accepted (join " " (debug_parts timestamp (VStr sid))) = true ->
      debug_prefix ev true =
      tell (match debug_parts timestamp (VStr sid) with
            | [] => []
            | parts => [Print (join " " parts) (Some colors.dim) " " true]
            end))
  /\ (truthy timestamp = false -> sid = EmptyString ->
      format_opencode_event (VDict ev) true =
      format_opencode_event (VDict ev) false).
Proof.
  intros Hk Hs timestamp.
  assert (Hpre : format_opencode_event (VDict ev) true =
                 (debug_prefix ev true ;;
                  format_opencode_event (VDict ev) false)).
  { rewrite !(format_event_kind ev _ kind Hk).
    apply bind_ext. intros _. unfold debug_prefix at 1.
    now rewrite bind_ret_l. }
  split; [exact Hpre|]. split; [reflexivity|]. split.
  - intros Ha. rewrite (debug_prefix_parts ev sid Hs). fold timestamp.
    destruct (debug_parts timestamp (VStr sid)) as [|p parts];
      [reflexivity|].
    now rewrite (print_accepted _ _ _ _ Ha).
  - intros Ht ->. rewrite Hpre, (debug_prefix_parts ev EmptyString Hs).
    fold timestamp. unfold debug_parts. rewrite Ht. cbn [truthy truthy_str app].
    apply (bind_ret_l tt).
Qed.

(* ===================================================================== *)
(** ** The rules of the other kinds                                       *)
(* ===================================================================== *)

Lemma styles_get_unknown (kind : string) :
  ~ In kind known_kinds -> styles_get event_styles kind = None.
Proof.
  unfold known_kinds. generalize event_styles as t.
  induction t as [|[k v] t IH]; intros H; [reflexivity|].
  cbn [styles_get]. destruct (String.eqb_spec k kind) as [->|N].
  - exfalso. apply H. now left.
  - apply IH. intros Hin. apply H. now right.
Qed.

(** The two session kinds print their header line and the blank line,
    whatever [part] and [error] hold. *)
Theorem session_events_print_header_only (ev : dict) (debug : bool)
  (kind : string) :
  field ev "type" (VStr "unknown") = VStr kind ->
  kind = "session_start" \/ kind = "session_end" ->
  format_opencode_event (VDict ev) debug =
    (debug_prefix ev debug ;;
     tell (header (if String.eqb kind "session_start" then "🚀" else "🏁")
                  (if String.eqb kind "session_start" then "Session Start"
                   else "Session End")
                  (mkStyle (Some (if String.eqb kind "session_start"
                                  then Green else Blue))
                           (Some true) None)
           ++ [blank_line; blank_line])).
Proof.
  intros Ht Hk. rewrite (format_event_kind ev debug kind Ht).
  apply bind_ext. intros _. now destruct Hk as [-> | ->].
Qed.


(** A [step_start] event whose [part] is a mapping (or absent) puts
    [ - <type>] on the header line when [part.type] is truthy, stringifying
    whatever value it is, and only ends the header line otherwise; the
    suffix is printed with markup on, and this is the output when the
    console accepts it. *)
Theorem step_start_suffix (ev part : dict) (debug : bool) :
  field ev "type" (VStr "unknown") = VStr "step_start" ->
  field ev "part" (VDict []) = VDict part ->
  suffix_shaped part = true ->
  let step_type := field part "type" (VStr EmptyString) in
  format_opencode_event (VDict ev) debug =
    (debug_prefix ev debug ;;
     tell (header "▶️" "Step Start" colors.blue
           ++ (if truthy step_type then
                 [Print (" - " +++ py_str step_type) (Some colors.blue) NL
                        true]
               else [blank_line])
           ++ [blank_line])).
Proof.
  intros Ht Hp Ha step_type.
  rewrite (format_event_kind ev debug "step_start" Ht), Hp.
  apply bind_ext. intros _.
  change (print_kind_header "step_start")
    with (tell (header "▶️" "Step Start" colors.blue)).
  cbn [format_body eq_str String.eqb Ascii.eqb Bool.eqb].
  unfold format_step_start. cbn [py_get]. rewrite bind_ret_l.
  fold step_type. unfold suffix_shaped in Ha. fold step_type in Ha.
  destruct (truthy step_type); [|reflexivity].
  cbn [negb orb] in Ha. now rewrite (print_accepted _ _ _ _ Ha).
Qed.

(* ===================================================================== *)
(** ** [step_finish]: integer durations                                   *)
(* ===================================================================== *)

Section IntegerDurations.

Lemma digits2_pos_size (m : positive) : digits2_pos m = Pos.size m.
Proof. induction m; cbn; now rewrite ?IHm. Qed.

Lemma digits2_pos_bound (m : positive) :
  (Zpos m < 2 ^ 53)%Z -> (Zpos (digits2_pos m) <= 53)%Z.
Proof.
  intros H. rewrite digits2_pos_size.
  pose proof (Pos.size_le m) as Hle.
  assert (H2 : (2 ^ Zpos (Pos.size m) <= 2 * Zpos m)%Z).
  { rewrite <- Pos2Z.inj_pow. change (2 * Zpos m)%Z with (Zpos m~0).
    now apply Pos2Z.pos_le_pos. }
  destruct (Z.le_gt_cases (Zpos (Pos.size m)) 53) as [L|G]; [exact L|].
  exfalso.
  assert (2 ^ 54 <= 2 ^ Zpos (Pos.size m))%Z
    by (apply Z.pow_le_mono_r; lia).
  change (2 ^ 54)%Z with (2 * 2 ^ 53)%Z in *. lia.
Qed.

Lemma iter_xO_value (n : nat) (m : positive) :
  Zpos (Nat.iter n xO m) = (Zpos m * 2 ^ Z.of_nat n)%Z.
Proof.
  induction n as [|n IH].
  - cbn. lia.
  - rewrite Nat2Z.inj_succ, Z.pow_succ_r by lia.
    change (Nat.iter (S n) xO m) with ((Nat.iter n xO m)~0)%positive.
    rewrite Pos2Z.inj_xO, IH. lia.
Qed.

Lemma iter_xO_digits (n : nat) (m : positive) :
  Zpos (digits2_pos (Nat.iter n xO m))
  = (Zpos (digits2_pos m) + Z.of_nat n)%Z.
Proof.
  induction n as [|n IH].
  - cbn. lia.
  - rewrite Nat2Z.inj_succ.
    change (Nat.iter (S n) xO m) with ((Nat.iter n xO m)~0)%positive.
    cbn [digits2_pos]. rewrite Pos2Z.inj_succ, IH. lia.
Qed.

(** A mantissa of exactly 53 bits with an exponent in range is already
    rounded. *)
Lemma binary_round_aux_exact (sx : bool) (mz : positive) (ez : Z) :
  Zpos (digits2_pos mz) = 53%Z -> (-1074 <= ez <= 971)%Z ->
  binary_round_aux prec emax sx (Zpos mz) ez loc_Exact
  = S754_finite sx mz ez.
Proof.
  intros Hd He.
  assert (Hf : (fexp prec emax (Zdigits2 (Zpos mz) + ez) - ez = 0)%Z).
  { unfold fexp, emin, prec, emax. cbn [Zdigits2]. rewrite Hd. lia. }
  unfold binary_round_aux, shr_fexp.
  rewrite Hf. cbn [shr shr_record_of_loc shr_m loc_of_shr_record
                   round_nearest_even].
  rewrite Hf. cbn [shr shr_record_of_loc shr_m].
  unfold emax, prec. destruct (Z.leb_spec ez (1024 - 53)); [reflexivity|lia].
Qed.

Lemma binary_round_small (sx : bool) (m : positive) :
  (Zpos m < 2 ^ 53)%Z ->
  exists mz ez,
    binary_round prec emax sx m 0 = S754_finite sx mz ez
    /\ (ez <= 0)%Z /\ Zpos mz = (Zpos m * 2 ^ (- ez))%Z.
Proof.
  intros H. pose proof (digits2_pos_bound m H) as Hd.
  unfold binary_round.
  assert (Hf : fexp prec emax (Zpos (digits2_pos m) + 0)
               = (Zpos (digits2_pos m) - 53)%Z).
  { unfold fexp, emin, prec, emax. lia. }
  rewrite Hf. unfold shl_align.
  destruct (Zpos (digits2_pos m) - 53 - 0)%Z as [|k|k] eqn:Hk; [|lia|].
  - exists m, 0%Z. split; [|split; [lia | cbn; lia]].
    apply binary_round_aux_exact; lia.
  - rewrite Pos2Nat.inj_iter.
    exists (Nat.iter (Pos.to_nat k) xO m), (Zpos (digits2_pos m) - 53)%Z.
    split; [|split].
    + apply binary_round_aux_exact; [|lia].
      rewrite iter_xO_digits, positive_nat_Z. lia.
    + lia.
    + rewrite iter_xO_value, positive_nat_Z. f_equal. f_equal. lia.
Qed.

Lemma round_half_even_exact (mz m : positive) (ez : Z) :
  (ez <= 0)%Z -> Zpos mz = (Zpos m * 2 ^ (- ez))%Z ->
  round_half_even mz ez = Zpos m.
Proof.
  intros He Hm. unfold round_half_even.
  destruct (Z.leb_spec 0 ez).
  - replace ez with 0%Z in * by lia. cbn in Hm. cbn. lia.
  - assert (Hp : (0 < 2 ^ (- ez))%Z) by (apply Z.pow_pos_nonneg; lia).
    rewrite Hm, Z.div_mul, Z.mod_mul by lia.
    cbn [Z.mul]. destruct (Z.compare_spec 0 (2 ^ (- ez))); [lia| |lia].
    reflexivity.
Qed.

Lemma str_of_Z_neg (m : positive) :
  str_of_Z (Zneg m) = "-" +++ str_of_Z (Zpos m).
Proof. reflexivity. Qed.

(** [f"{d:.0f}"] of an int below [2^53] in magnitude is its decimal
    string. *)
Lemma py_format_0f_int (d : Z) :
  (Z.abs d < 2 ^ 53)%Z -> py_format_0f (VInt d) = ret (str_of_Z d).
Proof.
  intros H. cbn [py_format_0f as_number to_float]. unfold float_of_int.
  destruct d as [|m|m]; cbn [binary_normalize].
  - reflexivity.
  - destruct (binary_round_small false m H) as (mz & ez & -> & He & Hm).
    rewrite bind_ret_l. cbn [format_0f].
    now rewrite (round_half_even_exact mz m ez He Hm).
  - destruct (binary_round_small true m H) as (mz & ez & -> & He & Hm).
    rewrite bind_ret_l. cbn [format_0f].
    now rewrite (round_half_even_exact mz m ez He Hm).
Qed.

End IntegerDurations.

Lemma format_step_finish_ints (part time : dict) (s e : Z) :
  field part "time" (VDict []) = VDict time ->
  field time "start" VNone = VInt s ->
  field time "end" VNone = VInt e ->
  s <> 0%Z -> e <> 0%Z -> (Z.abs (e - s) < 2 ^ 53)%Z ->
  suffix_shaped part = true ->
  format_step_finish (VDict part) =
  tell (step_suffix (field part "type" (VStr EmptyString)) colors.green
                    EmptyString
        ++ (if (e =? s)%Z then []
            else [Print (" (" +++ str_of_Z (e - s) +++ "ms)")
                        (Some colors.dim) EmptyString true])
        ++ [blank_line]).
Proof.
  intros Ht Hs He Hs0 He0 Hd Ha. unfold format_step_finish. cbn [py_get].
  rewrite !bind_ret_l, Ht. cbn [py_get]. rewrite !bind_ret_l, Hs, He.
  cbn [truthy]. destruct (Z.eqb_spec s 0); [contradiction|].
  destruct (Z.eqb_spec e 0); [contradiction|]. cbn [negb andb].
  cbn [py_sub as_number]. rewrite bind_ret_l. cbn [truthy].
  rewrite (print_step_suffix part colors.green EmptyString Ha).
  destruct (Z.eqb_spec e s) as [E|N].
  - replace (e - s)%Z with 0%Z by lia. cbn [Z.eqb negb].
    rewrite bind_ret_l, newline_tell, tell_tell. reflexivity.
  - destruct (Z.eqb_spec (e - s) 0); [lia|]. cbn [negb].
    rewrite (py_format_0f_int _ Hd), bind_ret_l.
    rewrite print_plain
      by (rewrite !contains_char_app, str_of_Z_plain; reflexivity).
    rewrite newline_tell, !tell_tell. reflexivity.
Qed.

(** For a [step_finish] event with mappings for [part] and [part.time],
    a step type whose suffix the console accepts, and non-zero integer
    times whose difference is below [2^53] in magnitude, the header
    carries [ (<end - start>ms)] with the exact decimal difference,
    negative when the end precedes the start, and carries no duration when
    the two times are equal. *)
Theorem step_finish_integer_duration (ev part time : dict) (debug : bool)
  (s e : Z) :
  field ev "type" (VStr "unknown") = VStr "step_finish" ->
  field ev "part" (VDict []) = VDict part ->
  field part "time" (VDict []) = VDict time ->
  field time "start" VNone = VInt s ->
  field time "end" VNone = VInt e ->
  s <> 0%Z -> e <> 0%Z -> (Z.abs (e - s) < 2 ^ 53)%Z ->
  suffix_shaped part = true ->
  format_opencode_event (VDict ev) debug =
    (debug_prefix ev debug ;;
     tell (header "✅" "Step Finish" colors.green
           ++ step_suffix (field part "type" (VStr EmptyString))
                colors.green EmptyString
           ++ (if (e =? s)%Z then []
               else [Print (" (" +++ str_of_Z (e - s) +++ "ms)")
                           (Some colors.dim) EmptyString true])
           ++ [blank_line; blank_line])).
Proof.
  intros Hk Hp Ht Hs He Hs0 He0 Hd Ha.
  rewrite (format_event_kind ev debug "step_finish" Hk), Hp.
  apply bind_ext. intros _.
  change (print_kind_header "step_finish")
    with (tell (header "✅" "Step Finish" colors.green)).
  cbn [format_body eq_str String.eqb Ascii.eqb Bool.eqb].
  rewrite (format_step_finish_ints part time s e Ht Hs He Hs0 He0 Hd Ha).
  rewrite newline_tell, !tell_tell. f_equal.
  rewrite <- !app_assoc. reflexivity.
Qed.

Lemma format_step_finish_falsy_end (part time : dict) :
  field part "time" (VDict []) = VDict time ->
  truthy (field time "end" VNone) = false ->
  suffix_shaped part = true ->
  format_step_finish (VDict part) =
  tell (step_suffix (field part "type" (VStr EmptyString)) colors.green
                    EmptyString ++ [blank_line]).
Proof.
  intros Ht He Ha. unfold format_step_finish. cbn [py_get].
  rewrite !bind_ret_l, Ht. cbn [py_get]. rewrite !bind_ret_l, He.
  rewrite andb_false_r, bind_ret_l. cbn [truthy].
  rewrite (print_step_suffix part colors.green EmptyString Ha).
  reflexivity.
Qed.

(** A [step_finish] event whose step-type suffix the console accepts
    shows no duration as soon as [part.time.start] or [part.time.end] is
    falsy: absent, [null], [false], [0], [0.0] or an empty string; [end]
    may then hold anything, the subtraction is not attempted. *)
Theorem step_finish_falsy_time_hides_duration (ev part time : dict)
  (debug : bool) :
  field ev "type" (VStr "unknown") = VStr "step_finish" ->
  field ev "part" (VDict []) = VDict part ->
  field part "time" (VDict []) = VDict time ->
  truthy (field time "start" VNone) = false
  \/ truthy (field time "end" VNone) = false ->
  suffix_shaped part = true ->
  format_opencode_event (VDict ev) debug =
    (debug_prefix ev debug ;;
     tell (header "✅" "Step Finish" colors.green
           ++ step_suffix (field part "type" (VStr EmptyString))
                colors.green EmptyString
           ++ [blank_line; blank_line])).
Proof.
  intros Hk Hp Ht Hf Ha.
  rewrite (format_event_kind ev debug "step_finish" Hk), Hp.
  apply bind_ext. intros _.
  change (print_kind_header "step_finish")
    with (tell (header "✅" "Step Finish" colors.green)).
  cbn [format_body eq_str String.eqb Ascii.eqb Bool.eqb].
  assert (Hb : format_step_finish (VDict part) =
               tell (step_suffix (field part "type" (VStr EmptyString))
                       colors.green EmptyString ++ [blank_line])).
  { destruct Hf as [Hf|Hf].
    - now apply (format_step_finish_falsy_start part time).
    - now apply (format_step_finish_falsy_end part time). }
  rewrite Hb, newline_tell, !tell_tell. f_equal.
  rewrite <- !app_assoc. reflexivity.
Qed.

(* ===================================================================== *)
(** ** [tool_use]: an input that is not a mapping                         *)
(* ===================================================================== *)

Lemma show_key_argument_str (keys : list string) (s : string) :
  (forall key, In key keys -> contains_char 91 (key +++ ": ") = false) ->
  show_key_argument keys (VStr s) =
  match find (fun key => is_substring key s) keys with
  | Some key =>
      ([indent_call; Print (key +++ ": ") (Some colors.dim) EmptyString true],
       inl TypeError)
  | None => tell []
  end.
Proof.
  induction keys as [|key rest IH]; intros Hk; [reflexivity|].
  cbn [show_key_argument find py_contains]. rewrite bind_ret_l.
  destruct (is_substring key s).
  - rewrite indent_tell, (print_plain (key +++ ": "))
      by (apply Hk; now left).
    reflexivity.
  - apply IH. intros k Hin. apply Hk. now right.
Qed.

(** When [part.state.input] is a non-empty string and the console
    accepts the texts of the head, the keys are searched in the input as
    substrings: if none of the six occurs, no argument line is printed
    and the rendering completes; otherwise the renderer prints the indent
    and [<key>: ] for the first key that occurs and then raises
    [TypeError] at [tool_input[key]]. *)
Theorem tool_use_string_input (ev part state : dict) (s : string)
  (debug : bool) :
  field ev "type" (VStr "unknown") = VStr "tool_use" ->
  field ev "part" (VDict []) = VDict part ->
  field part "state" (VDict []) = VDict state ->
  field state "input" (VDict []) = VStr s ->
  s <> EmptyString ->
  tool_head_accepted part state = true ->
  format_opencode_event (VDict ev) debug =
    (debug_prefix ev debug ;;
     match find (fun key => is_substring key s) priority_keys with
     | Some key =>
         (tool_use_head part state
          ++ [indent_call;
              Print (key +++ ": ") (Some colors.dim) EmptyString true],
          inl TypeError)
     | None => tell (tool_use_head part state ++ [blank_line])
     end).
Proof.
  intros Ht Hp Hs Hi Hne Ha.
  rewrite (format_event_kind ev debug "tool_use" Ht), Hp.
  apply bind_ext. intros _.
  change (print_kind_header "tool_use")
    with (tell (header "🔧" "Tool Use" colors.cyan)).
  cbn [format_body eq_str String.eqb Ascii.eqb Bool.eqb].
  assert (Hbody : format_tool_use (VDict part) =
                  (print_tool_head part state ;;
                   show_key_argument priority_keys (VStr s))).
  { unfold format_tool_use. cbn [py_get]. rewrite !bind_ret_l, Hs.
    cbn [py_get]. rewrite !bind_ret_l, Hi.
    assert (Htr : truthy (VStr s) = true)
      by (destruct s; [contradiction|reflexivity]).
    rewrite Htr. unfold print_tool_head. rewrite !bind_assoc. reflexivity. }
  rewrite Hbody, bind_assoc, <- (bind_assoc (tell _)).
  rewrite (print_tool_head_tell part state Ha).
  rewrite (show_key_argument_str priority_keys s key_plain).
  destruct (find (fun key => is_substring key s) priority_keys);
    reflexivity.
Qed.

(* ===================================================================== *)
(** ** Failures before the body                                           *)
(* ===================================================================== *)

(** What is not an event of string kind fails early.  A decoded value that
    is not an object raises [AttributeError] before anything is printed;
    an object whose [type] is a list or an object raises [TypeError]
    before anything is printed, the debug prefix included; an object whose
    [type] is a number, a boolean or [null] prints the debug prefix and
    the fallback icon and then raises [AttributeError]. *)
Theorem early_failures (debug : bool) :
  (forall event,
     is_dict event = false ->
     format_opencode_event event debug = ([], inl AttributeError))
  /\ (forall ev,
        (exists l, field ev "type" (VStr "unknown") = VList l)
        \/ (exists d, field ev "type" (VStr "unknown") = VDict d) ->
        format_opencode_event (VDict ev) debug = ([], inl TypeError))
  /\ (forall ev,
        is_str (field ev "type" (VStr "unknown")) = false ->
        is_dict (field ev "type" (VStr "unknown")) = false ->
        (forall l, field ev "type" (VStr "unknown") <> VList l) ->
        format_opencode_event (VDict ev) debug =
          (debug_prefix ev debug ;;
           ([Print "⏺ " None EmptyString true], inl AttributeError))).
Proof.
  split; [|split].
  - intros event H. now destruct event.
  - intros ev H. unfold format_opencode_event. cbn [py_get].
    rewrite !bind_ret_l. now destruct H as [[l ->]|[d ->]].
  - intros ev Hs Hd Hl. unfold format_opencode_event. cbn [py_get].
    rewrite !bind_ret_l.
    destruct (field ev "type" (VStr "unknown")) eqn:Ht;
      try discriminate; try (now destruct (Hl l));
      cbn [get_event_style]; rewrite bind_ret_l;
      unfold fallback_style, debug_prefix;
      apply bind_ext; intros _; reflexivity.
Qed.

(* ===================================================================== *)
(** ** [safe_str]: the shape of a cut                                     *)
(* ===================================================================== *)

(* ===================================================================== *)
(** ** [safe_str]: the shape of a cut                                     *)
(* ===================================================================== *)

Lemma take_take_cut (n : nat) (s t : string) :
  n <= py_len s -> starts_inside t = false ->
  take n (take n s +++ t) = take n s.
Proof.
  intros H Ht. apply take_append_exact; [|exact Ht].
  rewrite py_len_take. lia.
Qed.

(** For a limit [n >= 0]: the result always starts with the first [n]
    characters of the stringified value; a longer value becomes exactly
    its first [n] characters followed by [...], [n + 3] characters in
    all.  For a negative limit the value always loses its last [-n]
    characters and gets the marker. *)
Theorem safe_str_cut_shape (v : value) (n : Z) :
  ((0 <= n)%Z ->
   take (Z.to_nat n) (safe_str v (Some n)) = take (Z.to_nat n) (py_str v))
  /\ ((0 <= n < Z.of_nat (py_len (py_str v)))%Z ->
      safe_str v (Some n) = take (Z.to_nat n) (py_str v) +++ "..."
      /\ Z.of_nat (py_len (safe_str v (Some n))) = (n + 3)%Z)
  /\ ((n < 0)%Z ->
      safe_str v (Some n) =
      take (py_len (py_str v) - Z.to_nat (- n)) (py_str v) +++ "...").
Proof.
  split; [|split].
  - intros Hn.
    destruct (Z.le_gt_cases (Z.of_nat (py_len (py_str v))) n) as [H|H].
    + now rewrite safe_str_short.
    + rewrite safe_str_long by lia. apply take_take_cut; [lia|reflexivity].
  - intros H. rewrite safe_str_long by exact H. split; [reflexivity|].
    rewrite py_len_cut. lia.
  - intros Hn. unfold safe_str, slice_to. rewrite safe_str_result.
    destruct (Z.ltb_spec n (Z.of_nat (py_len (py_str v)))); [|lia].
    destruct (Z.leb_spec 0 n); [lia|reflexivity].
Qed.

(* ===================================================================== *)
(** ** The size of a rendering                                            *)
(* ===================================================================== *)

Section Bounds.

Lemma bounded_bind {A B} (a b : nat) (m : M A) (f : A -> M B) :
  bounded a m -> (forall x, bounded b (f x)) -> bounded (a + b) (bind m f).
Proof.
  unfold bounded, output. intros Hm Hf.
  destruct m as [o [e|x]]; cbn in *; [lia|].
  specialize (Hf x). destruct (f x) as [o' r]. cbn in *.
  rewrite length_app. lia.
Qed.

Lemma bounded_weaken {A} (a b : nat) (m : M A) :
  bounded a m -> a <= b -> bounded b m.
Proof. unfold bounded. lia. Qed.

Lemma bounded_silent {A} (n : nat) (m : M A) :
  output m = [] -> bounded n m.
Proof. unfold bounded. intros ->. cbn. lia. Qed.

Lemma bounded_ret {A} (n : nat) (a : A) : bounded n (ret a).
Proof. now apply bounded_silent. Qed.

Lemma bounded_print (n : nat) (t : string) (st : option Style)
  (e : string) (mk : bool) : bounded (S n) (console_print t st e mk).
Proof.
  unfold bounded.
  destruct (print_cases t st e mk) as [-> | ->]; cbn; lia.
Qed.

Lemma bounded_if {A} (n : nat) (b : bool) (m m' : M A) :
  bounded n m -> bounded n m' -> bounded n (if b then m else m').
Proof. now destruct b. Qed.

Lemma bounded_py_get (n : nat) (v : value) (k : string) (default : value) :
  bounded n (py_get v k default).
Proof. apply bounded_silent, output_py_get. Qed.

Lemma bounded_indented_line (n : nat) (t : string) (st : option Style)
  (mk : bool) :
  bounded (S (S n)) (console_print INDENT None EmptyString true ;;
                     console_print t st NL mk).
Proof.
  apply (bounded_bind 1 (S n)); [apply bounded_print | intros ?].
  apply bounded_print.
Qed.

Lemma bounded_show_key_argument (keys : list string) (tool_input : value) :
  bounded 3 (show_key_argument keys tool_input).
Proof.
  induction keys as [|key rest IH]; cbn [show_key_argument].
  - apply bounded_ret.
  - apply (bounded_bind 0 3).
    + apply bounded_silent. now destruct tool_input.
    + intros [|]; [|exact IH].
      apply (bounded_bind 1 2); [apply bounded_print | intros ?].
      apply (bounded_bind 1 1); [apply bounded_print | intros ?].
      apply (bounded_bind 0 1); [|intros ?; apply bounded_print].
      apply bounded_silent. destruct tool_input; try reflexivity.
      cbn. now destruct (dict_get d key).
Qed.

Lemma bounded_show_text_lines (lines : list string) (i : nat) :
  bounded (2 * List.length lines) (show_text_lines i lines).
Proof.
  rewrite show_text_lines_filter. unfold bounded, output. cbn [fst tell].
  generalize (enumerate_from_length i lines).
  generalize (enumerate_from i lines) as l. intros l <-.
  induction l as [|x l IH]; cbn [filter flat_map List.length]; [lia|].
  destruct (text_keeps x); cbn [flat_map]; rewrite ?length_app; cbn; lia.
Qed.

Lemma bounded_show_thinking_lines (lines : list string) :
  bounded (2 * List.length lines) (show_thinking_lines lines).
Proof.
  rewrite show_thinking_lines_filter. unfold bounded, output. cbn [fst tell].
  induction lines as [|x l IH]; cbn [filter flat_map List.length]; [lia|].
  destruct (negb (is_blank x)); cbn [flat_map]; rewrite ?length_app;
    cbn; lia.
Qed.

Lemma bounded_show_summary (total cap : nat) :
  bounded 2 (show_summary total cap).
Proof.
  unfold show_summary. apply bounded_if;
    [apply bounded_indented_line | apply bounded_ret].
Qed.

Lemma length_firstn_min (n : nat) (lines : list string) :
  List.length (firstn (Nat.min n (List.length lines)) lines) <= n.
Proof. rewrite length_firstn. lia. Qed.

Lemma bounded_format_tool_use (part : value) :
  bounded 8 (format_tool_use part).
Proof.
  unfold format_tool_use.
  do 5 (apply (bounded_bind 0 8); [apply bounded_py_get | intros ?]).
  apply (bounded_bind 1 7); [apply bounded_print | intros ?].
  apply (bounded_bind 1 6).
  { apply bounded_if; [apply bounded_print | apply bounded_ret]. }
  intros ?. apply (bounded_bind 1 5); [apply bounded_print | intros ?].
  apply (bounded_bind 2 3).
  { apply bounded_if; [apply bounded_indented_line | apply bounded_ret]. }
  intros ?. apply bounded_if;
    [apply bounded_show_key_argument | apply bounded_ret].
Qed.

Lemma bounded_format_step_start (part : value) :
  bounded 1 (format_step_start part).
Proof.
  unfold format_step_start.
  apply (bounded_bind 0 1); [apply bounded_py_get | intros ?].
  apply bounded_if; apply bounded_print.
Qed.

Lemma bounded_format_step_finish (part : value) :
  bounded 3 (format_step_finish part).
Proof.
  unfold format_step_finish.
  do 4 (apply (bounded_bind 0 3); [apply bounded_py_get | intros ?]).
  apply (bounded_bind 0 3).
  { apply bounded_if;
      [apply bounded_silent, output_py_sub | apply bounded_ret]. }
  intros ?. apply (bounded_bind 1 2).
  { apply bounded_if; [apply bounded_print | apply bounded_ret]. }
  intros ?. apply (bounded_bind 1 1); [|intros ?; apply bounded_print].
  apply bounded_if; [|apply bounded_ret].
  apply (bounded_bind 0 1);
    [apply bounded_silent, output_py_format_0f
    | intros ?; apply bounded_print].
Qed.

Lemma bounded_format_text (part : value) : bounded 13 (format_text part).
Proof.
  unfold format_text.
  apply (bounded_bind 0 13); [apply bounded_py_get | intros content].
  apply bounded_if; [|apply bounded_print].
  apply (bounded_bind 1 12); [apply bounded_print | intros ?].
  apply (bounded_bind 0 12).
  { apply bounded_silent. now destruct content. }
  intros lines. apply (bounded_bind 10 2);
    [|intros ?; apply bounded_show_summary].
  eapply bounded_weaken; [apply bounded_show_text_lines|].
  pose proof (length_firstn_min 5 lines). lia.
Qed.

Lemma bounded_format_thinking (part : value) :
  bounded 9 (format_thinking part).
Proof.
  unfold format_thinking.
  apply (bounded_bind 0 9); [apply bounded_py_get | intros content].
  apply bounded_if; [|apply bounded_print].
  apply (bounded_bind 1 8); [apply bounded_print | intros ?].
  apply (bounded_bind 0 8).
  { apply bounded_silent. now destruct content. }
  intros lines. apply (bounded_bind 6 2);
    [|intros ?; apply bounded_show_summary].
  eapply bounded_weaken; [apply bounded_show_thinking_lines|].
  pose proof (length_firstn_min 3 lines). lia.
Qed.

Lemma bounded_format_error (error_data : value) :
  bounded 4 (format_error error_data).
Proof.
  unfold format_error.
  do 3 (apply (bounded_bind 0 4); [apply bounded_py_get | intros ?]).
  do 3 (apply (bounded_bind 1 _); [apply bounded_print | intros ?]).
  apply bounded_print.
Qed.

Lemma bounded_format_unknown (part error_data : value) :
  bounded 3 (format_unknown part error_data).
Proof.
  rewrite format_unknown_body. unfold bounded, unknown_body. cbn [output fst tell].
  destruct (truthy (if truthy part then part else error_data)); cbn; lia.
Qed.

Lemma bounded_format_body (event_type part error_data : value) :
  bounded 13 (format_body event_type part error_data).
Proof.
  unfold format_body.
  repeat (apply bounded_if;
          [eapply bounded_weaken;
           [first [ apply bounded_format_tool_use
                  | apply bounded_format_step_start
                  | apply bounded_format_step_finish
                  | apply bounded_format_text
                  | apply bounded_format_thinking
                  | apply bounded_format_error
                  | apply (bounded_print 0) ] | lia] |]).
  eapply bounded_weaken; [apply bounded_format_unknown | lia].
Qed.

Lemma bounded_print_debug_info (timestamp session_id : value) :
  bounded 1 (print_debug_info timestamp session_id).
Proof.
  unfold print_debug_info. apply (bounded_bind 0 1).
  - apply bounded_if; [|apply bounded_ret].
    apply (bounded_bind 0 0); [|intros ?; apply bounded_ret].
    apply bounded_silent. now destruct session_id.
  - intros [|x l]; [apply bounded_ret | apply bounded_print].
Qed.

Lemma bounded_print_header (event_type : value) (icon : string)
  (st : Style) : bounded 2 (print_header event_type icon st).
Proof.
  unfold print_header.
  apply (bounded_bind 1 1); [apply bounded_print | intros ?].
  destruct event_type; try (now apply bounded_silent).
  apply bounded_print.
Qed.

End Bounds.

(** No event, whatever it holds and whether or not its rendering
    completes, makes the renderer issue more than 17 console calls; a
    six-line text event with a session identifier reaches 17 in debug
    mode. *)
Theorem rendering_is_bounded :
  (forall event debug,
     List.length (output (format_opencode_event event debug)) <= 17)
  /\ List.length
       (output (format_opencode_event (VDict six_lines_fields) true)) = 17.
Proof.
  split; [|reflexivity].
  intros event debug. change (bounded 17 (format_opencode_event event debug)).
  unfold format_opencode_event.
  do 5 (apply (bounded_bind 0 17); [apply bounded_py_get | intros ?]).
  apply (bounded_bind 0 17).
  { apply bounded_silent. unfold get_event_style. now destruct x. }
  intros [icon st]. apply (bounded_bind 1 16).
  { apply bounded_if; [apply bounded_print_debug_info | apply bounded_ret]. }
  intros ?. apply (bounded_bind 2 14); [apply bounded_print_header|].
  intros ?. apply (bounded_bind 13 1); [apply bounded_format_body|].
  intros ?. apply bounded_print.
Qed.

(* ===================================================================== *)
(** ** Splitting the content into lines                                   *)
(* ===================================================================== *)

Section Lines.

Lemma code_eq (c : ascii) (n : nat) :
  n < 256 -> (code c =? n) = true -> c = ascii_of_nat n.
Proof.
  intros Hn H. apply Nat.eqb_eq in H. unfold code in H. subst n.
  now rewrite ascii_nat_embedding.
Qed.

Lemma split_lines_nonempty (s : string) : split_lines s <> [].
Proof.
  destruct s as [|c r]; cbn; [discriminate|].
  destruct (code c =? 10); [discriminate|].
  destruct (split_lines r); discriminate.
Qed.

Lemma join_cons (sep p : string) (rest : list string) :
  rest <> [] -> join sep (p :: rest) = p +++ sep +++ join sep rest.
Proof. destruct rest; [contradiction | reflexivity]. Qed.

Lemma join_split_lines (s : string) : join NL (split_lines s) = s.
Proof.
  induction s as [|c r IH]; [reflexivity|]. cbn [split_lines].
  destruct (code c =? 10) eqn:Hc.
  - rewrite join_cons by apply split_lines_nonempty.
    rewrite IH. rewrite (code_eq c 10) by (auto; lia). reflexivity.
  - destruct (split_lines r) as [|l ls] eqn:Hs.
    + now destruct (split_lines_nonempty r).
    + rewrite <- IH. destruct ls; reflexivity.
Qed.

Lemma split_lines_no_break (s line : string) :
  In line (split_lines s) -> contains_char 10 line = false.
Proof.
  revert line. induction s as [|c r IH]; intros line; cbn [split_lines].
  - intros [<-|[]]. reflexivity.
  - destruct (code c =? 10) eqn:Hc.
    + intros [<-|H]; [reflexivity | now apply IH].
    + destruct (split_lines r) as [|l ls].
      * intros [<-|[]]. cbn. now rewrite Hc.
      * intros [<-|H].
        -- cbn. rewrite Hc. apply IH. now left.
        -- apply IH. now right.
Qed.

Lemma split_lines_length (s : string) :
  List.length (split_lines s) = S (count_char 10 s).
Proof.
  induction s as [|c r IH]; [reflexivity|]. cbn [split_lines count_char].
  destruct (code c =? 10).
  - cbn [List.length]. now rewrite IH.
  - destruct (split_lines r) as [|l ls]; [discriminate|].
    cbn [List.length] in *. lia.
Qed.

End Lines.

(** The split loses nothing and shows one line per line: joining the lines
    of a content by line breaks gives the content back, no line that the
    [text] or [thinking] rule shows holds a line break, and the summary
    line appears exactly when the content holds at least as many line
    breaks as the cap, counting the lines beyond the cap. *)
Theorem content_lines (s : string) :
  join NL (split_lines s) = s
  /\ (forall i line, In (i, line) (text_shown (split_lines s)) ->
      contains_char 10 line = false)
  /\ (forall line, In line (thinking_shown (split_lines s)) ->
      contains_char 10 line = false)
  /\ (forall cap,
      summary_calls (List.length (split_lines s)) cap =
      if cap <=? count_char 10 s then
        [indent_call;
         Print ("... (" +++ str_of_Z (Z.of_nat (S (count_char 10 s) - cap))
                +++ " more lines)") (Some colors.dim) NL true]
      else []).
Proof.
  split; [apply join_split_lines|]. split; [|split].
  - intros i line H. apply in_text_shown in H. destruct H as [H _].
    apply (split_lines_no_break s). eapply nth_error_In. exact H.
  - intros line H. apply in_thinking_shown in H.
    destruct H as [[i [H _]] _].
    apply (split_lines_no_break s). eapply nth_error_In. exact H.
  - intros cap. rewrite split_lines_length. unfold summary_calls.
    destruct (Nat.ltb_spec cap (S (count_char 10 s)));
      destruct (Nat.leb_spec cap (count_char 10 s)); try lia; reflexivity.
Qed.

(* ===================================================================== *)
(** ** The header label                                                   *)
(* ===================================================================== *)

Section Label.

Lemma code_ascii_of_nat (n : nat) : n < 256 -> code (ascii_of_nat n) = n.
Proof. intros H. unfold code. now apply nat_ascii_embedding. Qed.

Lemma to_upper_not_underscore (c : ascii) :
  code c <> 95 -> code (to_upper c) <> 95.
Proof.
  intros H. unfold to_upper, is_lower.
  destruct (Nat.leb_spec 97 (code c)); cbn [andb]; [|exact H].
  destruct (Nat.leb_spec (code c) 122); [|exact H].
  rewrite code_ascii_of_nat by lia. lia.
Qed.

Lemma to_lower_not_underscore (c : ascii) :
  code c <> 95 -> code (to_lower c) <> 95.
Proof.
  intros H. unfold to_lower, is_upper.
  destruct (Nat.leb_spec 65 (code c)); cbn [andb]; [|exact H].
  destruct (Nat.leb_spec (code c) 90); [|exact H].
  rewrite code_ascii_of_nat by lia. lia.
Qed.

Lemma title_from_no_underscore (s : string) (b : bool) :
  contains_char 95 s = false -> contains_char 95 (title_from b s) = false.
Proof.
  revert b. induction s as [|c r IH]; intros b; [reflexivity|].
  cbn [contains_char title_from]. intros H.
  apply orb_false_iff in H. destruct H as [Hc Hr].
  apply Nat.eqb_neq in Hc. rewrite (IH _ Hr), orb_false_r.
  apply Nat.eqb_neq.
  destruct b; [now apply to_lower_not_underscore
              | now apply to_upper_not_underscore].
Qed.

Lemma replace_underscores_none (s : string) :
  contains_char 95 (replace_underscores s) = false.
Proof.
  induction s as [|c r IH]; [reflexivity|].
  cbn [replace_underscores contains_char]. rewrite IH, orb_false_r.
  destruct (code c =? 95) eqn:H; [reflexivity | exact H].
Qed.

Lemma title_from_length (s : string) (b : bool) :
  String.length (title_from b s) = String.length s.
Proof.
  revert b. induction s as [|c r IH]; intros b; [reflexivity|].
  cbn. now rewrite IH.
Qed.

Lemma replace_underscores_length (s : string) :
  String.length (replace_underscores s) = String.length s.
Proof. induction s as [|c r IH]; [reflexivity|]. cbn. now rewrite IH. Qed.

Lemma replace_underscores_ascii (s : string) :
  is_ascii s = true -> is_ascii (replace_underscores s) = true.
Proof.
  induction s as [|c r IH]; [reflexivity|].
  cbn [is_ascii replace_underscores]. intros H.
  apply andb_prop in H. destruct H as [Hc Hr]. rewrite (IH Hr), andb_true_r.
  destruct (code c =? 95); [reflexivity | exact Hc].
Qed.

Lemma to_upper_ascii (c : ascii) :
  (code c <? 128) = true -> (code (to_upper c) <? 128) = true.
Proof.
  intros H. unfold to_upper, is_lower.
  destruct (Nat.leb_spec 97 (code c)); cbn [andb]; [|exact H].
  destruct (Nat.leb_spec (code c) 122); [|exact H].
  rewrite code_ascii_of_nat by lia. apply Nat.ltb_lt. lia.
Qed.

Lemma to_lower_ascii (c : ascii) :
  (code c <? 128) = true -> (code (to_lower c) <? 128) = true.
Proof.
  intros H. unfold to_lower, is_upper.
  destruct (Nat.leb_spec 65 (code c)); cbn [andb]; [|exact H].
  destruct (Nat.leb_spec (code c) 90); [|exact H].
  rewrite code_ascii_of_nat by lia. apply Nat.ltb_lt. lia.
Qed.

Lemma title_from_ascii (s : string) (b : bool) :
  is_ascii s = true -> is_ascii (title_from b s) = true.
Proof.
  revert b. induction s as [|c r IH]; intros b; [reflexivity|].
  cbn [is_ascii title_from]. intros H.
  apply andb_prop in H. destruct H as [Hc Hr]. rewrite (IH _ Hr), andb_true_r.
  destruct b; [now apply to_lower_ascii | now apply to_upper_ascii].
Qed.

(** In ASCII text every byte is a character. *)
Lemma py_len_ascii (s : string) :
  is_ascii s = true -> py_len s = String.length s.
Proof.
  unfold py_len. induction s as [|c r IH]; [reflexivity|].
  cbn [is_ascii]. intros H. apply andb_prop in H. destruct H as [_ Hr].
  rewrite chars_cons. cbn [String.length]. rewrite <- (IH Hr).
  destruct r as [|c' r']; [reflexivity|].
  destruct (chars_head c' r') as (t & gs & E). rewrite E.
  cbn [is_ascii] in Hr. apply andb_prop in Hr. destruct Hr as [Hc' _].
  cbn [starts_inside]. unfold is_continuation.
  apply Nat.ltb_lt in Hc'.
  destruct (Nat.leb_spec 128 (code c')); [lia|]. reflexivity.
Qed.

End Label.

(** For every string kind the header is the icon of the kind followed by
    a space and then the label, when the console accepts the label; the
    label of a kind in ASCII has as many characters as the kind and holds
    no underscore; a kind outside the table gets the fallback icon and the
    muted style. *)
Theorem header_label (kind : string) :
  let label := title (replace_underscores kind) in
  (accepted label = true ->
   print_header (VStr kind) (fst (style_of kind)) (snd (style_of kind))
   = tell [Print (fst (style_of kind) +++ " ") None EmptyString true;
           Print label (Some (snd (style_of kind))) EmptyString true])
  /\ (is_ascii kind = true ->
      label = title_from false (replace_underscores kind)
      /\ py_len label = py_len kind
      /\ contains_char 95 label = false)
  /\ (~ In kind known_kinds -> style_of kind = ("⏺", colors.dim)).
Proof.
  intros label. split; [|split].
  - intros Ha. now apply print_kind_header_tell.
  - intros Hk. pose proof (replace_underscores_ascii kind Hk) as Hr.
    assert (E : label = title_from false (replace_underscores kind)).
    { unfold label, title. now rewrite Hr. }
    split; [exact E|]. split.
    + rewrite E, !py_len_ascii by (try apply title_from_ascii; assumption).
      now rewrite title_from_length, replace_underscores_length.
    + rewrite E. apply title_from_no_underscore, replace_underscores_none.
  - intros H. unfold style_of. now rewrite (styles_get_unknown kind H).
Qed.

(** Whitespace around a line never changes what the loop does with it:
    the stream of the stripped lines is processed like the stream
    itself. *)
Theorem surrounding_whitespace_is_ignored
  (json_loads : string -> exn + value) (argv stdin : list string) :
  process_stream json_loads argv (map strip stdin) =
  process_stream json_loads argv stdin.
Proof.
  unfold process_stream.
  induction stdin as [|line rest IH]; [reflexivity|].
  cbn [map process_lines]. rewrite strip_idempotent.
  destruct (negb (truthy_str (strip line))); [exact IH|].
  apply bind_ext. intros _. exact IH.
Qed.

(* ===================================================================== *)
(** ** The blank line between events                                      *)
(* ===================================================================== *)

(** The output of a stream that is processed to its end is empty or ends
    with a blank line: every event and every parse error closes with its
    blank line.  When none of the texts ends in a line break and the texts
    printed with markup on hold no opening bracket, it ends with exactly
    one blank line, and the blocks are one blank line apart. *)
Theorem stream_output_ends_with_blank_line
  (json_loads : string -> exn + value) (argv stdin : list string)
  (out : list call) :
  process_stream json_loads argv stdin = (out, inr tt) ->
  (lines_of out = blank_screen \/ ends_with_blank_line out)
  /\ (Forall (fun c => tidy c = true) out ->
      lines_of out = blank_screen \/ ends_with_one_blank_line out).
Proof.
  intros H. unfold process_stream in H. split.
  - pose proof (triple_process_lines (fun _ => True)
                  (fun _ => True) line_start blank_last
                  (fun _ _ _ _ _ _ => I) (fun _ _ _ _ _ _ => I)
                  (fun t st mk s _ _ => breaks_close t st mk s)
                  (fun t st mk s _ _ => breaks_close t st mk s)
                  breaks_blank json_loads
                  (existsb (String.eqb "--debug") argv) stdin
                  blank_screen (or_introl eq_refl)) as T.
    rewrite H in T. apply T. apply Forall_forall. intros; exact I.
  - intros Ht.
    pose proof (triple_process_lines (fun c => tidy c = true)
                  line_open line_closed blank_closed
                  exact_inline exact_visible exact_close exact_line
                  exact_blank json_loads
                  (existsb (String.eqb "--debug") argv) stdin
                  blank_screen (or_introl eq_refl)) as T.
    rewrite H in T. now apply T.
Qed.

(* ===================================================================== *)
(** ** The first failure ends the process                                 *)
(* ===================================================================== *)

(** When the lines before a line are processed to their end and that
    line decodes to an event whose rendering raises, the process prints
    what those lines and the failed rendering printed, then the red report
    [Error: <text of the exception>], and exits with status 1; the lines
    after it are never read. *)
Theorem main_stops_at_first_failure (json_loads : string -> exn + value)
  (message : exn -> string) (argv before after : list string)
  (line : string) (event : value) (printed partial : list call) (e : exn) :
  process_stream json_loads argv before = (printed, inr tt) ->
  truthy_str (strip line) = true ->
  json_loads (strip line) = inr event ->
  format_opencode_event event (existsb (String.eqb "--debug") argv)
    = (partial, inl e) ->
  e <> JSONDecodeError ->
  main json_loads message argv (before ++ line :: after) =
    (printed ++ partial
     ++ [Print ("Error: " +++ message e) (Some colors.red) NL false],
     1%Z).
Proof.
  intros Hb Hl Hd Hf He. unfold main.
  unfold process_stream in *. rewrite process_lines_app, Hb.
  cbn [process_lines]. rewrite Hl. cbn [negb]. unfold loads.
  rewrite Hd, bind_ret_l, Hf, (try_except_other partial e _ He).
  cbn. now rewrite <- app_assoc.
Qed.


(** Only the presence of [--debug] among the arguments matters: their
    order, repetitions and any other argument change nothing. *)
Theorem only_the_debug_flag_matters (json_loads : string -> exn + value)
  (argv argv' stdin : list string) :
  (In "--debug" argv <-> In "--debug" argv') ->
  process_stream json_loads argv stdin =
  process_stream json_loads argv' stdin.
Proof.
  intros H. unfold process_stream.
  assert (E : existsb (String.eqb "--debug") argv
              = existsb (String.eqb "--debug") argv').
  { apply eq_true_iff_eq. rewrite !existsb_exists. split.
    - intros (x & Hx & Ex). apply String.eqb_eq in Ex. subst x.
      exists "--debug". split; [now apply H | apply String.eqb_refl].
    - intros (x & Hx & Ex). apply String.eqb_eq in Ex. subst x.
      exists "--debug". split; [now apply H | apply String.eqb_refl]. }
  now rewrite E.
Qed.

(* ===================================================================== *)
(** ** Contents and times of the wrong type                               *)
(* ===================================================================== *)


(** A [text] or [thinking] event with a mapping for [part] prints only its
    header line when [part.text] is falsy, of whatever type; when it is
    truthy and not a string, the header line is ended and [AttributeError]
    is raised at [.split]. *)
Theorem content_that_is_not_a_string (ev part : dict) (debug : bool)
  (kind : string) :
  field ev "type" (VStr "unknown") = VStr kind ->
  kind = "text" \/ kind = "thinking" ->
  field ev "part" (VDict []) = VDict part ->
  let content := field part "text" (VStr EmptyString) in
  (truthy content = false ->
   format_opencode_event (VDict ev) debug =
     (debug_prefix ev debug ;;
      tell (kind_header kind ++ [blank_line; blank_line])))
  /\ (truthy content = true -> is_str content = false ->
      format_opencode_event (VDict ev) debug =
        (debug_prefix ev debug ;;
         (kind_header kind ++ [blank_line], inl AttributeError))).
Proof.
  intros Hk Hkind Hp content.
  rewrite (format_event_kind ev debug kind Hk), Hp.
  assert (Hh : print_kind_header kind = tell (kind_header kind))
    by (now destruct Hkind as [-> | ->]).
  rewrite Hh. split.
  - intros Hc. apply bind_ext. intros _.
    destruct Hkind as [-> | ->];
      cbn [format_body eq_str String.eqb Ascii.eqb Bool.eqb];
      unfold format_text, format_thinking; cbn [py_get];
      rewrite bind_ret_l; fold content; rewrite Hc; reflexivity.
  - intros Hc Hs. apply bind_ext. intros _.
    destruct Hkind as [-> | ->];
      cbn [format_body eq_str String.eqb Ascii.eqb Bool.eqb];
      unfold format_text, format_thinking; cbn [py_get];
      rewrite bind_ret_l; fold content; rewrite Hc;
      destruct content; try discriminate; reflexivity.
Qed.


(** A [step_finish] event whose start and end times are both truthy
    raises [TypeError] at the subtraction, before anything but the header
    is printed, as soon as one of them is not a number (a string, a list
    or a mapping). *)
Theorem step_finish_times_that_are_not_numbers (ev part time : dict)
  (debug : bool) :
  field ev "type" (VStr "unknown") = VStr "step_finish" ->
  field ev "part" (VDict []) = VDict part ->
  field part "time" (VDict []) = VDict time ->
  truthy (field time "start" VNone) = true ->
  truthy (field time "end" VNone) = true ->
  as_number (field time "start" VNone) = None
  \/ as_number (field time "end" VNone) = None ->
  format_opencode_event (VDict ev) debug =
    (debug_prefix ev debug ;;
     (header "✅" "Step Finish" colors.green, inl TypeError)).
Proof.
  intros Hk Hp Ht Hs He Hn.
  rewrite (format_event_kind ev debug "step_finish" Hk), Hp.
  apply bind_ext. intros _.
  change (print_kind_header "step_finish")
    with (tell (header "✅" "Step Finish" colors.green)).
  cbn [format_body eq_str String.eqb Ascii.eqb Bool.eqb].
  unfold format_step_finish. cbn [py_get].
  rewrite !bind_ret_l, Ht. cbn [py_get]. rewrite !bind_ret_l, Hs, He.
  cbn [andb]. unfold py_sub.
  destruct Hn as [Hn|Hn]; rewrite Hn.
  - destruct (as_number (field time "end" VNone)) as [[x|x]|]; reflexivity.
  - reflexivity.
Qed.

End Program.

(* ===================================================================== *)
(** ** The theorems on sample inputs                                      *)
(* ===================================================================== *)

Lemma safe_str_truncation_witness :
  (0 <= 4)%Z
  /\ safe_str strict_library (VStr "truncated") (Some 4%Z) = "trun..."
  /\ safe_str strict_library
       (VStr (safe_str strict_library (VStr "truncated") (Some 4%Z)))
       (Some 4%Z)
     = safe_str strict_library (VStr "truncated") (Some 4%Z).
Proof.
  split; [lia|]. split; [reflexivity|].
  apply (safe_str_truncation strict_library (VStr "truncated") 4). lia.
Defined.


Lemma text_thinking_summary_witness :
  format_opencode_event strict_library (VDict seven_lines_fields) false =
  tell [Print "💬 " None EmptyString true;
        Print "Text" (Some colors.reset) EmptyString true;
        blank_line;
        indent_call; Print "a" (Some colors.reset) NL false;
        indent_call; Print "b" (Some colors.dim) NL false;
        indent_call; Print "c" (Some colors.dim) NL false;
        indent_call; Print "d" (Some colors.dim) NL false;
        indent_call; Print "e" (Some colors.dim) NL false;
        indent_call; Print "... (2 more lines)" (Some colors.dim) NL true;
        blank_line].
Proof.
  rewrite (proj1 (text_thinking_summary strict_library seven_lines_fields
                    seven_lines_part seven_lines false
                    eq_refl eq_refl eq_refl) eq_refl).
  reflexivity.
Defined.

(** C6 as stated fails: the thinking content ["a\n\n\n\nb"] has two
    non-skipped lines, no more than the cap of three, and still gets the
    summary line, because its five lines exceed the cap: the blank lines
    count. *)
Lemma summary_counts_skipped_lines :
  List.length (thinking_non_skipped (split_lines sparse_thinking)) = 2
  /\ List.length (split_lines sparse_thinking) = 5
  /\ forall lib,
       format_opencode_event lib (VDict sparse_thinking_fields) false =
       tell [Print "🤔 " None EmptyString true;
             Print "Thinking" (Some colors.magenta) EmptyString true;
             blank_line;
             indent_call; Print "a" (Some colors.magenta) NL false;
             indent_call;
             Print "... (2 more lines)" (Some colors.dim) NL true;
             blank_line].
Proof. split; [reflexivity|]. split; [reflexivity|]. intros lib. reflexivity. Qed.

Lemma blank_line_asymmetry_witness :
  format_text strict_library (VDict blank_first_part) =
    tell [blank_line;
          indent_call; Print EmptyString (Some colors.reset) NL false;
          indent_call; Print "foo" (Some colors.dim) NL false]
  /\ format_thinking strict_library (VDict blank_first_part) =
       tell [blank_line;
             indent_call; Print "foo" (Some colors.magenta) NL false].
Proof.
  destruct (blank_line_asymmetry strict_library blank_first_part blank_first
              eq_refl eq_refl) as (Ht & Hk & _).
  rewrite Ht, Hk. split; reflexivity.
Defined.



Lemma missing_type_is_unknown_witness :
  format_opencode_event strict_library
    (VDict [("part", VDict [("k", VInt 1)])]) false =
  tell [Print "⏺ " None EmptyString true;
        Print "Unknown" (Some colors.dim) EmptyString true;
        blank_line;
        indent_call;
        Print "{'k': 1}" (Some colors.dim) NL false;
        blank_line].
Proof.
  rewrite (proj2 (proj2 (missing_type_is_unknown strict_library
                           [("part", VDict [("k", VInt 1)])] false eq_refl))).
  reflexivity.
Defined.

Lemma decode_failure_is_isolated_witness :
  process_stream strict_library toy_loads [] ["not json at all"; "{}"] =
  tell [Print "⏺ " None EmptyString true;
        Print "Parse Error" (Some colors.red) NL true;
        Print (INDENT +++ "not json at all...") (Some colors.dim) NL false;
        blank_line;
        Print "⏺ " None EmptyString true;
        Print "Unknown" (Some colors.dim) EmptyString true;
        blank_line;
        blank_line].
Proof.
  rewrite (proj1 (decode_failure_is_isolated strict_library toy_loads []
                    "not json at all" ["{}"] eq_refl) eq_refl).
  reflexivity.
Defined.

Lemma strip_no_spaces (s : string) :
  Forall (fun g => is_space g = false) (chars s) -> strip s = s.
Proof.
  intros H. unfold strip.
  assert (Hr : rstrip_chars (chars s) = chars s).
  { induction H as [|g r Hg Hr IH]; [reflexivity|].
    cbn [rstrip_chars]. rewrite IH.
    destruct r; [now rewrite Hg | reflexivity]. }
  assert (Hl : lstrip_chars (chars s) = chars s).
  { destruct H as [|g r Hg Hr']; [reflexivity|].
    cbn [lstrip_chars]. now rewrite Hg. }
  rewrite Hl, Hr. apply unchars_chars.
Qed.

Lemma chars_brackets (n : N) :
  starts_inside (N.iter n (String "["%char) EmptyString) = false
  /\ Forall (fun g => is_space g = false)
            (chars (N.iter n (String "["%char) EmptyString)).
Proof.
  induction n as [|n [H1 H2]] using N.peano_ind.
  - split; [reflexivity | constructor].
  - rewrite N.iter_succ. split; [reflexivity|].
    rewrite chars_cons, H1.
    destruct (chars (N.iter n (String "["%char) EmptyString)).
    + repeat constructor.
    + constructor; [reflexivity | exact H2].
Qed.

(** C3 as stated fails: [json.loads] does not only raise
    [JSONDecodeError].  On a line of 100000 opening brackets it raises
    [RecursionError], which the loop does not handle: nothing is printed
    for the line, the line after it is not read, and the process reports
    the error and exits with status 1. *)
Lemma deep_nesting_ends_the_stream :
  deep_loads deep_line = inl RecursionError
  /\ (forall lib,
        process_stream lib deep_loads [] [deep_line; "{}"]
        = ([], inl RecursionError))
  /\ (forall lib,
        main lib deep_loads (fun _ => "maximum recursion depth exceeded")
             [] [deep_line; "{}"]
        = ([Print "Error: maximum recursion depth exceeded"
                  (Some colors.red) NL false], 1%Z)).
Proof.
  assert (Hs : strip deep_line = deep_line)
    by (apply strip_no_spaces, chars_brackets).
  assert (Hl : deep_loads deep_line = inl RecursionError)
    by (unfold deep_loads; now rewrite String.eqb_refl).
  assert (Ht : truthy_str deep_line = true).
  { unfold deep_line.
    change 100000%N with (N.succ 99999). now rewrite N.iter_succ. }
  assert (Hp : forall lib,
            process_stream lib deep_loads [] [deep_line; "{}"]
            = ([], inl RecursionError)).
  { intros lib. unfold process_stream.
    apply process_lines_other_failure;
      [now rewrite Hs | now rewrite Hs | discriminate]. }
  split; [exact Hl|]. split; [exact Hp|].
  intros lib. unfold main. now rewrite Hp.
Qed.

Lemma rendering_ends_with_blank_line_witness :
  ends_with_one_blank_line
    [Print "⏺ " None EmptyString true;
     Print "Ping" (Some colors.dim) EmptyString true;
     blank_line;
     blank_line]
  /\ format_opencode_event strict_library (VDict [("type", VStr "ping")])
       false =
     tell [Print "⏺ " None EmptyString true;
           Print "Ping" (Some colors.dim) EmptyString true;
           blank_line;
           blank_line].
Proof.
  split.
  - apply (proj1 (proj2 (rendering_ends_with_blank_line strict_library))
             (VDict [("type", VStr "ping")]) false); [reflexivity|].
    repeat constructor.
  - rewrite (proj2 (proj2 (rendering_ends_with_blank_line strict_library))
               [("type", VStr "ping")] false "ping"
               eq_refl eq_refl eq_refl eq_refl eq_refl).
    reflexivity.
Defined.

(** C9 as stated fails: an error message that ends in a line break closes
    its own line, the call's line break then leaves a blank line, and the
    closing call adds a second one. *)
Lemma trailing_break_gives_two_blank_lines :
  (forall lib,
     format_opencode_event lib (VDict boom_break_fields) false =
     tell [Print "❌ " None EmptyString true;
           Print "Error" (Some colors.red) EmptyString true;
           blank_line;
           indent_call;
           Print "Error: " (Some (style_add colors.red colors.bright))
                 EmptyString true;
           Print ("boom" +++ NL) (Some colors.red) NL false;
           blank_line])
  /\ lines_of
       [Print "❌ " None EmptyString true;
        Print "Error" (Some colors.red) EmptyString true;
        blank_line;
        indent_call;
        Print "Error: " (Some (style_add colors.red colors.bright))
              EmptyString true;
        Print ("boom" +++ NL) (Some colors.red) NL false;
        blank_line]
     = Screen [EmptyString; EmptyString; INDENT +++ "Error: boom"; "❌ Error"]
              EmptyString
  /\ ~ ends_with_one_blank_line
         [Print "❌ " None EmptyString true;
          Print "Error" (Some colors.red) EmptyString true;
          blank_line;
          indent_call;
          Print "Error: " (Some (style_add colors.red colors.bright))
                EmptyString true;
          Print ("boom" +++ NL) (Some colors.red) NL false;
          blank_line].
Proof.
  split; [intros lib; reflexivity|]. split; [reflexivity|].
  intros [_ (line & before & Hc & Hl)]. apply Hl.
  vm_compute in Hc. now inversion Hc.
Qed.



Lemma stream_is_processed_line_by_line_witness :
  process_stream strict_library toy_loads [] (["{}"] ++ "  " :: ["{}"]) =
  process_stream strict_library toy_loads [] (["{}"] ++ ["{}"]).
Proof.
  apply (proj2 (stream_is_processed_line_by_line strict_library toy_loads []
                  ["{}"] ["{}"])).
  reflexivity.
Defined.

Lemma rendering_failure_stops_the_stream_witness :
  process_stream strict_library (fun _ => inr (VInt 3)) [] ["3"; "{}"] =
  ([], inl AttributeError).
Proof.
  apply (proj2 (rendering_failure_stops_the_stream strict_library
                  (fun _ => inr (VInt 3)) [] "3" ["{}"] (VInt 3)
                  eq_refl eq_refl) [] AttributeError eq_refl).
  discriminate.
Defined.

Lemma undecodable_stream_exits_zero_witness :
  main strict_library toy_loads (fun _ => "?") ["--debug"]
       ["oops"; "   "; "{"] =
  (parse_error_block "oops" ++ parse_error_block "{", 0%Z).
Proof.
  rewrite (undecodable_stream_exits_zero strict_library toy_loads
             (fun _ => "?") ["--debug"] ["oops"; "   "; "{"]).
  - reflexivity.
  - intros line [<-|[<-|[]]]; reflexivity.
Defined.

Lemma renderer_reads_five_keys_witness :
  format_opencode_event strict_library
    (VDict [("model", VStr "m"); ("type", VStr "session_start")]) true =
  format_opencode_event strict_library
    (VDict [("type", VStr "session_start")]) true.
Proof.
  apply (proj1 (proj2 (renderer_reads_five_keys strict_library
                         [("type", VStr "session_start")] [] true))).
  cbn. intros [H|[H|[H|[H|[H|[]]]]]]; discriminate.
Defined.

Lemma debug_only_prepends_witness :
  format_opencode_event strict_library
    (VDict [("type", VStr "session_end"); ("timestamp", VInt 42);
            ("sessionID", VStr "0123456789abcdef")]) true =
  tell [Print "[42] (session: 01234567...)" (Some colors.dim) " " true;
        Print "🏁 " None EmptyString true;
        Print "Session End"
              (Some (mkStyle (Some Blue) (Some true) None)) EmptyString true;
        blank_line;
        blank_line].
Proof.
  destruct (debug_only_prepends strict_library
              [("type", VStr "session_end"); ("timestamp", VInt 42);
               ("sessionID", VStr "0123456789abcdef")]
              "session_end" "0123456789abcdef" eq_refl eq_refl)
    as (H1 & _ & H3 & _).
  rewrite H1, (H3 eq_refl). reflexivity.
Defined.

Lemma session_events_print_header_only_witness :
  format_opencode_event strict_library
    (VDict [("type", VStr "session_start"); ("part", VInt 7);
            ("error", VStr "ignored")]) false =
  tell [Print "🚀 " None EmptyString true;
        Print "Session Start"
              (Some (mkStyle (Some Green) (Some true) None))
              EmptyString true;
        blank_line;
        blank_line].
Proof.
  rewrite (session_events_print_header_only strict_library
             [("type", VStr "session_start"); ("part", VInt 7);
              ("error", VStr "ignored")] false "session_start" eq_refl
             (or_introl eq_refl)).
  reflexivity.
Defined.


Lemma step_start_suffix_witness :
  format_opencode_event strict_library
    (VDict [("type", VStr "step_start");
            ("part", VDict [("type", VInt 3)])]) false =
  tell [Print "▶️ " None EmptyString true;
        Print "Step Start" (Some colors.blue) EmptyString true;
        Print " - 3" (Some colors.blue) NL true;
        blank_line].
Proof.
  rewrite (step_start_suffix strict_library
             [("type", VStr "step_start");
              ("part", VDict [("type", VInt 3)])]
             [("type", VInt 3)] false eq_refl eq_refl eq_refl).
  reflexivity.
Defined.

Lemma step_finish_integer_duration_witness :
  format_opencode_event strict_library
    (step_finish_event (VInt 1500) (VInt 1000)) false =
  tell [Print "✅ " None EmptyString true;
        Print "Step Finish" (Some colors.green) EmptyString true;
        Print " - build" (Some colors.green) EmptyString true;
        Print " (-500ms)" (Some colors.dim) EmptyString true;
        blank_line;
        blank_line].
Proof.
  unfold step_finish_event.
  rewrite (step_finish_integer_duration strict_library
             [("type", VStr "step_finish");
              ("part",
               VDict [("type", VStr "build");
                      ("time", VDict [("start", VInt 1500);
                                      ("end", VInt 1000)])])]
             [("type", VStr "build");
              ("time", VDict [("start", VInt 1500); ("end", VInt 1000)])]
             [("start", VInt 1500); ("end", VInt 1000)] false 1500 1000
             eq_refl eq_refl eq_refl eq_refl eq_refl
             ltac:(discriminate) ltac:(discriminate) ltac:(cbn; lia)
             eq_refl).
  reflexivity.
Defined.

Lemma step_finish_falsy_time_hides_duration_witness :
  format_opencode_event strict_library
    (step_finish_event (VStr EmptyString) (VList [VInt 1])) false =
  tell [Print "✅ " None EmptyString true;
        Print "Step Finish" (Some colors.green) EmptyString true;
        Print " - build" (Some colors.green) EmptyString true;
        blank_line;
        blank_line].
Proof.
  unfold step_finish_event.
  rewrite (step_finish_falsy_time_hides_duration strict_library
             [("type", VStr "step_finish");
              ("part",
               VDict [("type", VStr "build");
                      ("time", VDict [("start", VStr EmptyString);
                                      ("end", VList [VInt 1])])])]
             [("type", VStr "build");
              ("time", VDict [("start", VStr EmptyString);
                              ("end", VList [VInt 1])])]
             [("start", VStr EmptyString); ("end", VList [VInt 1])] false
             eq_refl eq_refl eq_refl (or_introl eq_refl) eq_refl).
  reflexivity.
Defined.

Lemma tool_use_string_input_witness :
  format_opencode_event strict_library
    (VDict [("type", VStr "tool_use");
            ("part", VDict [("state", VDict [("input", VStr "my url")])])])
    false =
  ([Print "🔧 " None EmptyString true;
    Print "Tool Use" (Some colors.cyan) EmptyString true;
    Print " (unknown)" (Some colors.cyan) EmptyString true;
    blank_line;
    indent_call;
    Print "url: " (Some colors.dim) EmptyString true],
   inl TypeError).
Proof.
  rewrite (tool_use_string_input strict_library
             [("type", VStr "tool_use");
              ("part", VDict [("state", VDict [("input", VStr "my url")])])]
             [("state", VDict [("input", VStr "my url")])]
             [("input", VStr "my url")] "my url" false
             eq_refl eq_refl eq_refl eq_refl ltac:(discriminate) eq_refl).
  reflexivity.
Defined.

Lemma early_failures_witness :
  format_opencode_event strict_library (VList []) true
    = ([], inl AttributeError)
  /\ format_opencode_event strict_library (VDict [("type", VList [])]) true
     = ([], inl TypeError)
  /\ format_opencode_event strict_library
       (VDict [("type", VNone); ("timestamp", VStr "t")]) true
     = ([Print "[t]" (Some colors.dim) " " true;
         Print "⏺ " None EmptyString true], inl AttributeError).
Proof.
  split; [|split].
  - apply (proj1 (early_failures strict_library true)). reflexivity.
  - apply (proj1 (proj2 (early_failures strict_library true))).
    left. now exists [].
  - rewrite (proj2 (proj2 (early_failures strict_library true))
               [("type", VNone); ("timestamp", VStr "t")]
               eq_refl eq_refl ltac:(discriminate)).
    reflexivity.
Defined.

Lemma safe_str_cut_shape_witness :
  safe_str strict_library (VInt 1234567) (Some 3%Z) = "123..."
  /\ safe_str strict_library (VInt 1234567) (Some (-2)%Z) = "12345...".
Proof.
  split.
  - apply (proj1 (proj1 (proj2 (safe_str_cut_shape strict_library
                                  (VInt 1234567) 3))
                   ltac:(vm_compute; split; [discriminate|reflexivity]))).
  - apply (proj2 (proj2 (safe_str_cut_shape strict_library
                           (VInt 1234567) (-2)))
             ltac:(lia)).
Defined.

Lemma stream_output_ends_with_blank_line_witness :
  ends_with_one_blank_line
    (parse_error_block "oops"
     ++ [Print "⏺ " None EmptyString true;
         Print "Unknown" (Some colors.dim) EmptyString true;
         blank_line; blank_line]).
Proof.
  destruct (proj2 (stream_output_ends_with_blank_line strict_library
                     toy_loads [] ["oops"; "{}"] _ eq_refl)
              ltac:(repeat constructor)) as [H|H].
  - discriminate H.
  - exact H.
Defined.

Lemma main_stops_at_first_failure_witness :
  main strict_library
       (fun line => if String.eqb line "7" then inr (VInt 7)
                    else inl JSONDecodeError)
       (fun _ => "no get") [] ["x"; "7"; "y"] =
  (parse_error_block "x"
   ++ [Print "Error: no get" (Some colors.red) NL false], 1%Z).
Proof.
  apply (main_stops_at_first_failure strict_library
           (fun line => if String.eqb line "7" then inr (VInt 7)
                        else inl JSONDecodeError)
           (fun _ => "no get") [] ["x"] ["y"] "7" (VInt 7)
           (parse_error_block "x") [] AttributeError
           eq_refl eq_refl eq_refl eq_refl).
  discriminate.
Defined.

Lemma only_the_debug_flag_matters_witness :
  process_stream strict_library toy_loads ["-v"; "--debug"; "--debug"]
                 ["{}"] =
  process_stream strict_library toy_loads ["--debug"] ["{}"].
Proof.
  apply (only_the_debug_flag_matters strict_library toy_loads
           ["-v"; "--debug"; "--debug"] ["--debug"] ["{}"]).
  cbn. tauto.
Defined.

Lemma content_that_is_not_a_string_witness :
  format_opencode_event strict_library
    (VDict [("type", VStr "thinking"); ("part", VDict [("text", VInt 5)])])
    false =
  ([Print "🤔 " None EmptyString true;
    Print "Thinking" (Some colors.magenta) EmptyString true;
    blank_line], inl AttributeError).
Proof.
  rewrite (proj2 (content_that_is_not_a_string strict_library
                    [("type", VStr "thinking");
                     ("part", VDict [("text", VInt 5)])]
                    [("text", VInt 5)] false "thinking"
                    eq_refl (or_intror eq_refl) eq_refl)
             eq_refl eq_refl).
  reflexivity.
Defined.

Lemma step_finish_times_that_are_not_numbers_witness :
  format_opencode_event strict_library
    (step_finish_event (VStr "10:00") (VStr "10:05")) false =
  ([Print "✅ " None EmptyString true;
    Print "Step Finish" (Some colors.green) EmptyString true],
   inl TypeError).
Proof.
  unfold step_finish_event.
  rewrite (step_finish_times_that_are_not_numbers strict_library
             [("type", VStr "step_finish");
              ("part",
               VDict [("type", VStr "build");
                      ("time", VDict [("start", VStr "10:00");
                                      ("end", VStr "10:05")])])]
             [("type", VStr "build");
              ("time", VDict [("start", VStr "10:00");
                              ("end", VStr "10:05")])]
             [("start", VStr "10:00"); ("end", VStr "10:05")] false
             eq_refl eq_refl eq_refl eq_refl eq_refl (or_introl eq_refl)).
  reflexivity.
Defined.
